(** * SciMuse: the plan / retrieve / reason / review controller

    A shallow embedding of the orchestration core of SciMuse
    ([main.py], [app.py], [agents/*.py], [schema.py]) and the properties
    its specification states about it.

    Python values are embedded as follows.
    - [str] is [string]; a character stands for a code point below 256.
    - [float] is the primitive binary64 [float].
    - what [json.loads] returns is a [pyval].
    - a call that may raise is a [result]: [Return v] or [Raise e].
    - the standard library and pydantic are not part of the repository:
      the environment they provide is the class [Library].
    - Rich is not part of the repository either: what its [console.print]
      does with a line of main.py is a [Console]. *)

From Stdlib Require Import PrimFloat String Ascii ZArith List Arith Bool Lia.
From Stdlib Require FloatOps SpecFloat DecimalString.
From Equations Require Import Equations.
Import ListNotations.
Local Open Scope string_scope.
Local Open Scope list_scope.
Set Warnings "-register-all".

(** ** Python values, exceptions and strings *)

Module Py.

Inductive pyval : Type :=
| PNone
| PBool (b : bool)
| PInt (z : Z)
| PFloat (f : float)
| PStr (s : string)
| PList (l : list pyval)
| PDict (d : list (string * pyval)).

(** The exception classes the stages can meet. Every one of them derives
    from [Exception]; [JSONDecodeError] is the only one the stages name.
    [MarkupError] is the one [console.print] of main.py raises. *)
Inductive exc_class : Type :=
| JSONDecodeError
| ValidationError
| AttributeError
| TypeError
| ValueError
| OverflowError
| RuntimeError
| MarkupError.

Definition exc_class_eqb (c1 c2 : exc_class) : bool :=
  match c1, c2 with
  | JSONDecodeError, JSONDecodeError
  | ValidationError, ValidationError
  | AttributeError, AttributeError
  | TypeError, TypeError
  | ValueError, ValueError
  | OverflowError, OverflowError
  | RuntimeError, RuntimeError
  | MarkupError, MarkupError => true
  | _, _ => false
  end.

(** An exception object: its class and [str(e)]. *)
Record exception : Type := Exc { exc_type : exc_class; exc_str : string }.

Inductive result (A : Type) : Type :=
| Return (a : A)
| Raise (e : exception).
Arguments Return {A} a.
Arguments Raise {A} e.

Definition bind {A B : Type} (c : result A) (k : A -> result B) : result B :=
  match c with
  | Return a => k a
  | Raise e => Raise e
  end.

(** [try: body  except <classes> as e: handler e]. *)
Definition try_except {A : Type} (body : result A)
    (catches : exc_class -> bool) (handler : exception -> result A) : result A :=
  match body with
  | Return a => Return a
  | Raise e => if catches (exc_type e) then handler e else Raise e
  end.

(** [except Exception] catches every class above. *)
Definition Exception : exc_class -> bool := fun _ => true.

Fixpoint mapM {A B : Type} (f : A -> result B) (l : list A) : result (list B) :=
  match l with
  | [] => Return []
  | x :: xs =>
      bind (f x) (fun y => bind (mapM f xs) (fun ys => Return (y :: ys)))
  end.

(** Truth value of an [Optional[str]]: [None] and [""] are false. *)
Definition truthy (o : option string) : bool :=
  match o with
  | None => false
  | Some s => negb (String.eqb s "")
  end.

Definition type_name (v : pyval) : string :=
  match v with
  | PNone => "NoneType"
  | PBool _ => "bool"
  | PInt _ => "int"
  | PFloat _ => "float"
  | PStr _ => "str"
  | PList _ => "list"
  | PDict _ => "dict"
  end.

Definition no_attribute {A : Type} (v : pyval) (attr : string) : result A :=
  Raise (Exc AttributeError
           ("'" ++ type_name v ++ "' object has no attribute '" ++ attr ++ "'")).

Fixpoint lookup (key : string) (d : list (string * pyval)) : option pyval :=
  match d with
  | [] => None
  | (k, v) :: rest => if String.eqb k key then Some v else lookup key rest
  end.

(** [data.get(key, default)]: only a dict has the method. *)
Definition get (data : pyval) (key : string) (default : pyval) : result pyval :=
  match data with
  | PDict d =>
      Return (match lookup key d with Some v => v | None => default end)
  | _ => no_attribute data "get"
  end.

(** *** Strings *)

Definition nl : string := String (ascii_of_nat 10) "".

(** [str.isspace] on one character (code points below 256). *)
Definition isspace (c : ascii) : bool :=
  let n := nat_of_ascii c in
  (Nat.leb 9 n && Nat.leb n 13) || (Nat.leb 28 n && Nat.leb n 32)
  || Nat.eqb n 133 || Nat.eqb n 160.

Fixpoint lstrip (s : string) : string :=
  match s with
  | String c rest => if isspace c then lstrip rest else s
  | EmptyString => EmptyString
  end.

Fixpoint rstrip (s : string) : string :=
  match s with
  | String c rest =>
      match rstrip rest with
      | EmptyString => if isspace c then EmptyString else String c EmptyString
      | kept => String c kept
      end
  | EmptyString => EmptyString
  end.

Definition strip (s : string) : string := rstrip (lstrip s).

Definition startswith (s p : string) : bool := String.prefix p s.

(** [s[n:]] *)
Definition slice_from (n : nat) (s : string) : string :=
  substring n (String.length s - n) s.

(** [s[:-n]] *)
Definition slice_to_minus (n : nat) (s : string) : string :=
  substring 0 (String.length s - n) s.

Definition endswith (s p : string) : bool :=
  Nat.leb (String.length p) (String.length s)
  && String.eqb (slice_from (String.length s - String.length p) s) p.

End Py.
Export Py.

(** [inspect x] keeps the equation between [x] and the pattern it is
    matched against. *)
Definition inspect {A : Type} (x : A) : {y : A | x = y} := exist _ x eq_refl.

Declare Scope py_scope.
Notation "x <- c ;; k" := (bind c (fun x => k))
  (at level 61, c at next level, right associativity) : py_scope.
Local Open Scope py_scope.

(** The part of the Python environment the stages call into:
    [json.loads], the builtins [float] and [repr], and pydantic's field
    validators. Only what holds of every version is assumed: a value that
    already has the field's type is accepted unchanged. *)
Class Library : Type := {
  json_loads : string -> result pyval;
  builtin_float : pyval -> result float;
  builtin_repr : pyval -> string;
  validate_str : pyval -> result string;
  validate_bool : pyval -> result bool;
  validate_list : pyval -> result (list pyval);
  validate_str_str : forall s, validate_str (PStr s) = Return s;
  validate_bool_bool : forall b, validate_bool (PBool b) = Return b;
  validate_list_list : forall l, validate_list (PList l) = Return l;
  builtin_float_float : forall f, builtin_float (PFloat f) = Return f
}.

(** ** schema.py *)

Inductive AgentDecision : Type := ACCEPT | REJECT.

Definition AgentDecision_eqb (d1 d2 : AgentDecision) : bool :=
  match d1, d2 with
  | ACCEPT, ACCEPT | REJECT, REJECT => true
  | _, _ => false
  end.

Record PlannerOutput : Type := {
  reasoning : string;
  search_queries : list string;
  need_visual_understanding : bool
}.

Record ReasonerOutput : Type := {
  draft_answer : string;
  citations : list string;
  reasoning_trace : string
}.

Record ReviewerOutput : Type := {
  confidence_score : float;
  decision : AgentDecision;
  critique : option string;
  feedback_for_retriever : option string
}.

Section Schema.
Context {lib : Library}.

(** [List[str]] *)
Definition validate_list_str (v : pyval) : result (list string) :=
  items <- validate_list v ;;
  mapM validate_str items.

(** [Optional[str]] *)
Definition validate_optional_str (v : pyval) : result (option string) :=
  match v with
  | PNone => Return None
  | _ => s <- validate_str v ;; Return (Some s)
  end.

(** [PlannerOutput(reasoning=.., search_queries=.., need_visual_understanding=..)] *)
Definition PlannerOutput_init (reasoning_ search_queries_ need_visual_ : pyval)
  : result PlannerOutput :=
  r <- validate_str reasoning_ ;;
  qs <- validate_list_str search_queries_ ;;
  nv <- validate_bool need_visual_ ;;
  Return {| reasoning := r; search_queries := qs;
            need_visual_understanding := nv |}.

(** [ReasonerOutput(reasoning_trace=.., draft_answer=.., citations=..)] *)
Definition ReasonerOutput_init (reasoning_trace_ draft_answer_ citations_ : pyval)
  : result ReasonerOutput :=
  a <- validate_str draft_answer_ ;;
  cs <- validate_list_str citations_ ;;
  t <- validate_str reasoning_trace_ ;;
  Return {| draft_answer := a; citations := cs; reasoning_trace := t |}.

(** [ReviewerOutput(confidence_score=.., decision=.., critique=..,
    feedback_for_retriever=..)]; the first two arguments already have
    their field's type at both call sites. *)
Definition ReviewerOutput_init (score : float) (dec : AgentDecision)
    (critique_ feedback_ : pyval) : result ReviewerOutput :=
  c <- validate_optional_str critique_ ;;
  f <- validate_optional_str feedback_ ;;
  Return {| confidence_score := score; decision := dec;
            critique := c; feedback_for_retriever := f |}.

(** [AgentDecision(value)]: lookup of a member by value. *)
Definition AgentDecision_call (v : pyval) : result AgentDecision :=
  match v with
  | PStr s =>
      if String.eqb s "ACCEPT" then Return ACCEPT
      else if String.eqb s "REJECT" then Return REJECT
      else Raise (Exc ValueError (builtin_repr v ++ " is not a valid AgentDecision"))
  | _ => Raise (Exc ValueError (builtin_repr v ++ " is not a valid AgentDecision"))
  end.

End Schema.

(** ** agents/*.py *)

(** What [self.model(messages)] hands back: an object with a [content]
    attribute, or anything else, of which the stages take [str(response)]. *)
Inductive response : Type :=
| ChatMessage (content : pyval)
| Opaque (str_response : string).

(** [response.content if hasattr(response, "content") else str(response)] *)
Definition content_of (r : response) : pyval :=
  match r with
  | ChatMessage c => c
  | Opaque s => PStr s
  end.

(** [_clean_json_output], the same text in the planner, the reasoner and
    the reviewer. *)
Definition _clean_json_output (raw_output : string) : string :=
  let raw_output := strip raw_output in
  let raw_output :=
    if startswith raw_output "```json" then slice_from 7 raw_output
    else raw_output in
  let raw_output :=
    if startswith raw_output "```" then slice_from 3 raw_output
    else raw_output in
  let raw_output :=
    if endswith raw_output "```" then slice_to_minus 3 raw_output
    else raw_output in
  strip raw_output.

(** The call [self._clean_json_output(content)]: [content] is whatever the
    response carried, and its first use is [content.strip()]. *)
Definition clean_content (content : pyval) : result string :=
  match content with
  | PStr s => Return (_clean_json_output s)
  | _ => no_attribute content "strip"
  end.

Module PlannerAgent.
Section PlannerAgent.
Context {lib : Library}.

(** [outcome] is what the call [self.model(messages)] does. *)
Definition plan (user_query : string) (outcome : result response)
  : result PlannerOutput :=
  try_except
    (response <- outcome ;;
     let content := content_of response in
     cleaned_json <- clean_content content ;;
     try_except
       (data <- json_loads cleaned_json ;;
        reasoning_ <- get data "reasoning" (PStr "No reasoning provided.") ;;
        search_queries_ <- get data "search_queries" (PList [PStr user_query]) ;;
        need_visual_ <- get data "need_visual_understanding" (PBool false) ;;
        PlannerOutput_init reasoning_ search_queries_ need_visual_)
       (exc_class_eqb JSONDecodeError)
       (fun _ =>
          PlannerOutput_init
            (PStr "JSON parsing failed, using original query.")
            (PList [PStr user_query])
            (PBool false)))
    Exception
    (fun e =>
       PlannerOutput_init
         (PStr ("System error: " ++ exc_str e))
         (PList [PStr user_query])
         (PBool false)).

End PlannerAgent.
End PlannerAgent.

Module ReasonerAgent.
Section ReasonerAgent.
Context {lib : Library}.

(** [run] with [vl_results=[]], the only way the pipelines call it.
    [query] and [retriever_result] only reach the prompt, that is
    [outcome]. *)
Definition run (query retriever_result : string) (outcome : result response)
  : result ReasonerOutput :=
  try_except
    (response <- outcome ;;
     let content := content_of response in
     cleaned_json <- clean_content content ;;
     try_except
       (data <- json_loads cleaned_json ;;
        trace_ <- get data "reasoning_trace" (PStr "No trace provided.") ;;
        answer_ <- get data "draft_answer" (PStr "No answer provided.") ;;
        citations_ <- get data "citations" (PList []) ;;
        ReasonerOutput_init trace_ answer_ citations_)
       (exc_class_eqb JSONDecodeError)
       (fun _ =>
          ReasonerOutput_init (PStr "JSON Parse Error") content (PList [])))
    Exception
    (fun e =>
       ReasonerOutput_init
         (PStr "System Error")
         (PStr ("An error occurred while generating the answer: " ++ exc_str e))
         (PList [])).

End ReasonerAgent.
End ReasonerAgent.

Module ReviewerAgent.
Section ReviewerAgent.
Context {lib : Library}.

Definition review (query : string) (reasoner_output : ReasonerOutput)
    (outcome : result response) : result ReviewerOutput :=
  try_except
    (response <- outcome ;;
     let content := content_of response in
     cleaned_json <- clean_content content ;;
     data <- json_loads cleaned_json ;;
     score_ <- get data "confidence_score" (PFloat 0) ;;
     score <- builtin_float score_ ;;
     decision_ <- get data "decision" (PStr "REJECT") ;;
     dec <- AgentDecision_call decision_ ;;
     critique_ <- get data "critique" (PStr "No critique provided.") ;;
     feedback_ <- get data "feedback_for_retriever" PNone ;;
     ReviewerOutput_init score dec critique_ feedback_)
    Exception
    (fun e =>
       ReviewerOutput_init 0 REJECT
         (PStr ("System error during review: " ++ exc_str e))
         (PStr "System error, please retry aggregation.")).

End ReviewerAgent.
End ReviewerAgent.

Module RetrieverAgent.

(** [outcome] is what [self.agent.run(task)] does: it returns the evidence
    found, a text, or raises. *)
Definition run (query : string) (outcome : result string) : result string :=
  try_except
    (result_ <- outcome ;; Return result_)
    Exception
    (fun e => Return ("Retriever failed: " ++ exc_str e)%string).

End RetrieverAgent.

(** ** main.py and app.py: the pipelines *)

(** The four agent objects as the pipelines use them. A method's first
    argument counts the calls made before in the session ([retriever_run])
    or is the attempt it serves ([reasoner_run], [reviewer_review], called
    once per attempt): two calls with the same arguments need not agree. *)
Record Agents : Type := {
  planner_plan : string -> result PlannerOutput;
  retriever_run : nat -> string -> result string;
  reasoner_run : nat -> string -> string -> result ReasonerOutput;
  reviewer_review : nat -> string -> ReasonerOutput -> result ReviewerOutput
}.

(** What a session prints ([console.print] in main.py, [logs] in app.py),
    one entry per stage call. *)
Inductive event : Type :=
| Planned (plan : PlannerOutput)
| Searched (query result_ : string)
| Drafted (attempt : nat) (effective_query context : string)
          (draft : ReasonerOutput)
| Reviewed (attempt : nat) (review : ReviewerOutput)
| Supplemented (attempt : nat) (query evidence : string).

(** The local variables of a pipeline. [draft_output] is unbound before
    the first attempt; [searches] counts the calls of [retriever.run]. *)
Record vars : Type := {
  aggregated_context : string;
  current_attempt : nat;
  feedback : option string;
  final_answer : option ReasonerOutput;
  draft_output : option ReasonerOutput;
  searches : nat;
  log : list event
}.

(** The lines main.py hands to [console.print] with text of the session
    interpolated into Rich markup, each given by what it interpolates:
    - [UserQuery q]: [Panel(user_query, title="User Query", ...)];
    - [PlanReasoning r]: [f"[yellow]Plan Reasoning:[/yellow] {plan.reasoning}"];
    - [SearchQueries qs]: [f"[yellow]Search Queries:[/yellow] {plan.search_queries}"];
    - [Searching q]: [f"   -> Searching: '{query}'"];
    - [Critique c]: [f"[bold orange3]Critique:[/bold orange3] {review.critique}"];
    - [SupplementalSearch q]:
      [f"[magenta]Executing Supplemental Search:[/magenta] {review.feedback_for_retriever}"]. *)
Inductive line : Type :=
| UserQuery (user_query : string)
| PlanReasoning (reasoning : string)
| SearchQueries (search_queries : list string)
| Searching (query : string)
| Critique (critique : option string)
| SupplementalSearch (query : string).

(** Where a session writes such a line. Rich reads the text as markup and
    raises [MarkupError] at a closing tag that closes nothing, so
    [console.print] of main.py can raise, on what depends on the text; the
    [logs +=] of app.py cannot. The other prints of the loop take no text
    of the session into markup (the draft goes through [Markdown], the
    decision is one of two words, the score is a float,
    [need_visual_understanding] a bool, the rest are literals): they
    return and are left out. *)
Record Console : Type := { console_print : line -> result unit }.

(** app.py: [logs += ...]. *)
Definition logs : Console := {| console_print := fun _ => Return tt |}.

(** The two places where main.py and app.py word things differently. *)
Record Wording : Type := {
  feedback_note : string -> string;
  supplemental_block : string -> string
}.

Definition main_wording : Wording := {|
  feedback_note fb :=
    (nl ++ nl ++ "(PREVIOUS FEEDBACK: " ++ fb ++ ". Please improve the answer.)")%string;
  supplemental_block ev :=
    (nl ++ "--- Supplemental Evidence ---" ++ nl ++ ev ++ nl)%string
|}.

Definition app_wording : Wording := {|
  feedback_note fb :=
    (nl ++ "(Critique from previous turn: " ++ fb ++ ")")%string;
  supplemental_block ev :=
    (nl ++ "--- Supplemental ---" ++ nl ++ ev ++ nl)%string
|}.

(** [f"\n--- Search Result for '{query}' ---\n{result}\n"] *)
Definition search_block (query result_ : string) : string :=
  (nl ++ "--- Search Result for '" ++ query ++ "' ---" ++ nl ++ result_ ++ nl)%string.

Definition init_vars (plan : PlannerOutput) : vars := {|
  aggregated_context := "";
  current_attempt := 0;
  feedback := Some "";
  final_answer := None;
  draft_output := None;
  searches := 0;
  log := [Planned plan]
|}.

(** [aggregated_context += block] after one more call of [retriever.run]. *)
Definition add_evidence (st : vars) (block : string) (ev : event) : vars := {|
  aggregated_context := (aggregated_context st ++ block)%string;
  current_attempt := current_attempt st;
  feedback := feedback st;
  final_answer := final_answer st;
  draft_output := draft_output st;
  searches := S (searches st);
  log := log st ++ [ev]
|}.

Section Pipeline.
Variable wording : Wording.
Variable console : Console.
Variable max_retries : nat.
Variable agents : Agents.
Variable user_query : string.

(** [for query in plan.search_queries: ...] *)
Fixpoint search_all (queries : list string) (st : vars) : result vars :=
  match queries with
  | [] => Return st
  | query :: rest =>
      _ <- console_print console (Searching query) ;;
      result_ <- retriever_run agents (searches st) query ;;
      search_all rest
        (add_evidence st (search_block query result_) (Searched query result_))
  end.

(** The [if review.feedback_for_retriever:] block. *)
Definition supplemental_search (st : vars) (review : ReviewerOutput)
  : result vars :=
  match feedback_for_retriever review with
  | Some query =>
      if truthy (Some query) then
        _ <- console_print console (SupplementalSearch query) ;;
        new_evidence <- retriever_run agents (searches st) query ;;
        Return (add_evidence st (supplemental_block wording new_evidence)
                  (Supplemented (current_attempt st) query new_evidence))
      else Return st
  | None => Return st
  end.

(** [effective_query]: the query, and the critique of the attempt before
    when there is one. *)
Definition effective_query (st : vars) : string :=
  match feedback st with
  | Some fb =>
      if truthy (Some fb) then (user_query ++ feedback_note wording fb)%string
      else user_query
  | None => user_query
  end.

(** One pass through the body of the [while]: the variables after it, and
    [false] when it left through [break]. *)
Definition attempt (st : vars) : result (vars * bool) :=
  let effective_query := effective_query st in
  draft <- reasoner_run agents (current_attempt st) effective_query
             (aggregated_context st) ;;
  review <- reviewer_review agents (current_attempt st) user_query draft ;;
  let st1 := {|
    aggregated_context := aggregated_context st;
    current_attempt := current_attempt st;
    feedback := feedback st;
    final_answer := final_answer st;
    draft_output := Some draft;
    searches := searches st;
    log := log st ++ [Drafted (current_attempt st) effective_query
                        (aggregated_context st) draft;
                      Reviewed (current_attempt st) review]
  |} in
  match decision review with
  | ACCEPT =>
      Return ({| aggregated_context := aggregated_context st1;
                 current_attempt := current_attempt st1;
                 feedback := feedback st1;
                 final_answer := Some draft;
                 draft_output := draft_output st1;
                 searches := searches st1;
                 log := log st1 |}, false)
  | REJECT =>
      _ <- console_print console (Critique (critique review)) ;;
      st2 <- supplemental_search
               {| aggregated_context := aggregated_context st1;
                  current_attempt := current_attempt st1;
                  feedback := critique review;
                  final_answer := final_answer st1;
                  draft_output := draft_output st1;
                  searches := searches st1;
                  log := log st1 |} review ;;
      Return ({| aggregated_context := aggregated_context st2;
                 current_attempt := S (current_attempt st2);
                 feedback := feedback st2;
                 final_answer := final_answer st2;
                 draft_output := draft_output st2;
                 searches := searches st2;
                 log := log st2 |}, true)
  end.

(** [while current_attempt <= max_retries: ...] *)
Equations? review_loop (st : vars) : result vars
  by wf (S max_retries - current_attempt st) lt :=
review_loop st with inspect (Nat.leb (current_attempt st) max_retries) := {
  | exist _ false _ => Return st
  | exist _ true Hle with inspect (attempt st) := {
      | exist _ (Raise e) _ => Raise e
      | exist _ (Return (st', false)) _ => Return st'
      | exist _ (Return (st', true)) Hnext => review_loop st' } }.
Proof.
  apply Nat.leb_le in Hle.
  assert (Hinc : current_attempt st' = S (current_attempt st)).
  { clear review_loop Hle. unfold attempt in Hnext.
    destruct (reasoner_run agents _ _ _) as [draft|];
      cbn [bind] in Hnext; [|discriminate].
    destruct (reviewer_review agents _ _ _) as [review|];
      cbn [bind] in Hnext; [|discriminate].
    destruct (decision review); [discriminate|].
    destruct (console_print console (Critique _));
      cbn [bind] in Hnext; [|discriminate].
    unfold supplemental_search in Hnext.
    destruct (feedback_for_retriever review) as [q|]; cbn [bind] in Hnext.
    - destruct (truthy (Some q)); cbn [bind] in Hnext.
      + destruct (console_print console (SupplementalSearch _));
          cbn [bind] in Hnext; [|discriminate].
        destruct (retriever_run agents _ q); cbn [bind] in Hnext; [|discriminate].
        now inversion Hnext.
      + now inversion Hnext.
    - now inversion Hnext. }
  rewrite Hinc. destruct (current_attempt st); lia.
Qed.

(** Everything after [plan = planner.plan(...)]. *)
Definition answer (plan : PlannerOutput) : result vars :=
  st <- search_all (search_queries plan) (init_vars plan) ;;
  review_loop st.

End Pipeline.

(** main.py: [run_chat_pipeline(cfg, user_query)] up to the end of the
    loop, with [console] and [max_retries] made parameters; its value is
    the local variables there. What it prints after the loop is
    [final_output] below. *)
Definition run_chat_pipeline_with (console : Console) (max_retries : nat)
    (agents : Agents) (user_query : string) : result vars :=
  _ <- console_print console (UserQuery user_query) ;;
  plan <- planner_plan agents user_query ;;
  _ <- console_print console (PlanReasoning (reasoning plan)) ;;
  _ <- console_print console (SearchQueries (search_queries plan)) ;;
  answer main_wording console max_retries agents user_query plan.

Definition max_retries : nat := 2.

Definition run_chat_pipeline (console : Console)
  : Agents -> string -> result vars :=
  run_chat_pipeline_with console max_retries.

(** app.py: how [chat_pipeline(user_message, history)] ends. *)
Inductive chat_end : Type :=
| NoQuestion
| PlannerError (e : exception)
| Answered (st : vars).

Definition chat_pipeline_with (max_retries : nat) (agents : Agents)
    (user_message : string) : result chat_end :=
  if String.eqb user_message "" then Return NoQuestion
  else
    match planner_plan agents user_message with
    | Raise e => Return (PlannerError e)
    | Return plan =>
        st <- answer app_wording logs max_retries agents user_message plan ;;
        Return (Answered st)
    end.

Definition chat_pipeline : Agents -> string -> result chat_end :=
  chat_pipeline_with max_retries.

(** ** The agents over their external capabilities *)

(** What the generation capability and the evidence lookup do at each
    call; nothing is assumed of them. *)
Record Capabilities : Type := {
  planner_model : string -> result response;
  retriever_agent : nat -> string -> result string;
  reasoner_model : nat -> string -> string -> result response;
  reviewer_model : nat -> string -> ReasonerOutput -> result response
}.

Definition agents_of {lib : Library} (caps : Capabilities) : Agents := {|
  planner_plan q := PlannerAgent.plan q (planner_model caps q);
  retriever_run n q := RetrieverAgent.run q (retriever_agent caps n q);
  reasoner_run n q ctx := ReasonerAgent.run q ctx (reasoner_model caps n q ctx);
  reviewer_review n q d := ReviewerAgent.review q d (reviewer_model caps n q d)
|}.

(** ** Reading a session's log *)

Definition is_draft (ev : event) : bool :=
  match ev with Drafted _ _ _ _ => true | _ => false end.

Definition is_review (ev : event) : bool :=
  match ev with Reviewed _ _ => true | _ => false end.

(** Numbers of Reason calls and of Review calls. *)
Definition drafts (l : list event) : nat := length (filter is_draft l).
Definition reviews (l : list event) : nat := length (filter is_review l).

(** The queries of the planned round and of the supplemental calls, in
    the order of the calls. *)
Fixpoint searched (l : list event) : list string :=
  match l with
  | Searched q _ :: rest => q :: searched rest
  | _ :: rest => searched rest
  | [] => []
  end.

Fixpoint supplemented (l : list event) : list (nat * string) :=
  match l with
  | Supplemented i q _ :: rest => (i, q) :: supplemented rest
  | _ :: rest => supplemented rest
  | [] => []
  end.

(** The evidence block a log amounts to: one segment per retrieval call,
    in the order of the calls. *)
Fixpoint render (w : Wording) (l : list event) : string :=
  match l with
  | Searched q r :: rest => (search_block q r ++ render w rest)%string
  | Supplemented _ _ ev :: rest => (supplemental_block w ev ++ render w rest)%string
  | _ :: rest => render w rest
  | [] => ""
  end.

(** [review.confidence_score] put aside: what is left of a verdict, of an
    event, of the variables. *)
Definition without_score (v : ReviewerOutput) : ReviewerOutput := {|
  confidence_score := 0;
  decision := decision v;
  critique := critique v;
  feedback_for_retriever := feedback_for_retriever v
|}.

Definition event_without_score (ev : event) : event :=
  match ev with
  | Reviewed i v => Reviewed i (without_score v)
  | _ => ev
  end.

Definition vars_without_score (st : vars) : vars := {|
  aggregated_context := aggregated_context st;
  current_attempt := current_attempt st;
  feedback := feedback st;
  final_answer := final_answer st;
  draft_output := draft_output st;
  searches := searches st;
  log := map event_without_score (log st)
|}.

Definition chat_end_without_score (e : chat_end) : chat_end :=
  match e with
  | Answered st => Answered (vars_without_score st)
  | _ => e
  end.

Definition map_result {A B : Type} (f : A -> B) (r : result A) : result B :=
  match r with
  | Return a => Return (f a)
  | Raise e => Raise e
  end.

(** One pass, up to the scores. *)
Definition pass_without_score (r : result (vars * bool)) : result (vars * bool) :=
  map_result (fun p => (vars_without_score (fst p), snd p)) r.

(** ** A reference library

    The behaviour of CPython 3.11 and pydantic 2, to run the stages on
    concrete texts: [json.loads] with the messages of its C scanner,
    [float], [repr] and the lax field validators. Strings stay within
    code points below 256: a [\u] escape beyond them is reported as an
    invalid escape. A pydantic error is rendered by its [type=...] tag
    alone. No property below depends on this instance but through the
    examples that run on it. *)

Module CPython.

Definition dquote : ascii := ascii_of_nat 34.
Definition backslash : ascii := ascii_of_nat 92.
Definition quoted (s : string) : string :=
  (String dquote s ++ String dquote "")%string.

Definition is_digit (c : ascii) : bool :=
  let n := nat_of_ascii c in Nat.leb 48 n && Nat.leb n 57.

Definition digit_value (c : ascii) : Z := Z.of_nat (nat_of_ascii c - 48).

Definition string_of_Z (z : Z) : string :=
  DecimalString.NilZero.string_of_int (Z.to_int z).

Definition string_of_nat (n : nat) : string := string_of_Z (Z.of_nat n).

(** *** Decimal to binary64, and back *)

(** The float nearest to [p / q], ties to even, for [0 < p] and [0 < q]. *)
Definition nearest_float (p q : Z) : float :=
  let k := (Z.log2 p - Z.log2 q)%Z in
  let scaled (s : Z) : Z * Z :=
    if (0 <=? s)%Z then ((p * 2 ^ s)%Z, q) else (p, (q * 2 ^ (- s))%Z) in
  let s0 := (52 - k)%Z in
  let s1 :=
    let '(num, den) := scaled s0 in
    if (num / den <? 2 ^ 52)%Z then (s0 + 1)%Z else s0 in
  let s := Z.min s1 1074 in
  let '(num, den) := scaled s in
  let n := (num / den)%Z in
  let r := (num mod den)%Z in
  let n' :=
    if (2 * r <? den)%Z then n
    else if (den <? 2 * r)%Z then (n + 1)%Z
    else if Z.even n then n else (n + 1)%Z in
  match n' with
  | Zpos m => FloatOps.SF2Prim (SpecFloat.S754_finite false m (- s))
  | _ => PrimFloat.zero
  end.

(** The float written [m * 10 ^ e], with its sign. *)
Definition float_of_decimal (neg : bool) (m e : Z) : float :=
  let f :=
    if (m =? 0)%Z then PrimFloat.zero
    else if (0 <=? e)%Z then nearest_float (m * 10 ^ e) 1
    else nearest_float m (10 ^ (- e)) in
  if neg then PrimFloat.opp f else f.

(** [m * 2 ^ e] as a fraction. *)
Definition fraction_of (m : positive) (e : Z) : Z * Z :=
  if (0 <=? e)%Z then ((Zpos m * 2 ^ e)%Z, 1%Z) else (Zpos m, (2 ^ (- e))%Z).

(** The least [d] with [p / q < 10 ^ d], searched upwards from [d0]. *)
Fixpoint decimal_point (fuel : nat) (p q d : Z) : Z :=
  match fuel with
  | O => d
  | S fuel =>
      let below :=
        if (0 <=? d)%Z then (p <? q * 10 ^ d)%Z else (p * 10 ^ (- d) <? q)%Z in
      if below then d else decimal_point fuel p q (d + 1)%Z
  end.

(** The shortest digit string that reads back as [f], the nearest to [f]
    among the shortest, for [f = p / q] positive and finite and
    [10 ^ (d - 1) <= f < 10 ^ d]: the digits [c] as a number and the scale
    [sc], for [c * 10 ^ (- sc)]. *)
Fixpoint shortest_digits (fuel : nat) (f : float) (p q d : Z) (n : Z) : Z * Z :=
  match fuel with
  | O => (0%Z, 0%Z)
  | S fuel =>
      let sc := (n - d)%Z in
      let '(num, den) :=
        if (0 <=? sc)%Z then ((p * 10 ^ sc)%Z, q) else (p, (q * 10 ^ (- sc))%Z) in
      let lo := (num / den)%Z in
      let r := (num mod den)%Z in
      let hi := (lo + 1)%Z in
      let reads (c : Z) : bool :=
        PrimFloat.eqb (float_of_decimal false c (- sc)) f in
      let lo_ok := reads lo in
      let hi_ok := negb (r =? 0)%Z && reads hi in
      if lo_ok && hi_ok then
        (if (2 * r <? den)%Z then lo
         else if (den <? 2 * r)%Z then hi
         else if Z.even lo then lo else hi, sc)
      else if lo_ok then (lo, sc)
      else if hi_ok then (hi, sc)
      else shortest_digits fuel f p q d (n + 1)%Z
  end.

Fixpoint strip_zeros (fuel : nat) (c : Z) : Z :=
  match fuel with
  | O => c
  | S fuel => if (c mod 10 =? 0)%Z then strip_zeros fuel (c / 10)%Z else c
  end.

Fixpoint zeros (n : nat) : string :=
  match n with O => "" | S n => String "0" (zeros n) end.

(** [repr] of a positive finite float from its digits [ds] and the
    position [decpt] of the point: [0.ds * 10 ^ decpt]. *)
Definition format_repr (ds : string) (decpt : Z) : string :=
  let len := Z.of_nat (String.length ds) in
  if ((decpt <=? -4) || (16 <? decpt))%Z then
    let e := (decpt - 1)%Z in
    let mant :=
      match ds with
      | String c EmptyString => ds
      | String c rest => String c (String "." rest)
      | EmptyString => ds
      end in
    let es := string_of_Z (Z.abs e) in
    let es := if Nat.ltb (String.length es) 2 then String "0" es else es in
    mant ++ "e" ++ (if (e <? 0)%Z then "-" else "+") ++ es
  else if (decpt <=? 0)%Z then
    "0." ++ zeros (Z.to_nat (- decpt)) ++ ds
  else if (len <=? decpt)%Z then
    ds ++ zeros (Z.to_nat (decpt - len)) ++ ".0"
  else
    substring 0 (Z.to_nat decpt) ds ++ "."
    ++ substring (Z.to_nat decpt) (Z.to_nat (len - decpt)) ds.

(** [repr(f)] *)
Definition repr_float (f : float) : string :=
  match FloatOps.Prim2SF f with
  | SpecFloat.S754_nan => "nan"
  | SpecFloat.S754_infinity s => if s then "-inf" else "inf"
  | SpecFloat.S754_zero s => if s then "-0.0" else "0.0"
  | SpecFloat.S754_finite s m e =>
      let '(p, q) := fraction_of m e in
      let d0 := ((Z.log2 p - Z.log2 q - 1) * 30103 / 100000 - 1)%Z in
      let d := decimal_point 8 p q d0 in
      let '(c, sc) := shortest_digits 17 (PrimFloat.abs f) p q d 1 in
      let decpt := (Z.of_nat (String.length (string_of_Z c)) - sc)%Z in
      (if s then "-" else "") ++ format_repr (string_of_Z (strip_zeros 17 c)) decpt
  end.

(** *** [repr] *)

Definition hex_digit (n : nat) : ascii :=
  ascii_of_nat (if Nat.ltb n 10 then 48 + n else 87 + n).

Definition printable (c : ascii) : bool :=
  let n := nat_of_ascii c in
  (Nat.leb 32 n && Nat.leb n 126) || (Nat.leb 161 n && negb (Nat.eqb n 173)).

Fixpoint contains (c : ascii) (s : string) : bool :=
  match s with
  | String c' rest => Ascii.eqb c c' || contains c rest
  | EmptyString => false
  end.

Fixpoint escape (quote : ascii) (s : string) : string :=
  match s with
  | EmptyString => ""
  | String c rest =>
      let n := nat_of_ascii c in
      (if Ascii.eqb c quote || Ascii.eqb c backslash
       then String backslash (String c "")
       else if Nat.eqb n 9 then String backslash "t"
       else if Nat.eqb n 10 then String backslash "n"
       else if Nat.eqb n 13 then String backslash "r"
       else if printable c then String c ""
       else String backslash
              (String "x" (String (hex_digit (n / 16))
                             (String (hex_digit (n mod 16)) ""))))
      ++ escape quote rest
  end%string.

Definition repr_str (s : string) : string :=
  let quote :=
    if contains "'" s && negb (contains dquote s) then dquote else "'"%char in
  (String quote (escape quote s) ++ String quote "")%string.

Fixpoint join (sep : string) (l : list string) : string :=
  match l with
  | [] => ""
  | [x] => x
  | x :: rest => (x ++ sep ++ join sep rest)%string
  end.

Fixpoint repr (v : pyval) : string :=
  match v with
  | PNone => "None"
  | PBool b => if b then "True" else "False"
  | PInt z => string_of_Z z
  | PFloat f => repr_float f
  | PStr s => repr_str s
  | PList l => ("[" ++ join ", " (map repr l) ++ "]")%string
  | PDict d =>
      ("{" ++ join ", " (map (fun kv => repr_str (fst kv) ++ ": " ++ repr (snd kv)) d)
       ++ "}")%string
  end.

(** *** [float] *)

(** Digits, single underscores allowed between them: the value read, the
    number of digits, and what follows. *)
Fixpoint digit_part (s : string) (acc : Z) (n : nat) : Z * nat * string :=
  match s with
  | String c rest =>
      if is_digit c then digit_part rest (acc * 10 + digit_value c)%Z (S n)
      else
        match n, rest with
        | S _, String c' _ =>
            if Ascii.eqb c "_" && is_digit c' then digit_part rest acc n
            else (acc, n, s)
        | _, _ => (acc, n, s)
        end
  | EmptyString => (acc, n, s)
  end.

Definition lower (c : ascii) : ascii :=
  let n := nat_of_ascii c in
  if Nat.leb 65 n && Nat.leb n 90 then ascii_of_nat (n + 32) else c.

Fixpoint lower_string (s : string) : string :=
  match s with
  | String c rest => String (lower c) (lower_string rest)
  | EmptyString => EmptyString
  end.

Definition sign_of (s : string) : bool * string :=
  match s with
  | String "-" rest => (true, rest)
  | String "+" rest => (false, rest)
  | _ => (false, s)
  end.

(** The white space [float] skips at either end: that of C's [isspace]
    and, of the code points of [str.isspace] from 128 on, U+0085 and
    U+00A0. The separators U+001C to U+001F, which [str.strip] removes,
    stay and make the text no number. *)
Definition float_space (c : ascii) : bool :=
  let n := nat_of_ascii c in
  (Nat.leb 9 n && Nat.leb n 13) || Nat.eqb n 32
  || Nat.eqb n 133 || Nat.eqb n 160.

Fixpoint float_lstrip (s : string) : string :=
  match s with
  | String c rest => if float_space c then float_lstrip rest else s
  | EmptyString => EmptyString
  end.

Fixpoint float_rstrip (s : string) : string :=
  match s with
  | String c rest =>
      match float_rstrip rest with
      | EmptyString =>
          if float_space c then EmptyString else String c EmptyString
      | kept => String c kept
      end
  | EmptyString => EmptyString
  end.

(** The float a string denotes, if it denotes one. *)
Definition float_of_string (s : string) : option float :=
  let '(neg, body) := sign_of (float_rstrip (float_lstrip s)) in
  let signed (f : float) := if neg then PrimFloat.opp f else f in
  let word := lower_string body in
  if String.eqb word "inf" || String.eqb word "infinity"
  then Some (signed PrimFloat.infinity)
  else if String.eqb word "nan" then Some PrimFloat.nan
  else
    let '(iv, inum, after_int) := digit_part body 0 0 in
    let '(fv, fnum, after_frac) :=
      match after_int with
      | String "." rest => digit_part rest iv 0
      | _ => (iv, 0, after_int)
      end in
    if Nat.eqb (inum + fnum) 0 then None
    else
      let mantissa := fv in
      match after_frac with
      | EmptyString =>
          Some (float_of_decimal neg mantissa (- Z.of_nat fnum))
      | String e rest =>
          if Ascii.eqb (lower e) "e" then
            let '(eneg, digits) := sign_of rest in
            match digit_part digits 0 0 with
            | (ev, S _, EmptyString) =>
                Some (float_of_decimal neg mantissa
                        ((if eneg then - ev else ev) - Z.of_nat fnum))
            | _ => None
            end
          else None
      end.

Definition float_ (v : pyval) : result float :=
  match v with
  | PFloat f => Return f
  | PBool b => Return (if b then PrimFloat.one else PrimFloat.zero)
  | PInt z =>
      let f := float_of_decimal (z <? 0)%Z (Z.abs z) 0 in
      if PrimFloat.is_infinity f
      then Raise (Exc OverflowError "int too large to convert to float")
      else Return f
  | PStr s =>
      match float_of_string s with
      | Some f => Return f
      | None =>
          Raise (Exc ValueError
                   ("could not convert string to float: " ++ repr_str s))
      end
  | _ =>
      Raise (Exc TypeError
               ("float() argument must be a string or a real number, not '"
                ++ type_name v ++ "'"))
  end.

(** *** [json.loads] *)

(** A scan fails with a message and a position, or yields a value, what
    is left of the text and the position reached. *)
Definition scan (A : Type) : Type := (string * nat) + (A * string * nat).

Definition json_ws (c : ascii) : bool :=
  let n := nat_of_ascii c in
  Nat.eqb n 32 || Nat.eqb n 9 || Nat.eqb n 10 || Nat.eqb n 13.

Fixpoint skip_ws (s : string) (i : nat) : string * nat :=
  match s with
  | String c rest => if json_ws c then skip_ws rest (S i) else (s, i)
  | EmptyString => (s, i)
  end.

Fixpoint digits (s : string) (acc : Z) (n : nat) : Z * nat * string :=
  match s with
  | String c rest =>
      if is_digit c then digits rest (acc * 10 + digit_value c)%Z (S n)
      else (acc, n, s)
  | EmptyString => (acc, n, s)
  end.

(** [NUMBER_RE.match]: the number at the head of [s], what follows it and
    the number of characters it takes. *)
Definition match_number (s : string) : option (pyval * string * nat) :=
  let '(neg, s1, n0) :=
    match s with
    | String "-" rest => (true, rest, 1)
    | _ => (false, s, 0)
    end in
  let integer : option (Z * nat * string) :=
    match s1 with
    | String "0" rest => Some (0%Z, 1, rest)
    | String c _ => if is_digit c then Some (digits s1 0 0) else None
    | EmptyString => None
    end in
  match integer with
  | None => None
  | Some (iv, inum, s2) =>
      let '(fv, fnum, s3) :=
        match s2 with
        | String "." rest =>
            match digits rest iv 0 with
            | (_, O, _) => (iv, 0, s2)
            | (fv, fnum, s3) => (fv, fnum, s3)
            end
        | _ => (iv, 0, s2)
        end in
      let frac_len := match fnum with O => 0 | S _ => S fnum end in
      let '(ev, elen, s4) :=
        match s3 with
        | String e rest =>
            if Ascii.eqb e "e" || Ascii.eqb e "E" then
              let '(eneg, ds, slen) :=
                match rest with
                | String "-" ds => (true, ds, 1)
                | String "+" ds => (false, ds, 1)
                | _ => (false, rest, 0)
                end in
              match digits ds 0 0 with
              | (_, O, _) => (0%Z, 0, s3)
              | (ev, enum, s4) =>
                  (if eneg then (- ev)%Z else ev, 1 + slen + enum, s4)
              end
            else (0%Z, 0, s3)
        | _ => (0%Z, 0, s3)
        end in
      let v :=
        match frac_len, elen with
        | O, O => PInt (if neg then (- iv)%Z else iv)
        | _, _ => PFloat (float_of_decimal neg fv (ev - Z.of_nat fnum))
        end in
      Some (v, s4, n0 + inum + frac_len + elen)
  end.

Definition hex_value (c : ascii) : option nat :=
  let n := nat_of_ascii c in
  if Nat.leb 48 n && Nat.leb n 57 then Some (n - 48)
  else if Nat.leb 97 n && Nat.leb n 102 then Some (n - 87)
  else if Nat.leb 65 n && Nat.leb n 70 then Some (n - 55)
  else None.

(** [scanstring], strict: [s] follows the opening quote, which is at
    [begin]. *)
Fixpoint scanstring (s : string) (i begin : nat) (acc : string) : scan string :=
  match s with
  | EmptyString => inl ("Unterminated string starting at", begin)
  | String c rest =>
      if Ascii.eqb c dquote then inr (acc, rest, S i)
      else if Ascii.eqb c backslash then
        match rest with
        | EmptyString => inl ("Unterminated string starting at", begin)
        | String "u" (String h1 (String h2 (String h3 (String h4
            (String _ _ as tail))))) =>
            match hex_value h1, hex_value h2, hex_value h3, hex_value h4 with
            | Some 0, Some 0, Some d3, Some d4 =>
                scanstring tail (i + 6) begin
                  (acc ++ String (ascii_of_nat (16 * d3 + d4)) "")
            | _, _, _, _ => inl ("Invalid \uXXXX escape", S i)
            end
        | String "u" _ => inl ("Invalid \uXXXX escape", S i)
        | String e rest' =>
            let plain (n : nat) :=
              scanstring rest' (i + 2) begin (acc ++ String (ascii_of_nat n) "") in
            if Ascii.eqb e dquote then plain 34
            else if Ascii.eqb e backslash then plain 92
            else if Ascii.eqb e "/" then plain 47
            else if Ascii.eqb e "b" then plain 8
            else if Ascii.eqb e "f" then plain 12
            else if Ascii.eqb e "n" then plain 10
            else if Ascii.eqb e "r" then plain 13
            else if Ascii.eqb e "t" then plain 9
            else inl ("Invalid \escape", i)
        end
      else if Nat.leb (nat_of_ascii c) 31
      then inl ("Invalid control character at", i)
      else scanstring rest (S i) begin (acc ++ String c "")
  end%string.

(** [dict(pairs)]: a later pair replaces the value of an equal key. *)
Fixpoint dict_set (d : list (string * pyval)) (key : string) (v : pyval)
  : list (string * pyval) :=
  match d with
  | [] => [(key, v)]
  | (k, v') :: rest =>
      if String.eqb k key then (k, v) :: rest else (k, v') :: dict_set rest key v
  end.

Fixpoint scan_once (fuel : nat) (s : string) (i : nat) : scan pyval :=
  match fuel with
  | O => inl ("Expecting value", i)
  | S fuel =>
      match s with
      | EmptyString => inl ("Expecting value", i)
      | String c rest =>
          if Ascii.eqb c dquote then
            match scanstring rest (S i) i "" with
            | inl e => inl e
            | inr (str, rest', j) => inr (PStr str, rest', j)
            end
          else if Ascii.eqb c "{" then
            let '(s1, j) := skip_ws rest (S i) in
            match s1 with
            | String "}" rest' => inr (PDict [], rest', S j)
            | _ => object_members fuel s1 j []
            end
          else if Ascii.eqb c "[" then
            let '(s1, j) := skip_ws rest (S i) in
            match s1 with
            | String "]" rest' => inr (PList [], rest', S j)
            | _ => array_items fuel s1 j []
            end
          else if startswith s "null" then inr (PNone, slice_from 4 s, i + 4)
          else if startswith s "true" then inr (PBool true, slice_from 4 s, i + 4)
          else if startswith s "false" then inr (PBool false, slice_from 5 s, i + 5)
          else
            match match_number s with
            | Some (v, rest', n) => inr (v, rest', i + n)
            | None =>
                if startswith s "NaN"
                then inr (PFloat PrimFloat.nan, slice_from 3 s, i + 3)
                else if startswith s "Infinity"
                then inr (PFloat PrimFloat.infinity, slice_from 8 s, i + 8)
                else if startswith s "-Infinity"
                then inr (PFloat PrimFloat.neg_infinity, slice_from 9 s, i + 9)
                else inl ("Expecting value", i)
            end
      end
  end

with array_items (fuel : nat) (s : string) (i : nat) (acc : list pyval)
  : scan pyval :=
  match fuel with
  | O => inl ("Expecting value", i)
  | S fuel =>
      match scan_once fuel s i with
      | inl e => inl e
      | inr (v, rest, j) =>
          let '(s1, j) := skip_ws rest j in
          match s1 with
          | String "]" rest' => inr (PList (acc ++ [v]), rest', S j)
          | String "," rest' =>
              let '(s2, j') := skip_ws rest' (S j) in
              array_items fuel s2 j' (acc ++ [v])
          | _ => inl ("Expecting ',' delimiter", j)
          end
      end
  end

with object_members (fuel : nat) (s : string) (i : nat)
    (acc : list (string * pyval)) : scan pyval :=
  match fuel with
  | O => inl ("Expecting value", i)
  | S fuel =>
      match s with
      | String c rest =>
          if Ascii.eqb c dquote then
            match scanstring rest (S i) i "" with
            | inl e => inl e
            | inr (key, rest1, j) =>
                let '(s1, j) := skip_ws rest1 j in
                match s1 with
                | String ":" rest2 =>
                    let '(s2, j) := skip_ws rest2 (S j) in
                    match scan_once fuel s2 j with
                    | inl e => inl e
                    | inr (v, rest3, j) =>
                        let '(s3, j) := skip_ws rest3 j in
                        match s3 with
                        | String "}" rest' =>
                            inr (PDict (dict_set acc key v), rest', S j)
                        | String "," rest' =>
                            let '(s4, j') := skip_ws rest' (S j) in
                            object_members fuel s4 j' (dict_set acc key v)
                        | _ => inl ("Expecting ',' delimiter", j)
                        end
                    end
                | _ => inl ("Expecting ':' delimiter", j)
                end
            end
          else inl ("Expecting property name enclosed in double quotes", i)
      | EmptyString =>
          inl ("Expecting property name enclosed in double quotes", i)
      end
  end.

(** Line and column of position [pos] in [doc], both counted from 1. *)
Fixpoint line_column (doc : string) (pos line col : nat) : nat * nat :=
  match pos, doc with
  | S pos, String c rest =>
      if Nat.eqb (nat_of_ascii c) 10 then line_column rest pos (S line) 1
      else line_column rest pos line (S col)
  | _, _ => (line, col)
  end.

Definition decode_error (msg doc : string) (pos : nat) : exception :=
  let '(line, col) := line_column doc pos 1 1 in
  Exc JSONDecodeError
    (msg ++ ": line " ++ string_of_nat line ++ " column " ++ string_of_nat col
     ++ " (char " ++ string_of_nat pos ++ ")").

Definition loads (s : string) : result pyval :=
  let '(s1, i) := skip_ws s 0 in
  match scan_once (2 * String.length s + 2) s1 i with
  | inl (msg, pos) => Raise (decode_error msg s pos)
  | inr (v, rest, j) =>
      match skip_ws rest j with
      | (EmptyString, _) => Return v
      | (_, j') => Raise (decode_error "Extra data" s j')
      end
  end.

(** *** pydantic, lax mode *)

Definition validation_error {A : Type} (tag : string) : result A :=
  Raise (Exc ValidationError ("1 validation error [type=" ++ tag ++ "]")).

Definition str_validator (v : pyval) : result string :=
  match v with
  | PStr s => Return s
  | _ => validation_error "string_type"
  end.

Definition bool_validator (v : pyval) : result bool :=
  match v with
  | PBool b => Return b
  | PInt 0 => Return false
  | PInt 1 => Return true
  | PInt _ => validation_error "bool_parsing"
  | PFloat f =>
      if PrimFloat.eqb f PrimFloat.zero then Return false
      else if PrimFloat.eqb f PrimFloat.one then Return true
      else validation_error "bool_parsing"
  | PStr s =>
      let w := lower_string s in
      if existsb (String.eqb w) ["0"; "off"; "f"; "false"; "n"; "no"]
      then Return false
      else if existsb (String.eqb w) ["1"; "on"; "t"; "true"; "y"; "yes"]
      then Return true
      else validation_error "bool_parsing"
  | _ => validation_error "bool_type"
  end.

Definition list_validator (v : pyval) : result (list pyval) :=
  match v with
  | PList l => Return l
  | _ => validation_error "list_type"
  end.

End CPython.

#[export] Instance cpython : Library := {|
  json_loads := CPython.loads;
  builtin_float := CPython.float_;
  builtin_repr := CPython.repr;
  validate_str := CPython.str_validator;
  validate_bool := CPython.bool_validator;
  validate_list := CPython.list_validator;
  validate_str_str := fun _ => eq_refl;
  validate_bool_bool := fun _ => eq_refl;
  validate_list_list := fun _ => eq_refl;
  builtin_float_float := fun _ => eq_refl
|}.

(** ** Validity for a schema *)

Definition optional_str (o : option string) : pyval :=
  match o with
  | Some s => PStr s
  | None => PNone
  end.

(** A record is valid for its schema when the schema's constructor,
    given the record's fields, returns that record. *)
Definition valid_plan {lib : Library} (p : PlannerOutput) : Prop :=
  PlannerOutput_init (PStr (reasoning p)) (PList (map PStr (search_queries p)))
    (PBool (need_visual_understanding p)) = Return p.

Definition valid_draft {lib : Library} (d : ReasonerOutput) : Prop :=
  ReasonerOutput_init (PStr (reasoning_trace d)) (PStr (draft_answer d))
    (PList (map PStr (citations d))) = Return d.

Definition valid_verdict {lib : Library} (v : ReviewerOutput) : Prop :=
  ReviewerOutput_init (confidence_score v) (decision v)
    (optional_str (critique v)) (optional_str (feedback_for_retriever v))
  = Return v.

(** ** What the specification claims of a failed review *)

(** Modelled on the specification's wording of the Review Stage fallback,
    to be compared with what [ReviewerAgent.review] returns. *)
Definition spec_review_fallback (error : string) : ReviewerOutput := {|
  confidence_score := 0;
  decision := REJECT;
  critique := Some error;
  feedback_for_retriever := Some "retry aggregation"
|}.

(** What [ReviewerAgent.review] builds in its [except] branch. *)
Definition review_fallback (e : exception) : ReviewerOutput := {|
  confidence_score := 0;
  decision := REJECT;
  critique := Some ("System error during review: " ++ exc_str e)%string;
  feedback_for_retriever := Some "System error, please retry aggregation."
|}.

(** The capability call fails, or its output does not decode: it is not
    text, it is not JSON, or the JSON value is not an object. *)
Inductive review_fails {lib : Library} : result response -> exception -> Prop :=
| capability_failure e :
    review_fails (Raise e) e
| not_text r e :
    clean_content (content_of r) = Raise e ->
    review_fails (Return r) e
| not_json r text e :
    clean_content (content_of r) = Return text ->
    json_loads text = Raise e ->
    review_fails (Return r) e
| not_an_object r text data e :
    clean_content (content_of r) = Return text ->
    json_loads text = Return data ->
    get data "confidence_score" (PFloat 0) = Raise e ->
    review_fails (Return r) e.

(** Modelled on the specification's wording of the retry rule: after a
    rejected attempt a supplemental search is issued exactly when the
    verdict carries a query and the attempt is not the last one. *)
Definition spec_supplemental_rule (max_retries : nat) (st : vars) : Prop :=
  forall i v, In (Reviewed i v) (log st) -> decision v = REJECT ->
    ((exists q ev, In (Supplemented i q ev) (log st))
     <-> (truthy (feedback_for_retriever v) = true /\ i < max_retries)).

(** No agent ever raises. *)
Definition reliable (agents : Agents) : Prop :=
  (forall q, exists p, planner_plan agents q = Return p)
  /\ (forall n q, exists r, retriever_run agents n q = Return r)
  /\ (forall n q c, exists d, reasoner_run agents n q c = Return d)
  /\ (forall n q d, exists v, reviewer_review agents n q d = Return v).

(** A console that writes every line. *)
Definition prints (console : Console) : Prop :=
  forall l, console_print console l = Return tt.

(** [e] is what [console.print] raises on some line. *)
Definition raised_by (console : Console) (e : exception) : Prop :=
  exists l, console_print console l = Raise e.

(** A computation that returns, or raises what [console.print] raised. *)
Definition ends {A : Type} (console : Console) (c : result A) : Prop :=
  match c with
  | Return _ => True
  | Raise e => raised_by console e
  end.

(** Two sets of agents that differ at most by the scores of the verdicts. *)
Definition same_but_scores (a1 a2 : Agents) : Prop :=
  (forall q, planner_plan a1 q = planner_plan a2 q)
  /\ (forall n q, retriever_run a1 n q = retriever_run a2 n q)
  /\ (forall n q c, reasoner_run a1 n q c = reasoner_run a2 n q c)
  /\ (forall n q d,
        map_result without_score (reviewer_review a1 n q d)
        = map_result without_score (reviewer_review a2 n q d)).

(** An event of attempt [a] or later has not happened yet. *)
Definition before (a : nat) (ev : event) : Prop :=
  match ev with
  | Drafted i _ _ _ | Reviewed i _ | Supplemented i _ _ => i < a
  | _ => True
  end.

(** ** What holds of the variables during a session *)

(** Where the loop starts: after the planned round. *)
Definition planned_round (w : Wording) (plan : PlannerOutput) (st : vars)
  : Prop :=
  current_attempt st = 0
  /\ Forall (before 0) (log st)
  /\ searched (log st) = search_queries plan
  /\ supplemented (log st) = []
  /\ searches st = length (search_queries plan)
  /\ aggregated_context st = render w (log st).

(** The events on record belong to attempts already made. *)
Definition past (st : vars) : Prop :=
  Forall (before (current_attempt st)) (log st).

(** After a rejected attempt a supplemental search is on record exactly
    when the verdict carries a non-empty query, and it is for that
    query. *)
Definition supplemental_rule (st : vars) : Prop :=
  forall i v, In (Reviewed i v) (log st) -> decision v = REJECT ->
    forall q, (exists ev, In (Supplemented i q ev) (log st))
              <-> (feedback_for_retriever v = Some q /\ q <> "").

(** Every verdict on record is a rejection. *)
Definition all_rejected (st : vars) : Prop :=
  forall i v, In (Reviewed i v) (log st) -> decision v = REJECT.

(** The retrieval calls of the session are those of the planned round:
    one per query of the plan, in its order, and no supplemental one. *)
Definition only_planned_round (plan : PlannerOutput) (st : vars) : Prop :=
  searched (log st) = search_queries plan
  /\ supplemented (log st) = []
  /\ searches st = length (search_queries plan).

(** Every snapshot on record is a prefix of the evidence block. *)
Definition snapshots_kept (st : vars) : Prop :=
  forall i q c d, In (Drafted i q c d) (log st) ->
    exists more, aggregated_context st = (c ++ more)%string.

(** Of two snapshots on record, that of the earlier attempt is a prefix
    of that of the later. *)
Definition snapshots_grow (st : vars) : Prop :=
  forall i j q c d q' c' d',
    In (Drafted i q c d) (log st) -> In (Drafted j q' c' d') (log st) ->
    i < j -> exists more, c' = (c ++ more)%string.

(** A snapshot is the segments of the retrieval calls made before it,
    each one whole and in the order of the calls. *)
Definition snapshots_rendered (w : Wording) (st : vars) : Prop :=
  forall l1 l2 i q c d,
    log st = l1 ++ Drafted i q c d :: l2 -> c = render w l1.

(** A session of either pipeline that ran to its end: its wording and
    its variables at the end. A session of main.py is one on any console. *)
Inductive session_of (budget : nat) (agents : Agents) (user_query : string)
  : Wording -> vars -> Prop :=
| main_session console st :
    run_chat_pipeline_with console budget agents user_query = Return st ->
    session_of budget agents user_query main_wording st
| app_session st :
    chat_pipeline_with budget agents user_query = Return (Answered st) ->
    session_of budget agents user_query app_wording st.

(** ** Sessions to run *)

Module Session.

Definition two_queries : PlannerOutput := {|
  reasoning := "two aspects";
  search_queries := ["method"; "results"];
  need_visual_understanding := false
|}.

Definition nth_draft (n : nat) : ReasonerOutput := {|
  draft_answer := ("draft " ++ CPython.string_of_nat n)%string;
  citations := ["Page 4"];
  reasoning_trace := "trace"
|}.

Definition rejection (score : float) : ReviewerOutput := {|
  confidence_score := score;
  decision := REJECT;
  critique := Some "no citation for the figure";
  feedback_for_retriever := Some "look at Fig.2"
|}.

Definition acceptance (score : float) : ReviewerOutput := {|
  confidence_score := score;
  decision := ACCEPT;
  critique := Some "fine";
  feedback_for_retriever := Some ""
|}.

(** Agents whose reviewer accepts from attempt [k] on, with [score] on
    the rejections. *)
Definition accepting_from (k : nat) (score : float) : Agents := {|
  planner_plan _ := Return two_queries;
  retriever_run n q :=
    Return ("evidence " ++ CPython.string_of_nat n ++ " for " ++ q)%string;
  reasoner_run n _ _ := Return (nth_draft n);
  reviewer_review n _ _ :=
    Return (if Nat.leb k n then acceptance 1 else rejection score)
|}.

(** The reviewer never accepts. *)
Definition never_accepting : Agents := accepting_from 100 0.

(** JSON texts. *)
Definition empty_queries_json : string :=
  ("{" ++ CPython.quoted "search_queries" ++ ": []}")%string.

Definition maybe_json : string :=
  ("{" ++ CPython.quoted "confidence_score" ++ ": 0.95, "
   ++ CPython.quoted "decision" ++ ": " ++ CPython.quoted "MAYBE" ++ ", "
   ++ CPython.quoted "critique" ++ ": " ++ CPython.quoted "well cited" ++ "}")%string.

(** The capabilities of a session whose plan does not decode and whose
    first review accepts. *)
Definition accept_json : string :=
  ("```json" ++ nl ++ "{" ++ CPython.quoted "confidence_score" ++ ": 0.5, "
   ++ CPython.quoted "decision" ++ ": " ++ CPython.quoted "ACCEPT" ++ ", "
   ++ CPython.quoted "critique" ++ ": " ++ CPython.quoted "well cited" ++ ", "
   ++ CPython.quoted "feedback_for_retriever" ++ ": " ++ CPython.quoted ""
   ++ "}" ++ nl ++ "```")%string.

Definition draft_json : string :=
  ("{" ++ CPython.quoted "reasoning_trace" ++ ": " ++ CPython.quoted "from the text" ++ ", "
   ++ CPython.quoted "draft_answer" ++ ": " ++ CPython.quoted "It decreases [Page 4]." ++ ", "
   ++ CPython.quoted "citations" ++ ": [" ++ CPython.quoted "Page 4" ++ "]}")%string.

Definition degraded : Capabilities := {|
  planner_model _ := Return (ChatMessage (PStr "not json"));
  retriever_agent _ _ := Raise (Exc RuntimeError "connection refused");
  reasoner_model _ _ _ := Return (ChatMessage (PStr draft_json));
  reviewer_model _ _ _ := Return (Opaque accept_json)
|}.

Definition two_queries_json : string :=
  ("{" ++ CPython.quoted "search_queries" ++ ": ["
   ++ CPython.quoted "method" ++ ", " ++ CPython.quoted "results" ++ "]}")%string.

(** A review that rejects, its critique the end-of-instruction mark of a
    chat template. *)
Definition inst_json : string :=
  ("{" ++ CPython.quoted "confidence_score" ++ ": 0.3, "
   ++ CPython.quoted "decision" ++ ": " ++ CPython.quoted "REJECT" ++ ", "
   ++ CPython.quoted "critique" ++ ": " ++ CPython.quoted "[/INST]" ++ ", "
   ++ CPython.quoted "feedback_for_retriever" ++ ": " ++ CPython.quoted ""
   ++ "}")%string.

(** The capabilities of a session whose reviews are all this one. *)
Definition leaking : Capabilities := {|
  planner_model _ := Return (ChatMessage (PStr two_queries_json));
  retriever_agent _ q := Return ("evidence for " ++ q)%string;
  reasoner_model _ _ _ := Return (ChatMessage (PStr draft_json));
  reviewer_model _ _ _ := Return (ChatMessage (PStr inst_json))
|}.

(** Rich on the lines of the sessions of this module. For Rich a tag is
    a '[' followed by a lower-case letter, '#', '/' or '@', up to the
    next ']'. Besides the balanced tags of main.py's own literals, the
    lines of these sessions hold one tag, the critique of [inst_json]:
    in ["[bold orange3]Critique:[/bold orange3] [/INST]"] it is at
    position 39 and closes nothing. *)
Definition rich : Console := {|
  console_print l :=
    match l with
    | Critique (Some c) =>
        if String.eqb c "[/INST]" then
          Raise (Exc MarkupError
                   "closing tag '[/INST]' at position 39 doesn't match any open tag")
        else Return tt
    | _ => Return tt
    end
|}.

End Session.

(** ** More of the agents' code *)

(** A string made of whitespace only. *)
Fixpoint all_space (s : string) : bool :=
  match s with
  | String c rest => isspace c && all_space rest
  | EmptyString => true
  end.

(** [str.lower] on one character (code points below 256). *)
Definition lower_char (c : ascii) : ascii :=
  let n := nat_of_ascii c in
  if (Nat.leb 65 n && Nat.leb n 90)
     || (Nat.leb 192 n && Nat.leb n 222 && negb (Nat.eqb n 215))
  then ascii_of_nat (n + 32) else c.

Fixpoint lower (s : string) : string :=
  match s with
  | String c rest => String (lower_char c) (lower rest)
  | EmptyString => EmptyString
  end.

(** [sub in s] *)
Fixpoint contains (sub s : string) : bool :=
  String.prefix sub s
  || match s with
     | String _ rest => contains sub rest
     | EmptyString => false
     end.

(** [PlannerAgent.__init__], [ReasonerAgent.__init__] and
    [ReviewerAgent.__init__]: the model identifier handed to LiteLLM. *)
Definition model_id_for_litellm (raw_model_id : string) : string :=
  if negb (startswith raw_model_id "openai/")
     && contains "deepseek" (lower raw_model_id)
  then ("openai/" ++ raw_model_id)%string
  else raw_model_id.

(** [RetrieverAgent.__init__]: the same, without the test on the name. *)
Definition retriever_model_id_for_litellm (raw_model_id : string) : string :=
  if negb (startswith raw_model_id "openai/")
  then ("openai/" ++ raw_model_id)%string
  else raw_model_id.

(** The name of a member of [AgentDecision]. *)
Definition decision_value (d : AgentDecision) : string :=
  match d with
  | ACCEPT => "ACCEPT"
  | REJECT => "REJECT"
  end.

(** [o] when it is there, [default] otherwise. *)
Definition or_default {A : Type} (o : option A) (default : A) : A :=
  match o with
  | Some a => a
  | None => default
  end.

(** The query handed to the Reason Stage when the feedback is [fb]. *)
Definition noted (w : Wording) (user_query : string) (fb : option string)
  : string :=
  match fb with
  | Some s =>
      if truthy (Some s) then (user_query ++ feedback_note w s)%string
      else user_query
  | None => user_query
  end.

(** The first attempt gets the query as it is; every later attempt gets
    it with the critique of the attempt before, when that critique is a
    non-empty string. *)
Definition feedback_channel (w : Wording) (user_query : string) (st : vars)
  : Prop :=
  (forall q c d, In (Drafted 0 q c d) (log st) -> q = user_query)
  /\ (forall i v q c d,
        In (Reviewed i v) (log st) -> In (Drafted (S i) q c d) (log st) ->
        q = noted w user_query (critique v)).

(** At most one verdict per attempt. *)
Definition one_verdict_each (st : vars) : Prop :=
  forall i v v', In (Reviewed i v) (log st) -> In (Reviewed i v') (log st) ->
                 v = v'.

(** The feedback is the critique of the attempt before, the empty string
    before the first attempt. *)
Definition feedback_is_last_critique (st : vars) : Prop :=
  match current_attempt st with
  | O => feedback st = Some ""
  | S n => exists v, In (Reviewed n v) (log st) /\ feedback st = critique v
  end.

(** The last draft is that of the attempt before. *)
Definition draft_is_last (st : vars) : Prop :=
  match current_attempt st with
  | O => True
  | S n => exists q c d, draft_output st = Some d
                         /\ In (Drafted n q c d) (log st)
  end.

(** How a session can end: on the first ACCEPT, with the accepted draft
    as answer and no attempt after it, or with the budget spent, every
    verdict a REJECT, no answer, and the draft of the last attempt
    kept. *)
Definition ended_accepted (st : vars) (d : ReasonerOutput) : Prop :=
  draft_output st = Some d
  /\ drafts (log st) = S (current_attempt st)
  /\ (exists q c v,
        In (Drafted (current_attempt st) q c d) (log st)
        /\ In (Reviewed (current_attempt st) v) (log st)
        /\ decision v = ACCEPT)
  /\ (forall i v, In (Reviewed i v) (log st) -> decision v = ACCEPT ->
                  i = current_attempt st).

Definition ended_exhausted (max_retries : nat) (st : vars) : Prop :=
  current_attempt st = S max_retries
  /\ drafts (log st) = S max_retries
  /\ all_rejected st
  /\ (exists q c d, draft_output st = Some d
                    /\ In (Drafted max_retries q c d) (log st)).

(** ** schema.py: [VLOutput] *)

Record VLOutput : Type := {
  description : string;
  insights : string
}.

Section SchemaVL.
Context {lib : Library}.

(** [VLOutput(description=.., insights=..)] *)
Definition VLOutput_init (description_ insights_ : pyval) : result VLOutput :=
  d <- validate_str description_ ;;
  i <- validate_str insights_ ;;
  Return {| description := d; insights := i |}.

End SchemaVL.

(** ** agents/vl_agent.py *)

Module VLAgent.

(** How a call of [analyze_image] ends: it returns, it lets an exception
    through, or it reads the local variable [name] before any assignment
    to it. *)
Inductive ended : Type :=
| Returned (v : VLOutput)
| Raised (e : exception)
| UnboundLocalError (name : string).

Definition of_result (r : result VLOutput) : ended :=
  match r with
  | Return v => Returned v
  | Raise e => Raised e
  end.

(** The local variable the handlers read, and what the call has done so
    far: [calls] of the model, [sleeps] of two seconds. *)
Record locals : Type := {
  raw_content : option string;
  calls : nat;
  sleeps : nat
}.

Definition max_retries : nat := 3.

(** [raw_content] after the three statements that follow the call. *)
Definition cleaned (content : string) : string :=
  let raw_content := strip content in
  let raw_content :=
    if startswith raw_content "```json" then slice_from 7 raw_content
    else raw_content in
  if endswith raw_content "```" then slice_to_minus 3 raw_content
  else raw_content.

Section VLAgent.
Context {lib : Library}.

(** The body of the [try] of one attempt. [outcome] is what
    [self._client.chat.completions.create(...)] and the read of
    [response.choices[0].message.content] do: they give the content of
    the reply or raise. The first component is the binding of
    [raw_content] when the body is left. *)
Definition try_body (outcome : result pyval) (raw_content : option string)
  : option string * result VLOutput :=
  match outcome with
  | Raise e => (raw_content, Raise e)
  | Return (PStr s) =>
      let raw_content := cleaned s in
      (Some raw_content,
       data <- json_loads raw_content ;;
       description_ <- get data "description" (PStr "No description provided.") ;;
       insights_ <- get data "insights" (PStr "No insights provided.") ;;
       VLOutput_init description_ insights_)
  | Return content => (raw_content, no_attribute content "strip")
  end.

(** [for attempt in range(max_retries): ...], over the attempts left, and
    the [return] that follows the loop. *)
Fixpoint attempts (max_retries : nat) (create : nat -> result pyval)
    (todo : list nat) (st : locals) : locals * ended :=
  match todo with
  | [] =>
      (st, of_result (VLOutput_init (PStr "Unknown Error.")
                        (PStr "Max retries exceeded.")))
  | attempt :: rest =>
      let '(raw, r) := try_body (create attempt) (raw_content st) in
      let st := {| raw_content := raw; calls := S (calls st);
                   sleeps := sleeps st |} in
      match r with
      | Return v => (st, Returned v)
      | Raise e =>
          if exc_class_eqb JSONDecodeError (exc_type e) then
            if Nat.eqb attempt (max_retries - 1) then
              match raw with
              | Some s =>
                  (st, of_result
                         (VLOutput_init (PStr s)
                            (PStr "Failed to parse structured insights.")))
              | None => (st, UnboundLocalError "raw_content")
              end
            else attempts max_retries create rest st
          else
            let st := {| raw_content := raw; calls := calls st;
                         sleeps := S (sleeps st) |} in
            if Nat.eqb attempt (max_retries - 1) then
              (st, of_result
                     (VLOutput_init (PStr "Error calling VL model.")
                        (PStr (exc_str e))))
            else attempts max_retries create rest st
      end
  end.

(** [analyze_image(image_path, query)]. [file_exists] is
    [os.path.exists(image_path)], [ready] the truth of [self._client] and
    of [self._cfg], [encode_image] what [self._encode_image(image_path)]
    does, [settings] what the two reads of [self._cfg.models.vl] do, and
    [create attempt] what the model call of that attempt does. *)
Definition analyze_image (file_exists ready : bool)
    (encode_image : result string) (settings : result unit)
    (create : nat -> result pyval) : locals * ended :=
  let st := {| raw_content := None; calls := 0; sleeps := 0 |} in
  if negb file_exists then
    (st, of_result (VLOutput_init (PStr "Error: Image file not found.")
                      (PStr "Cannot analyze missing image.")))
  else if negb ready then
    (st, of_result (VLOutput_init (PStr "Error: API Client not initialized")
                      (PStr "Check config.")))
  else
    match encode_image with
    | Raise e =>
        (st, of_result (VLOutput_init (PStr "Error reading image file.")
                          (PStr (exc_str e))))
    | Return base64_image =>
        match settings with
        | Raise e => (st, Raised e)
        | Return _ => attempts max_retries create (seq 0 max_retries) st
        end
    end.

(** What one attempt gives, whatever was bound before. *)
Definition reply (outcome : result pyval) : result VLOutput :=
  snd (try_body outcome None).

End VLAgent.

(** The binding of [raw_content] when the body of an attempt is left. *)
Definition rebound (outcome : result pyval) (raw_content : option string)
  : option string :=
  match outcome with
  | Return (PStr s) => Some (cleaned s)
  | _ => raw_content
  end.

(** [raw_content] after the first [n] attempts have failed: unbound, or
    the cleaned reply of the latest of them whose call returned a text. *)
Fixpoint last_text (create : nat -> result pyval) (n : nat) : option string :=
  match n with
  | 0 => None
  | S k =>
      match create k with
      | Return (PStr s) => Some (cleaned s)
      | _ => last_text create k
      end
  end.

(** Replies of a model, for the examples. *)
Definition figure_json : string :=
  ("```json" ++ nl ++ "{" ++ CPython.quoted "description" ++ ": "
   ++ CPython.quoted "A bar chart of accuracy per model." ++ ", "
   ++ CPython.quoted "insights" ++ ": "
   ++ CPython.quoted "Accuracy grows with model size." ++ "}" ++ nl
   ++ "```")%string.

Definition timeout : exception := Exc RuntimeError "Request timed out.".

(** The model fails twice, then answers. *)
Definition third_time_lucky (attempt : nat) : result pyval :=
  if Nat.ltb attempt 2 then Raise timeout else Return (PStr figure_json).

(** The model answers in prose. *)
Definition prose (attempt : nat) : result pyval :=
  Return (PStr "The figure shows a bar chart.").

(** The model answers with the words of the last [return]. *)
Definition unknown_json : string :=
  ("{" ++ CPython.quoted "description" ++ ": "
   ++ CPython.quoted "Unknown Error." ++ ", "
   ++ CPython.quoted "insights" ++ ": "
   ++ CPython.quoted "Max retries exceeded." ++ "}")%string.

Definition unknown (attempt : nat) : result pyval :=
  Return (PStr unknown_json).

(** The call itself fails to decode the body it received. *)
Definition undecodable_body (attempt : nat) : result pyval :=
  Raise (Exc JSONDecodeError "Expecting value: line 1 column 1 (char 0)").

(** The model answers in prose, then the call times out, then it fails
    to decode the body it received. *)
Definition prose_then_undecodable (attempt : nat) : result pyval :=
  match attempt with
  | 0 => prose 0
  | 1 => Raise timeout
  | _ => undecodable_body attempt
  end.

End VLAgent.

(** ** main.py: the final output *)




(** ** schema.py: the data layer *)

Module TextChunk.
Record t : Type := {
  chunk_id : string;
  page_number : Z;
  content : string
}.
End TextChunk.

Module FigureData.
Record t : Type := {
  figure_id : string;
  page_number : Z;
  image_path : string;
  caption : option string
}.
End FigureData.

Module EvidenceItem.
Record t : Type := {
  id : string;
  content : string;
  score : option float;
  metadata : list (string * pyval)
}.
End EvidenceItem.

(** [str(o)] of an [Optional[str]] *)
Definition str_of_optional (o : option string) : string :=
  match o with
  | Some s => s
  | None => "None"
  end.

(** ** tools/vector_db.py *)

Module VectorDB.

Definition embedding : Type := list float.

(** What the functions of this file raise: an exception of a callee,
    passed on as it is ([UnboundLocal] is the [UnboundLocalError] of
    [analyze_image]), or one of their own. The messages of their own
    exceptions are written outside the code points a [string] has here;
    each is given by the values its message quotes:
    the first 20 characters of the text whose embedding failed,
    the numbers of vectors needed and obtained. *)
Inductive raised : Type :=
| Passed (e : exception)
| UnboundLocal (name : string)
| EmbeddingFailed (text : string)
| CountMismatch (needed got : nat).

Inductive outcome (A : Type) : Type :=
| Done (a : A)
| Failed (r : raised).
Arguments Done {A} a.
Arguments Failed {A} r.

(** A call of [client.embeddings.create] with its [input], a
    [time.sleep], in tenths of a second, a call of
    [self.vl_agent.analyze_image] or a call of [self.collection.upsert]. *)
Inductive effect : Type :=
| CalledOne (input : string)
| CalledBatch (input : list string)
| Slept (tenths : nat)
| Analyzed (image_path : string)
| Upserted (ids : list string) (embeddings : list embedding)
           (documents : list string)
           (metadatas : list (list (string * pyval))).

(** What [client.embeddings.create] does. With one text: the text's
    position, the failures so far and the input; it raises, or gives
    the embedding of [response.data[0]], none when [response.data] is
    empty. With a batch: the position of its first text and the input;
    it raises, or gives [response.data], each item by its [index] and
    its [embedding]. *)
Record embedder : Type := {
  create_one : nat -> nat -> string -> result (option embedding);
  create_batch : nat -> list string -> result (list (Z * embedding))
}.

(** The variables of the loop over one text. *)
Record loop_vars : Type := {
  success : bool;
  retry_count : nat;
  all_embeddings : list embedding;
  effects : list effect
}.

Definition max_retries : nat := 5.

(** The body of [while not success and retry_count < max_retries]. An
    empty [response.data] raises a [ValueError] whose message has no
    "429" in it, caught as any other. *)
Definition try_once (client : embedder) (i : nat) (clean_text : string)
    (st : loop_vars) : loop_vars :=
  let called := effects st ++ [CalledOne clean_text] in
  match create_one client i (retry_count st) clean_text with
  | Return (Some emb) =>
      {| success := true;
         retry_count := retry_count st;
         all_embeddings := all_embeddings st ++ [emb];
         effects := called ++ [Slept 6] |}
  | Return None =>
      {| success := false;
         retry_count := S (retry_count st);
         all_embeddings := all_embeddings st;
         effects := called ++ [Slept 10] |}
  | Raise e =>
      let retry_count := S (retry_count st) in
      let wait_time := 2 * retry_count in
      {| success := false;
         retry_count := retry_count;
         all_embeddings := all_embeddings st;
         effects :=
           called ++ [Slept (if contains "429" (exc_str e)
                             then 10 * wait_time else 10)] |}
  end.

(** The [while] loop, with [max_retries] made a parameter. *)
Equations? retry (client : embedder) (max_retries : nat) (i : nat)
    (clean_text : string) (st : loop_vars) : loop_vars
  by wf (if success st then 0 else max_retries - retry_count st) lt :=
retry client max_retries i clean_text st
  with inspect (negb (success st) && Nat.ltb (retry_count st) max_retries) := {
  | exist _ true Hcond =>
      retry client max_retries i clean_text (try_once client i clean_text st)
  | exist _ false _ => st }.
Proof.
  apply andb_prop in Hcond. destruct Hcond as [Hs Hlt].
  apply negb_true_iff in Hs. apply Nat.ltb_lt in Hlt. rewrite Hs.
  unfold try_once.
  destruct (create_one client i (retry_count st) clean_text) as [[emb|]|e];
    cbn [success retry_count]; lia.
Qed.

(** [text.strip() or "empty_node"] *)
Definition clean_text_of (text : string) : string :=
  match strip text with
  | EmptyString => "empty_node"
  | stripped => stripped
  end.

(** [for i, text in enumerate(texts): ...], from position [i] on. *)
Fixpoint embed_each (client : embedder) (i : nat) (texts : list string)
    (all_embeddings_ : list embedding) (effects_ : list effect)
  : list effect * outcome (list embedding) :=
  match texts with
  | [] => (effects_, Done all_embeddings_)
  | text :: rest =>
      let clean_text := clean_text_of text in
      let st := retry client max_retries i clean_text
                  {| success := false; retry_count := 0;
                     all_embeddings := all_embeddings_;
                     effects := effects_ |} in
      if negb (success st) then
        (effects st, Failed (EmbeddingFailed (substring 0 20 clean_text)))
      else embed_each client (S i) rest (all_embeddings st) (effects st)
  end.

(** [range(0, stop, step)] for a positive [step]. *)
Definition range_step (stop step : nat) : list nat :=
  map (fun k => k * step) (seq 0 ((stop + step - 1) / step)).

(** [[t if t.strip() else "empty_node" for t in batch_texts]] *)
Definition cleaned_batch (batch_texts : list string) : list string :=
  map (fun t => if negb (String.eqb (strip t) "") then t else "empty_node")
      batch_texts.

(** [sorted(response.data, key=lambda x: x.index)]: a stable sort. *)
Fixpoint insert_by_index (x : Z * embedding) (l : list (Z * embedding))
  : list (Z * embedding) :=
  match l with
  | [] => [x]
  | y :: rest =>
      if (fst x <=? fst y)%Z then x :: l else y :: insert_by_index x rest
  end.

Definition sorted_by_index (data : list (Z * embedding))
  : list (Z * embedding) :=
  fold_right insert_by_index [] data.

(** [for i in range(0, len(texts), batch_size): ...], over the starts
    left. *)
Fixpoint embed_batches (client : embedder) (batch_size : nat)
    (texts : list string) (starts : list nat)
    (all_embeddings_ : list embedding) (effects_ : list effect)
  : list effect * outcome (list embedding) :=
  match starts with
  | [] => (effects_, Done all_embeddings_)
  | i :: rest =>
      let batch_texts := firstn batch_size (skipn i texts) in
      let input := cleaned_batch batch_texts in
      let effects_ := effects_ ++ [CalledBatch input] in
      match create_batch client i input with
      | Raise e => (effects_, Failed (Passed e))
      | Return data =>
          let batch_embeddings := map snd (sorted_by_index data) in
          embed_batches client batch_size texts rest
            (all_embeddings_ ++ batch_embeddings) effects_
      end
  end.

(** [generate_embeddings(texts, config)], for a configuration that has
    the keys read: [base_url] is [config.api.base_url] and [batch_size]
    is [config.models.embedding.batch_size], an [int]. *)
Definition generate_embeddings (client : embedder) (base_url : string)
    (batch_size : Z) (texts : list string)
  : list effect * outcome (list embedding) :=
  let is_modelscope := contains "modelscope.cn" base_url in
  if is_modelscope then embed_each client 0 texts [] []
  else
    match batch_size with
    | Z0 =>
        ([], Failed (Passed (Exc ValueError "range() arg 3 must not be zero")))
    | Zneg _ => ([], Done [])
    | Zpos p =>
        embed_batches client (Pos.to_nat p) texts
          (range_step (length texts) (Pos.to_nat p)) [] []
    end.

(** *** [VectorStoreManager]

    What the collection, the file system and the figure analysis do:
    [file_exists] is [os.path.exists], [analyze_image i image_path] the
    call of [self.vl_agent.analyze_image] for the figure of rank [i],
    [upsert] and [count] the calls of [self.collection]. *)
Record store : Type := {
  file_exists : string -> bool;
  analyze_image : nat -> string -> VLAgent.ended;
  upsert : list string -> list embedding -> list string
           -> list (list (string * pyval)) -> result unit;
  count : result unit
}.

Definition text_item (chunk : TextChunk.t) : EvidenceItem.t := {|
  EvidenceItem.id := TextChunk.chunk_id chunk;
  EvidenceItem.content := TextChunk.content chunk;
  EvidenceItem.score := None;
  EvidenceItem.metadata :=
    [("page_number", PInt (TextChunk.page_number chunk));
     ("type", PStr "text");
     ("source", PStr "pdf_text");
     ("chunk_id", PStr (TextChunk.chunk_id chunk))]
|}.

Definition rich_content (fig : FigureData.t) (vl_output : VLOutput)
  : string :=
  ("Image Caption: " ++ str_of_optional (FigureData.caption fig) ++ nl
   ++ "Visual Description: " ++ description vl_output ++ nl
   ++ "Key Insights: " ++ insights vl_output)%string.

Definition figure_item (fig : FigureData.t) (vl_output : VLOutput)
  : EvidenceItem.t := {|
  EvidenceItem.id := FigureData.figure_id fig;
  EvidenceItem.content := rich_content fig vl_output;
  EvidenceItem.score := None;
  EvidenceItem.metadata :=
    [("page_number", PInt (FigureData.page_number fig));
     ("type", PStr "image");
     ("image_path", PStr (FigureData.image_path fig));
     ("source", PStr "pdf_figure");
     ("caption", PStr (match FigureData.caption fig with
                       | Some s => s
                       | None => ""
                       end))]
|}.

(** [for chunk in text_chunks: ...] *)
Definition text_items (text_chunks : list TextChunk.t)
  : list EvidenceItem.t :=
  map text_item
    (filter (fun chunk =>
               negb (Nat.ltb (String.length (TextChunk.content chunk)) 5))
            text_chunks).

(** [for i, fig in enumerate(figure_data): ...], from rank [i] on. *)
Fixpoint figure_items (db : store) (i : nat) (figure_data : list FigureData.t)
    (evidence_items : list EvidenceItem.t) (effects_ : list effect)
  : list effect * outcome (list EvidenceItem.t) :=
  match figure_data with
  | [] => (effects_, Done evidence_items)
  | fig :: rest =>
      if negb (file_exists db (FigureData.image_path fig)) then
        figure_items db (S i) rest evidence_items effects_
      else
        let effects_ := effects_ ++ [Analyzed (FigureData.image_path fig)] in
        match analyze_image db i (FigureData.image_path fig) with
        | VLAgent.Returned vl_output =>
            figure_items db (S i) rest
              (evidence_items ++ [figure_item fig vl_output]) effects_
        | VLAgent.Raised e => (effects_, Failed (Passed e))
        | VLAgent.UnboundLocalError name => (effects_, Failed (UnboundLocal name))
        end
  end.

(** The figures whose image file exists, each with its rank, from rank
    [i] on. *)
Definition existing (db : store) (i : nat) (figure_data : list FigureData.t)
  : list (nat * FigureData.t) :=
  filter (fun p => file_exists db (FigureData.image_path (snd p)))
         (combine (seq i (length figure_data)) figure_data).

(** [item] is the item of the figure [snd p], of rank [fst p]. *)
Definition item_of_figure (db : store) (p : nat * FigureData.t)
    (item : EvidenceItem.t) : Prop :=
  exists vl_output,
    analyze_image db (fst p) (FigureData.image_path (snd p))
    = VLAgent.Returned vl_output
    /\ item = figure_item (snd p) vl_output.

(** [add_documents(text_chunks, figure_data)] *)
Definition add_documents (db : store) (client : embedder) (base_url : string)
    (batch_size : Z) (text_chunks : list TextChunk.t)
    (figure_data : list FigureData.t) : list effect * outcome unit :=
  match figure_items db 0 figure_data (text_items text_chunks) [] with
  | (effects_, Failed r) => (effects_, Failed r)
  | (effects_, Done []) => (effects_, Done tt)
  | (effects_, Done evidence_items) =>
      let texts_to_embed := map EvidenceItem.content evidence_items in
      let '(embed_effects, embedded) :=
        generate_embeddings client base_url batch_size texts_to_embed in
      let effects_ := effects_ ++ embed_effects in
      match embedded with
      | Failed r => (effects_, Failed r)
      | Done embeddings =>
          if negb (Nat.eqb (length embeddings) (length evidence_items)) then
            (effects_,
             Failed (CountMismatch (length evidence_items)
                       (length embeddings)))
          else
            let ids := map EvidenceItem.id evidence_items in
            let documents := map EvidenceItem.content evidence_items in
            let metadatas := map EvidenceItem.metadata evidence_items in
            let effects_ :=
              effects_ ++ [Upserted ids embeddings documents metadatas] in
            match upsert db ids embeddings documents metadatas with
            | Raise e => (effects_, Failed (Passed e))
            | Return _ =>
                match count db with
                | Raise e => (effects_, Failed (Passed e))
                | Return _ => (effects_, Done tt)
                end
            end
      end
  end.

(** Reading the effects. *)
Definition is_call (ef : effect) : bool :=
  match ef with
  | CalledOne _ | CalledBatch _ => true
  | _ => false
  end.

Definition calls (l : list effect) : nat := length (filter is_call l).

Fixpoint slept (l : list effect) : nat :=
  match l with
  | [] => 0
  | Slept tenths :: rest => tenths + slept rest
  | _ :: rest => slept rest
  end.

(** The texts sent, in the order of the calls. *)
Fixpoint sent (l : list effect) : list string :=
  match l with
  | [] => []
  | CalledOne input :: rest => input :: sent rest
  | CalledBatch input :: rest => input ++ sent rest
  | _ :: rest => sent rest
  end.

(** The call for the text at position [i] after [n] failures gives no
    vector: it raises, or its [response.data] is empty. *)
Definition failed (client : embedder) (i n : nat) (clean_text : string)
  : Prop :=
  forall emb, create_one client i n clean_text <> Return (Some emb).

(** The text at position [i] got the vector [emb] at its [k]-th call,
    the [k - 1] calls before it having failed. *)
Definition embedded_at (client : embedder) (i : nat) (clean_text : string)
    (k : nat) (emb : embedding) : Prop :=
  0 < k
  /\ (forall n, n < k - 1 -> failed client i n clean_text)
  /\ create_one client i (k - 1) clean_text = Return (Some emb).

(** The inputs of the calls, in order, when the text at position [j] is
    sent [nth j tries 0] times. *)
Definition inputs (texts : list string) (tries : list nat) : list string :=
  concat (map (fun p => repeat (clean_text_of (fst p)) (snd p))
            (combine texts tries)).

(** The image files analysed, in the order of the calls. *)
Fixpoint analyzed (l : list effect) : list string :=
  match l with
  | [] => []
  | Analyzed image_path :: rest => image_path :: analyzed rest
  | _ :: rest => analyzed rest
  end.

Definition is_upsert (ef : effect) : bool :=
  match ef with
  | Upserted _ _ _ _ => true
  | _ => false
  end.

(** What holds of a write to the collection found in the effects
    [effs] of [add_documents]: it is the last effect and the only write,
    every figure whose file exists was analysed before it, and its four
    lists are those of the items, the text chunks kept then the
    figures. *)
Definition written_once_aligned (db : store)
    (text_chunks : list TextChunk.t) (figure_data : list FigureData.t)
    (effs : list effect) (ids : list string) (embeddings : list embedding)
    (documents : list string) (metadatas : list (list (string * pyval)))
  : Prop :=
  (exists pre,
      effs = pre ++ [Upserted ids embeddings documents metadatas]
      /\ forallb (fun ef => negb (is_upsert ef)) pre = true
      /\ analyzed pre
         = map (fun p => FigureData.image_path (snd p))
               (existing db 0 figure_data))
  /\ exists items figure_part,
      items = text_items text_chunks ++ figure_part
      /\ Forall2 (item_of_figure db) (existing db 0 figure_data) figure_part
      /\ ids = map EvidenceItem.id items
      /\ documents = map EvidenceItem.content items
      /\ metadatas = map EvidenceItem.metadata items
      /\ length embeddings = length items
      /\ items <> [].

End VectorDB.

(** ** main.py: [ingest_document] *)

(** What [ingest_document] prints: the panel
    "Starting Ingestion for: <pdf_path>",
    "Parsed PDF successfully: <n> text chunks, <m> figures.",
    "PDF Parsing Failed: <str(e)>",
    "Ingestion Complete! Document is ready for search." and
    "Vector DB Storage Failed: <str(e)>", each given by the values it
    quotes. *)
Inductive ingest_line (E : Type) : Type :=
| Starting (pdf_path : string)
| Parsed (text_chunks figures : nat)
| ParsingFailed (e : E)
| Complete
| StorageFailed (r : VectorDB.raised).
Arguments Starting {E} pdf_path.
Arguments Parsed {E} text_chunks figures.
Arguments ParsingFailed {E} e.
Arguments Complete {E}.
Arguments StorageFailed {E} r.

(** [ingest_document(cfg, pdf_path)]. [parse] is what [PDFParser(cfg)]
    and [parser.parse_pdf(pdf_path)] do, [open_store] what
    [VectorStoreManager(cfg)] does; the configuration has the keys
    [generate_embeddings] reads. *)
Definition ingest_document {E : Type}
    (parse : E + list TextChunk.t * list FigureData.t)
    (open_store : result VectorDB.store) (client : VectorDB.embedder)
    (base_url : string) (batch_size : Z) (pdf_path : string)
  : list (ingest_line E) * list VectorDB.effect :=
  match parse with
  | inl e => ([Starting pdf_path; ParsingFailed e], [])
  | inr (text_chunks, figure_data) =>
      let parsed := Parsed (length text_chunks) (length figure_data) in
      match open_store with
      | Raise e =>
          ([Starting pdf_path; parsed;
            StorageFailed (VectorDB.Passed e)], [])
      | Return vector_db =>
          match VectorDB.add_documents vector_db client base_url batch_size
                  text_chunks figure_data with
          | (effs, VectorDB.Done _) =>
              ([Starting pdf_path; parsed; Complete], effs)
          | (effs, VectorDB.Failed r) =>
              ([Starting pdf_path; parsed; StorageFailed r], effs)
          end
      end
  end.

(** ** An ingestion to run *)

Module Ingestion.

Definition vector : VectorDB.embedding := [1%float; 0%float].

(** An API that is busy at the first two calls for the second text, and
    that lists the items of a batch in reverse order. *)
Definition busy : VectorDB.embedder := {|
  VectorDB.create_one i retry_count _ :=
    if Nat.eqb i 1 && Nat.ltb retry_count 2
    then Raise (Exc RuntimeError "Error code: 429 - Too Many Requests")
    else Return (Some vector);
  VectorDB.create_batch _ input :=
    Return (rev (combine (map Z.of_nat (seq 0 (length input)))
                   (repeat vector (length input))))
|}.

(** An API whose replies carry no item. *)
Definition stingy : VectorDB.embedder := {|
  VectorDB.create_one _ _ _ := Return None;
  VectorDB.create_batch _ _ := Return []
|}.

Definition texts : list string :=
  ["Accuracy grows."; "  "; " We train on 300B tokens. "].

Definition rate_limited_url : string :=
  "https://api-inference.modelscope.cn/v1".
Definition batch_url : string := "https://api.siliconflow.cn/v1".

Definition text_chunks : list TextChunk.t :=
  [ {| TextChunk.chunk_id := "c1"; TextChunk.page_number := 1;
       TextChunk.content := "Accuracy grows with model size." |};
    {| TextChunk.chunk_id := "c2"; TextChunk.page_number := 1;
       TextChunk.content := "2.1" |};
    {| TextChunk.chunk_id := "c3"; TextChunk.page_number := 2;
       TextChunk.content := "We train on 300B tokens." |} ].

Definition figure_data : list FigureData.t :=
  [ {| FigureData.figure_id := "paper_lost.png";
       FigureData.page_number := 0;
       FigureData.image_path := "/data/images/paper_lost.png";
       FigureData.caption := None |};
    {| FigureData.figure_id := "paper_fig1.png";
       FigureData.page_number := 3;
       FigureData.image_path := "/data/images/paper_fig1.png";
       FigureData.caption := Some "Figure 1: accuracy." |} ].

(** One of the two image files is there; its analysis is that of
    [VLAgent.third_time_lucky]. *)
Definition db : VectorDB.store := {|
  VectorDB.file_exists image_path :=
    String.eqb image_path "/data/images/paper_fig1.png";
  VectorDB.analyze_image _ _ :=
    snd (VLAgent.analyze_image (lib := cpython) true true (Return "aGk=")
           (Return tt) VLAgent.third_time_lucky);
  VectorDB.upsert _ _ _ _ := Return tt;
  VectorDB.count := Return tt
|}.

(** The same store when the model never answers. *)
Definition never_answers (attempt : nat) : result pyval :=
  Raise VLAgent.timeout.

Definition blind : VectorDB.store := {|
  VectorDB.file_exists := VectorDB.file_exists db;
  VectorDB.analyze_image _ _ :=
    snd (VLAgent.analyze_image (lib := cpython) true true (Return "aGk=")
           (Return tt) never_answers);
  VectorDB.upsert := VectorDB.upsert db;
  VectorDB.count := VectorDB.count db
|}.

Definition fig1 : FigureData.t :=
  {| FigureData.figure_id := "paper_fig1.png";
     FigureData.page_number := 3;
     FigureData.image_path := "/data/images/paper_fig1.png";
     FigureData.caption := Some "Figure 1: accuracy." |}.

End Ingestion.

(** ** tools/agent_tools.py *)

Module AgentTools.

(** [format(x, ".2f")]: the decimal nearest to [x] with two digits after
    the point, ties to even, from the exact value of [x]. *)
Definition two_digits (n : Z) : string :=
  ((if (n <? 10)%Z then "0" else "") ++ CPython.string_of_Z n)%string.

Definition format_2f (x : float) : string :=
  match FloatOps.Prim2SF x with
  | SpecFloat.S754_nan => "nan"
  | SpecFloat.S754_infinity s => if s then "-inf" else "inf"
  | SpecFloat.S754_zero s => if s then "-0.00" else "0.00"
  | SpecFloat.S754_finite s m e =>
      let num := (Zpos m * 100)%Z in
      let hundredths :=
        if (0 <=? e)%Z then (num * 2 ^ e)%Z
        else
          let den := (2 ^ (- e))%Z in
          let q := (num / den)%Z in
          let r := (num mod den)%Z in
          if ((den <? 2 * r) || ((den =? 2 * r) && Z.odd q))%Z
          then (q + 1)%Z else q in
      ((if s then "-" else "")
       ++ CPython.string_of_Z (hundredths / 100) ++ "."
       ++ two_digits (hundredths mod 100))%string
  end.

(** ["\n".join(lines)] *)
Fixpoint join_lines (lines : list string) : string :=
  match lines with
  | [] => ""
  | [line] => line
  | line :: rest => (line ++ nl ++ join_lines rest)%string
  end.

(** What the calls of one use of the tool do: [get_vector_store()]
    gives the store, or [None] without a configuration (false here), or
    raises; [top_k] is the read of [cfg.agents.retriever.top_k];
    [search] is [_vector_store.search(query, top_k=top_k)]. *)
Record environment : Type := {
  get_vector_store : result bool;
  top_k : result unit;
  search : result (list EvidenceItem.t)
}.

(** [item_type == ContentType.<member>.value] *)
Definition is_value (item_type : pyval) (value : string) : bool :=
  match item_type with
  | PStr s => String.eqb s value
  | _ => false
  end.

(** [d.get(key, default)] on a [dict]. *)
Definition get_or (key : string) (d : list (string * pyval))
    (default : pyval) : pyval :=
  match lookup key d with
  | Some v => v
  | None => default
  end.

(** The text shown for a text item. *)
Definition content_preview (content : string) : string :=
  if Nat.ltb 400 (String.length content)
  then (substring 0 400 content ++ "...(truncated)")%string
  else content.

Section AgentTools.
Context {lib : Library}.

(** The validator of an [int] field. *)
Variable validate_int : pyval -> result Z.

(** [FigureData(figure_id=.., page_number=.., image_path=.., caption=..)]
    with a [figure_id] and a [caption] that are [str] already. *)
Definition FigureData_init (figure_id : string)
    (page_number_ image_path_ : pyval) (caption : string)
  : result FigureData.t :=
  p <- validate_int page_number_ ;;
  path <- validate_str image_path_ ;;
  Return {| FigureData.figure_id := figure_id;
            FigureData.page_number := p;
            FigureData.image_path := path;
            FigureData.caption := Some caption |}.

(** [for item in raw_results: ...] *)
Fixpoint classify (raw_results : list EvidenceItem.t)
    (text_evidence : list EvidenceItem.t) (image_evidence : list FigureData.t)
  : result (list EvidenceItem.t * list FigureData.t) :=
  match raw_results with
  | [] => Return (text_evidence, image_evidence)
  | item :: rest =>
      let item_type :=
        get_or "type" (EvidenceItem.metadata item) (PStr "text") in
      if is_value item_type "text" then
        let truncated_item :=
          {| EvidenceItem.id := EvidenceItem.id item;
             EvidenceItem.content :=
               content_preview (EvidenceItem.content item);
             EvidenceItem.score := EvidenceItem.score item;
             EvidenceItem.metadata := EvidenceItem.metadata item |} in
        classify rest (text_evidence ++ [truncated_item]) image_evidence
      else if is_value item_type "image" then
        fig_data <-
          FigureData_init (EvidenceItem.id item)
            (get_or "page_number" (EvidenceItem.metadata item) (PInt 0))
            (get_or "image_path" (EvidenceItem.metadata item) (PStr ""))
            (EvidenceItem.content item) ;;
        classify rest text_evidence (image_evidence ++ [fig_data])
      else classify rest text_evidence image_evidence
  end.

(** [f"[{idx+1}] (Score: {item.score:.2f}) {item.content}"]: a score
    that is [None] has no such format. *)
Definition text_line (idx : nat) (item : EvidenceItem.t) : result string :=
  match EvidenceItem.score item with
  | Some x =>
      Return ("[" ++ CPython.string_of_nat (idx + 1) ++ "] (Score: "
              ++ format_2f x ++ ") " ++ EvidenceItem.content item)%string
  | None =>
      Raise (Exc TypeError
               "unsupported format string passed to NoneType.__format__")
  end.

(** [for idx, item in enumerate(text_evidence): ...], from [idx] on. *)
Fixpoint text_lines (idx : nat) (text_evidence : list EvidenceItem.t)
  : result (list string) :=
  match text_evidence with
  | [] => Return []
  | item :: rest =>
      line <- text_line idx item ;;
      lines <- text_lines (S idx) rest ;;
      Return (line :: lines)
  end.

(** [f"- Figure {fig.figure_id} (Page {fig.page_number}): {fig.caption}"] *)
Definition image_line (fig : FigureData.t) : string :=
  ("- Figure " ++ FigureData.figure_id fig ++ " (Page "
   ++ CPython.string_of_Z (FigureData.page_number fig) ++ "): "
   ++ str_of_optional (FigureData.caption fig))%string.

Definition header (query : string) : string :=
  ("### Search Results for '" ++ query ++ "'" ++ nl)%string.

(** [retriever_tool(query)] *)
Definition retriever_tool (env : environment) (query : string)
  : result string :=
  store <- get_vector_store env ;;
  if negb store then
    Return "System Error: Vector store is not initialized. Please check configuration."
  else
    top_k_ <- top_k env ;;
    match search env with
    | Raise e =>
        Return ("Search Error: An error occurred while searching: "
                ++ exc_str e)%string
    | Return raw_results =>
        evidence <- classify raw_results [] [] ;;
        let '(text_evidence, image_evidence) := evidence in
        let output_lines := [header query] in
        output_lines <-
          match text_evidence with
          | [] => Return output_lines
          | _ =>
              lines <- text_lines 0 text_evidence ;;
              Return (output_lines ++ ["#### Text Evidence:"] ++ lines)
          end ;;
        let output_lines :=
          match image_evidence with
          | [] => output_lines
          | _ =>
              output_lines ++ [(nl ++ "#### Image Evidence:")%string]
              ++ map image_line image_evidence
          end in
        match text_evidence, image_evidence with
        | [], [] => Return "No relevant information found."
        | _, _ => Return (join_lines output_lines)
        end
    end.

End AgentTools.

(** An item is shown when its type is "text", or missing, or "image". *)
Definition shown (item : EvidenceItem.t) : bool :=
  let item_type :=
    get_or "type" (EvidenceItem.metadata item) (PStr "text") in
  is_value item_type "text" || is_value item_type "image".

(** What [add_documents] wrote, as a search finds it again: the item of
    a text chunk or of a figure, with a score. *)
Inductive stored : Type :=
| StoredText (score : float) (chunk : TextChunk.t)
| StoredFigure (score : float) (fig : FigureData.t) (vl_output : VLOutput).

Definition scored (x : float) (item : EvidenceItem.t) : EvidenceItem.t := {|
  EvidenceItem.id := EvidenceItem.id item;
  EvidenceItem.content := EvidenceItem.content item;
  EvidenceItem.score := Some x;
  EvidenceItem.metadata := EvidenceItem.metadata item
|}.

Definition found (s : stored) : EvidenceItem.t :=
  match s with
  | StoredText x chunk => scored x (VectorDB.text_item chunk)
  | StoredFigure x fig vl_output =>
      scored x (VectorDB.figure_item fig vl_output)
  end.

(** The answer expected for such results: the texts first, numbered from
    1 and cut at 400 characters, then the figures with their whole
    document. *)
Definition listed_texts (l : list stored) : list (float * string) :=
  flat_map (fun s => match s with
                     | StoredText x chunk => [(x, TextChunk.content chunk)]
                     | StoredFigure _ _ _ => []
                     end) l.

Definition listed_figures (l : list stored)
  : list (FigureData.t * VLOutput) :=
  flat_map (fun s => match s with
                     | StoredText _ _ => []
                     | StoredFigure _ fig vl_output => [(fig, vl_output)]
                     end) l.

Fixpoint numbered (idx : nat) (texts : list (float * string))
  : list string :=
  match texts with
  | [] => []
  | (x, content) :: rest =>
      ("[" ++ CPython.string_of_nat (idx + 1) ++ "] (Score: "
       ++ format_2f x ++ ") " ++ content_preview content)%string
      :: numbered (S idx) rest
  end.

Definition figure_line (p : FigureData.t * VLOutput) : string :=
  ("- Figure " ++ FigureData.figure_id (fst p) ++ " (Page "
   ++ CPython.string_of_Z (FigureData.page_number (fst p)) ++ "): "
   ++ VectorDB.rich_content (fst p) (snd p))%string.

Definition listing (query : string) (l : list stored) : string :=
  match listed_texts l, listed_figures l with
  | [], [] => "No relevant information found."
  | texts, figures =>
      join_lines
        ([header query]
         ++ match texts with
            | [] => []
            | _ => "#### Text Evidence:" :: numbered 0 texts
            end
         ++ match figures with
            | [] => []
            | _ => (nl ++ "#### Image Evidence:")%string
                   :: map figure_line figures
            end)
  end.

(** An [int] validator that takes an [int] and nothing else, as
    pydantic does in strict mode. *)
Definition strict_int (v : pyval) : result Z :=
  match v with
  | PInt z => Return z
  | _ => CPython.validation_error "int_type"
  end.

End AgentTools.

(** ** A retrieval to run *)

Module Retrieval.

(** A store that is there and finds [raw_results]. *)
Definition finding (raw_results : list EvidenceItem.t)
  : AgentTools.environment := {|
  AgentTools.get_vector_store := Return true;
  AgentTools.top_k := Return tt;
  AgentTools.search := Return raw_results
|}.

(** A figure found before two texts. *)
Definition hits : list AgentTools.stored :=
  [ AgentTools.StoredFigure 0.125 Ingestion.fig1
      {| description := "A bar chart of accuracy per model.";
         insights := "Accuracy grows with model size." |};
    AgentTools.StoredText 0.25
      {| TextChunk.chunk_id := "c1"; TextChunk.page_number := 1;
         TextChunk.content := "Accuracy grows with model size." |};
    AgentTools.StoredText 0.375
      {| TextChunk.chunk_id := "c3"; TextChunk.page_number := 2;
         TextChunk.content := "We train on 300B tokens." |} ].

(** An item of a type the tool does not show. *)
Definition table : EvidenceItem.t := {|
  EvidenceItem.id := "t1";
  EvidenceItem.content := "Table 2: parameters per model.";
  EvidenceItem.score := Some 0.5%float;
  EvidenceItem.metadata := [("type", PStr "table"); ("page_number", PInt 4)]
|}.

End Retrieval.

(** * Properties *)

(** ** The stages absorb every failure *)

Section StageFacts.
Context {lib : Library}.

Lemma try_except_Exception_returns {A : Type} (body : result A)
    (handler : exception -> result A) :
  (forall e, exists a, handler e = Return a) ->
  exists a, try_except body Exception handler = Return a.
Proof.
  intros Hh. destruct body as [a|e]; simpl.
  - now exists a.
  - apply Hh.
Qed.

Lemma validate_list_str_strs (l : list string) :
  validate_list_str (PList (map PStr l)) = Return l.
Proof.
  unfold validate_list_str. rewrite validate_list_list. simpl.
  induction l as [|s l IH]; simpl; [reflexivity|].
  now rewrite validate_str_str, IH.
Qed.

Lemma PlannerOutput_init_typed r qs b :
  PlannerOutput_init (PStr r) (PList (map PStr qs)) (PBool b)
  = Return {| reasoning := r; search_queries := qs;
              need_visual_understanding := b |}.
Proof.
  unfold PlannerOutput_init.
  now rewrite validate_str_str, validate_list_str_strs, validate_bool_bool.
Qed.

Lemma ReasonerOutput_init_typed t a cs :
  ReasonerOutput_init (PStr t) (PStr a) (PList (map PStr cs))
  = Return {| draft_answer := a; citations := cs; reasoning_trace := t |}.
Proof.
  unfold ReasonerOutput_init.
  now rewrite !validate_str_str, validate_list_str_strs.
Qed.

Lemma ReviewerOutput_init_typed score dec c f :
  ReviewerOutput_init score dec (PStr c) (PStr f)
  = Return {| confidence_score := score; decision := dec;
              critique := Some c; feedback_for_retriever := Some f |}.
Proof.
  unfold ReviewerOutput_init, validate_optional_str.
  now rewrite !validate_str_str.
Qed.

End StageFacts.

Section Stages.
Context {lib : Library}.

Lemma every_plan_valid p : valid_plan p.
Proof. destruct p. apply PlannerOutput_init_typed. Qed.

Lemma every_draft_valid d : valid_draft d.
Proof. destruct d. apply ReasonerOutput_init_typed. Qed.

Lemma every_verdict_valid v : valid_verdict v.
Proof.
  destruct v as [s d [c|] [f|]]; unfold valid_verdict, ReviewerOutput_init,
    validate_optional_str; simpl; now rewrite ?validate_str_str.
Qed.

Lemma plan_returns q outcome :
  exists p, PlannerAgent.plan q outcome = Return p.
Proof.
  apply try_except_Exception_returns. intros e.
  eexists. apply (PlannerOutput_init_typed _ [q] false).
Qed.

Lemma run_returns q ctx outcome :
  exists d, ReasonerAgent.run q ctx outcome = Return d.
Proof.
  apply try_except_Exception_returns. intros e.
  eexists. apply (ReasonerOutput_init_typed _ _ []).
Qed.

Lemma review_returns q d outcome :
  exists v, ReviewerAgent.review q d outcome = Return v.
Proof.
  apply try_except_Exception_returns. intros e.
  eexists. apply ReviewerOutput_init_typed.
Qed.

Lemma retrieve_returns q outcome :
  exists t, RetrieverAgent.run q outcome = Return t.
Proof. apply try_except_Exception_returns. eauto. Qed.

(** C2: whatever the generation capability returns or raises, each stage
    call ([PlannerAgent.plan], [ReasonerAgent.run], [ReviewerAgent.review],
    [RetrieverAgent.run]) returns, never raises, and what it returns is a
    record valid for the stage's schema. *)
Theorem stages_return_valid_records :
  (forall q outcome,
     exists p, PlannerAgent.plan q outcome = Return p /\ valid_plan p)
  /\ (forall q ctx outcome,
        exists d, ReasonerAgent.run q ctx outcome = Return d /\ valid_draft d)
  /\ (forall q d outcome,
        exists v, ReviewerAgent.review q d outcome = Return v /\ valid_verdict v)
  /\ (forall q outcome, exists t, RetrieverAgent.run q outcome = Return t).
Proof.
  repeat split.
  - intros q o. destruct (plan_returns q o) as [p Hp].
    exists p. split; [exact Hp | apply every_plan_valid].
  - intros q c o. destruct (run_returns q c o) as [d Hd].
    exists d. split; [exact Hd | apply every_draft_valid].
  - intros q d o. destruct (review_returns q d o) as [v Hv].
    exists v. split; [exact Hv | apply every_verdict_valid].
  - apply retrieve_returns.
Qed.

(** C7: when the text the Plan Stage gets back does not decode, the plan
    searches for the query itself and asks for no visual analysis. *)
Theorem plan_of_unparsable_output (X text : string) (r : response)
    (e : exception) :
  content_of r = PStr text ->
  json_loads (_clean_json_output text) = Raise e ->
  PlannerAgent.plan X (Return r)
  = Return {| reasoning :=
                if exc_class_eqb JSONDecodeError (exc_type e)
                then "JSON parsing failed, using original query."
                else ("System error: " ++ exc_str e)%string;
              search_queries := [X];
              need_visual_understanding := false |}.
Proof.
  intros Hc Hl. unfold PlannerAgent.plan. cbn [bind].
  rewrite Hc. cbn [clean_content bind]. rewrite Hl. cbn [bind try_except].
  destruct (exc_class_eqb JSONDecodeError (exc_type e)).
  - rewrite (PlannerOutput_init_typed _ [X] false). reflexivity.
  - cbn [try_except Exception]. apply (PlannerOutput_init_typed _ [X] false).
Qed.

(** C4: the code at the input that breaks the claim. A JSON object whose
    [search_queries] is the empty list, and which says nothing else,
    gives a plan with no search query: only a missing key falls back to
    the query. *)
Theorem plan_keeps_empty_search_queries (q text : string) (r : response)
    (fields : list (string * pyval)) :
  content_of r = PStr text ->
  json_loads (_clean_json_output text) = Return (PDict fields) ->
  lookup "reasoning" fields = None ->
  lookup "search_queries" fields = Some (PList []) ->
  lookup "need_visual_understanding" fields = None ->
  PlannerAgent.plan q (Return r)
  = Return {| reasoning := "No reasoning provided.";
              search_queries := [];
              need_visual_understanding := false |}.
Proof.
  intros Hc Hl Hr Hs Hn. unfold PlannerAgent.plan. cbn [bind].
  rewrite Hc. cbn [clean_content bind]. rewrite Hl. cbn [bind get].
  rewrite Hr, Hs, Hn.
  rewrite (PlannerOutput_init_typed _ [] false). reflexivity.
Qed.

Lemma review_raise q d outcome body e :
  ReviewerAgent.review q d outcome
  = try_except body Exception
      (fun e => ReviewerOutput_init 0 REJECT
                  (PStr ("System error during review: " ++ exc_str e))
                  (PStr "System error, please retry aggregation.")) ->
  body = Raise e ->
  ReviewerAgent.review q d outcome = Return (review_fallback e).
Proof.
  intros -> ->. cbn [try_except Exception]. apply ReviewerOutput_init_typed.
Qed.

(** C5, as the code has it: when the capability call fails or its output
    does not decode, the verdict is score 0.0, REJECT, the critique
    "System error during review: " followed by the error text, and the
    supplemental query "System error, please retry aggregation."; it is
    never an ACCEPT. *)
Theorem review_failure_is_rejection (q : string) (d : ReasonerOutput)
    (outcome : result response) (e : exception) :
  review_fails outcome e ->
  ReviewerAgent.review q d outcome = Return (review_fallback e)
  /\ decision (review_fallback e) = REJECT
  /\ confidence_score (review_fallback e) = 0%float.
Proof.
  intros Hf. split; [|split; reflexivity].
  eapply review_raise; [reflexivity|].
  destruct Hf as [e | r e Hc | r text e Hc Hl | r text data e Hc Hl Hg];
    cbn [bind]; try reflexivity;
    rewrite Hc; cbn [bind]; try reflexivity;
    rewrite Hl; cbn [bind]; try reflexivity.
  rewrite Hg. reflexivity.
Qed.

Lemma AgentDecision_call_other v :
  v <> PStr "ACCEPT" -> v <> PStr "REJECT" ->
  exists e, AgentDecision_call v = Raise e.
Proof.
  intros Ha Hr. destruct v; simpl; eauto.
  destruct (String.eqb_spec s "ACCEPT") as [->|_]; [now elim Ha|].
  destruct (String.eqb_spec s "REJECT") as [->|_]; [now elim Hr|].
  eauto.
Qed.

(** C10: when the review decodes to a JSON object whose [decision] is
    neither "ACCEPT" nor "REJECT", or whose [confidence_score] the
    builtin [float] refuses, nothing of the object is kept: the verdict
    is the fallback, with score 0.0 and REJECT. *)
Theorem review_discards_invalid_fields (q : string) (d : ReasonerOutput)
    (r : response) (text : string) (fields : list (string * pyval)) :
  clean_content (content_of r) = Return text ->
  json_loads text = Return (PDict fields) ->
  (exists e,
     builtin_float (match lookup "confidence_score" fields with
                    | Some v => v
                    | None => PFloat 0
                    end) = Raise e)
  \/ (exists v, lookup "decision" fields = Some v
                /\ v <> PStr "ACCEPT" /\ v <> PStr "REJECT") ->
  exists e,
    ReviewerAgent.review q d (Return r) = Return (review_fallback e)
    /\ decision (review_fallback e) = REJECT
    /\ confidence_score (review_fallback e) = 0%float.
Proof.
  intros Hc Hl Hbad.
  enough (exists e, ReviewerAgent.review q d (Return r)
                    = Return (review_fallback e)) as [e He]
    by (exists e; repeat split; exact He).
  destruct (builtin_float (match lookup "confidence_score" fields with
                           | Some v => v
                           | None => PFloat 0
                           end)) as [score|e] eqn:Hscore.
  - destruct Hbad as [[e He]|[v [Hv [Ha Hr]]]]; [discriminate|].
    destruct (AgentDecision_call_other v Ha Hr) as [e He].
    exists e. eapply review_raise; [reflexivity|].
    cbn [bind]. rewrite Hc. cbn [bind]. rewrite Hl. cbn [bind get].
    rewrite Hscore. cbn [bind]. rewrite Hv, He. reflexivity.
  - exists e. eapply review_raise; [reflexivity|].
    cbn [bind]. rewrite Hc. cbn [bind]. rewrite Hl. cbn [bind get].
    rewrite Hscore. reflexivity.
Qed.

End Stages.

(** Witness of C7: the text "not json" for the query "X". *)
Lemma plan_of_unparsable_output_witness :
  PlannerAgent.plan "X" (Return (ChatMessage (PStr "not json")))
  = Return {| reasoning := "JSON parsing failed, using original query.";
              search_queries := ["X"];
              need_visual_understanding := false |}.
Proof.
  apply (plan_of_unparsable_output "X" "not json"
           (ChatMessage (PStr "not json"))
           (Exc JSONDecodeError "Expecting value: line 1 column 1 (char 0)"));
    reflexivity.
Defined.

(** Witness of C4's failing input: the object with an empty
    [search_queries]. *)
Lemma plan_keeps_empty_search_queries_witness :
  PlannerAgent.plan "Q" (Return (ChatMessage (PStr Session.empty_queries_json)))
  = Return {| reasoning := "No reasoning provided.";
              search_queries := [];
              need_visual_understanding := false |}.
Proof.
  apply (plan_keeps_empty_search_queries "Q" Session.empty_queries_json
           (ChatMessage (PStr Session.empty_queries_json))
           [("search_queries", PList [])]);
    reflexivity.
Defined.

(** C5 as the specification words it fails: after a capability failure
    the supplemental query is not "retry aggregation", whatever the
    critique. *)
Lemma review_fallback_is_not_spec_fallback :
  ~ exists error,
      ReviewerAgent.review "Q" (Session.nth_draft 0)
        (Raise (Exc RuntimeError "timeout"))
      = Return (spec_review_fallback error).
Proof.
  intros [error H].
  apply (f_equal (fun r => match r with
                           | Return v => feedback_for_retriever v
                           | Raise _ => None
                           end)) in H.
  vm_compute in H. discriminate H.
Qed.

(** Witness of C5: the capability call raises "timeout". *)
Lemma review_failure_is_rejection_witness :
  ReviewerAgent.review "Q" (Session.nth_draft 0)
    (Raise (Exc RuntimeError "timeout"))
  = Return (review_fallback (Exc RuntimeError "timeout"))
  /\ decision (review_fallback (Exc RuntimeError "timeout")) = REJECT
  /\ confidence_score (review_fallback (Exc RuntimeError "timeout")) = 0%float.
Proof.
  apply (review_failure_is_rejection "Q" (Session.nth_draft 0)).
  apply capability_failure.
Defined.

(** Witness of C10: score 0.95, critique "well cited", decision "MAYBE". *)
Lemma review_discards_invalid_fields_witness :
  exists e,
    ReviewerAgent.review "Q" (Session.nth_draft 0)
      (Return (ChatMessage (PStr Session.maybe_json)))
    = Return (review_fallback e)
    /\ decision (review_fallback e) = REJECT
    /\ confidence_score (review_fallback e) = 0%float.
Proof.
  eapply (review_discards_invalid_fields "Q" (Session.nth_draft 0)).
  - reflexivity.
  - vm_compute. reflexivity.
  - right. exists (PStr "MAYBE"). split; [reflexivity|]. split; discriminate.
Defined.

(** ** The loop *)

(** What one pass does, case by case. *)
Ltac pass H :=
  unfold attempt, supplemental_search in H;
  destruct (reasoner_run _ _ _ _) as [?draft|] eqn:?Hdraft;
    cbn [bind] in H; [|try discriminate H];
  destruct (reviewer_review _ _ _ _) as [?review|] eqn:?Hreview;
    cbn [bind] in H; [|try discriminate H];
  destruct (decision _) eqn:?Hdecision;
    [ try discriminate H
    | destruct (console_print _ (Critique _)) as [[]|] eqn:?Hprinted;
        cbn [bind] in H; [|try discriminate H];
      destruct (feedback_for_retriever _) as [?query|] eqn:?Hquery;
        cbn [bind] in H;
        [ destruct (truthy (Some _)) eqn:?Htruthy; cbn [bind] in H;
          [ destruct (console_print _ (SupplementalSearch _)) as [[]|]
              eqn:?Hprinted; cbn [bind] in H; [|try discriminate H];
            destruct (retriever_run _ _ _) as [?evidence|] eqn:?Hevidence;
              cbn [bind] in H; [|try discriminate H]
          | ]
        | ] ];
  try (inversion H; subst; clear H; cbn [aggregated_context current_attempt
         feedback final_answer draft_output searches log add_evidence] in *).

Section LoopFacts.
Variable wording : Wording.
Variable console : Console.
Variable max_retries : nat.
Variable agents : Agents.
Variable user_query : string.

Abbreviation pass_ := (attempt wording console agents user_query).
Abbreviation loop_ := (review_loop wording console max_retries agents user_query).
Abbreviation search_ := (search_all console agents).

Lemma review_loop_step st :
  loop_ st =
  if Nat.leb (current_attempt st) max_retries then
    match pass_ st with
    | Raise e => Raise e
    | Return (st', false) => Return st'
    | Return (st', true) => loop_ st'
    end
  else Return st.
Proof.
  funelim (loop_ st);
    match goal with H : Nat.leb _ _ = _ |- _ => rewrite H end;
    try match goal with H : pass_ _ = _ |- _ => rewrite H end;
    reflexivity.
Qed.

(** A pass that does not [break] has incremented [current_attempt]. *)
Lemma attempt_continues st st' :
  pass_ st = Return (st', true) ->
  current_attempt st' = S (current_attempt st).
Proof. intros H. pass H; reflexivity. Qed.

(** The rule of the [while]: [I] holds whenever the condition is tested,
    [Q] when the loop is left, by the condition or by [break]. *)
Lemma review_loop_rule (I Q : vars -> Prop) :
  (forall st, I st -> max_retries < current_attempt st -> Q st) ->
  (forall st st', I st -> current_attempt st <= max_retries ->
                  pass_ st = Return (st', false) -> Q st') ->
  (forall st st', I st -> current_attempt st <= max_retries ->
                  pass_ st = Return (st', true) -> I st') ->
  forall st st', I st -> loop_ st = Return st' -> Q st'.
Proof.
  intros Hexit Hbreak Hnext st.
  remember (S max_retries - current_attempt st) as n eqn:Hn.
  revert st Hn. induction n as [n IH] using lt_wf_ind.
  intros st Hn st' HI Hret.
  rewrite review_loop_step in Hret.
  destruct (Nat.leb (current_attempt st) max_retries) eqn:Hle.
  - apply Nat.leb_le in Hle.
    destruct (pass_ st) as [[st1 [|]]|e] eqn:Hatt.
    + pose proof (attempt_continues _ _ Hatt) as Hinc.
      apply (IH (S max_retries - current_attempt st1)) with (st := st1);
        [lia | reflexivity | eauto | assumption].
    + inversion Hret; subst. eauto.
    + discriminate.
  - apply Nat.leb_gt in Hle. inversion Hret; subst. auto.
Qed.

(** The loop returns, or raises what a pass raised. *)
Lemma review_loop_ends :
  (forall st, ends console (pass_ st)) ->
  forall st, ends console (loop_ st).
Proof.
  intros Hatt st.
  remember (S max_retries - current_attempt st) as n eqn:Hn.
  revert st Hn. induction n as [n IH] using lt_wf_ind.
  intros st Hn. rewrite review_loop_step.
  destruct (Nat.leb (current_attempt st) max_retries) eqn:Hle; [|exact I].
  apply Nat.leb_le in Hle.
  pose proof (Hatt st) as Hend.
  destruct (pass_ st) as [[st1 [|]]|e] eqn:Hr; [|exact I|exact Hend].
  pose proof (attempt_continues _ _ Hr) as Hinc.
  apply (IH (S max_retries - current_attempt st1)); [lia | reflexivity].
Qed.

End LoopFacts.

(** ** Logs under concatenation *)

Lemma drafts_app l1 l2 : drafts (l1 ++ l2) = drafts l1 + drafts l2.
Proof. unfold drafts. now rewrite filter_app, length_app. Qed.

Lemma reviews_app l1 l2 : reviews (l1 ++ l2) = reviews l1 + reviews l2.
Proof. unfold reviews. now rewrite filter_app, length_app. Qed.

Lemma searched_app l1 l2 : searched (l1 ++ l2) = searched l1 ++ searched l2.
Proof.
  induction l1 as [|ev l1 IH]; [reflexivity|].
  destruct ev; simpl; now rewrite IH.
Qed.

Lemma supplemented_app l1 l2 :
  supplemented (l1 ++ l2) = supplemented l1 ++ supplemented l2.
Proof.
  induction l1 as [|ev l1 IH]; [reflexivity|].
  destruct ev; simpl; now rewrite IH.
Qed.

Lemma string_app_assoc (a b c : string) :
  ((a ++ b) ++ c = a ++ (b ++ c))%string.
Proof. induction a as [|x a IH]; simpl; [reflexivity | now rewrite IH]. Qed.

Lemma string_app_nil_r (a : string) : (a ++ "" = a)%string.
Proof. induction a as [|x a IH]; simpl; [reflexivity | now rewrite IH]. Qed.

Lemma string_app_length (a b : string) :
  String.length (a ++ b) = String.length a + String.length b.
Proof. induction a as [|x a IH]; simpl; [reflexivity | now rewrite IH]. Qed.

Lemma prefix_app (a b : string) : String.prefix a (a ++ b) = true.
Proof.
  induction a as [|x a IH]; simpl; [now destruct b|].
  destruct (ascii_dec x x) as [_|Hne]; [exact IH | now elim Hne].
Qed.

Lemma render_app w l1 l2 :
  render w (l1 ++ l2) = (render w l1 ++ render w l2)%string.
Proof.
  induction l1 as [|ev l1 IH]; [reflexivity|].
  destruct ev; cbn [render List.app]; rewrite IH; try reflexivity;
    now rewrite string_app_assoc.
Qed.

(** ** Sessions *)

Section Sessions.
Variable wording : Wording.
Variable console : Console.
Variable max_retries : nat.
Variable agents : Agents.
Variable user_query : string.

Abbreviation pass_ := (attempt wording console agents user_query).
Abbreviation loop_ := (review_loop wording console max_retries agents user_query).
Abbreviation search_ := (search_all console agents).
Abbreviation answer_ := (answer wording console max_retries agents user_query).

(** The planned round preserves what one more search preserves. *)
Lemma search_all_rule (P : vars -> Prop) :
  (forall st q r, P st ->
     P (add_evidence st (search_block q r) (Searched q r))) ->
  forall qs st st', P st -> search_ qs st = Return st' -> P st'.
Proof.
  intros Hstep qs. induction qs as [|q qs IH]; simpl; intros st st' HP H.
  - now inversion H; subst.
  - destruct (console_print console (Searching q)) as [[]|]; [|discriminate].
    cbn [bind] in H.
    destruct (retriever_run agents (searches st) q) as [r|]; [|discriminate].
    cbn [bind] in H. eapply IH; [|exact H]. now apply Hstep.
Qed.

(** The planned round: one call per query, in the order of the plan. *)
Lemma search_all_calls qs : forall st st',
  search_ qs st = Return st' ->
  searched (log st') = searched (log st) ++ qs
  /\ supplemented (log st') = supplemented (log st)
  /\ searches st' = searches st + length qs
  /\ current_attempt st' = current_attempt st.
Proof.
  induction qs as [|q qs IH]; simpl; intros st st' H.
  - inversion H; subst. now rewrite app_nil_r, Nat.add_0_r.
  - destruct (console_print console (Searching q)) as [[]|]; [|discriminate].
    cbn [bind] in H.
    destruct (retriever_run agents (searches st) q) as [r|]; [|discriminate].
    cbn [bind] in H. destruct (IH _ _ H) as (Hs & Hp & Hn & Ha).
    cbn [add_evidence log searches current_attempt] in *.
    rewrite Hs, Hp, Hn, Ha, searched_app, supplemented_app. simpl.
    rewrite <- app_assoc, app_nil_r. repeat split; lia.
Qed.

(** One print: it returns, or the computation raises what it raised. *)
Lemma print_ends {A : Type} (l : line) (k : unit -> result A) :
  (forall u, ends console (k u)) ->
  ends console (bind (console_print console l) k).
Proof.
  intros Hk. destruct (console_print console l) as [u|e] eqn:Hl; cbn [bind].
  - apply Hk.
  - now exists l.
Qed.

(** With reliable agents, only [console.print] can raise. *)
Lemma search_all_ends qs :
  reliable agents -> forall st, ends console (search_ qs st).
Proof.
  intros (_ & Hr & _). induction qs as [|q qs IH]; simpl; intros st;
    [exact I|].
  apply print_ends. intros _.
  destruct (Hr (searches st) q) as [r ->]. cbn [bind]. apply IH.
Qed.

Lemma attempt_ends :
  reliable agents -> forall st, ends console (pass_ st).
Proof.
  intros (_ & Hr & Hd & Hv) st. unfold attempt.
  destruct (Hd (current_attempt st) (effective_query wording user_query st)
              (aggregated_context st)) as [d ->].
  cbn [bind].
  destruct (Hv (current_attempt st) user_query d) as [v ->]. cbn [bind].
  destruct (decision v); [exact I|].
  apply print_ends. intros _.
  unfold supplemental_search.
  destruct (feedback_for_retriever v) as [q|]; cbn [bind]; [|exact I].
  destruct (truthy (Some q)); cbn [bind]; [|exact I].
  assert (Hk : forall A B (c : result A) (k1 : A -> result vars)
                 (k2 : vars -> result B),
             bind (bind c k1) k2 = bind c (fun a => bind (k1 a) k2)).
  { intros A B c k1 k2. now destruct c. }
  rewrite Hk. apply print_ends. intros _.
  match goal with
  | |- context [retriever_run agents ?n q] => destruct (Hr n q) as [r ->]
  end.
  exact I.
Qed.

(** What ends this way returns on a console that writes every line. *)
Lemma ends_returns {A : Type} (c : result A) :
  prints console -> ends console c -> exists a, c = Return a.
Proof.
  intros Hp Hend. destruct c as [a|e]; [eauto|].
  destruct Hend as [l Hl]. rewrite Hp in Hl. discriminate.
Qed.

(** The number of rounds: as many Reason and Review calls as
    [current_attempt] says, and never more than [max_retries + 1]. *)
Lemma review_loop_rounds st st' :
  drafts (log st) = current_attempt st ->
  reviews (log st) = current_attempt st ->
  current_attempt st <= S max_retries ->
  loop_ st = Return st' ->
  drafts (log st') <= S max_retries /\ reviews (log st') <= S max_retries.
Proof.
  intros Hd Hr Hb.
  apply (review_loop_rule wording console max_retries agents user_query
           (fun st => drafts (log st) = current_attempt st
                      /\ reviews (log st) = current_attempt st
                      /\ current_attempt st <= S max_retries)
           (fun st => drafts (log st) <= S max_retries
                      /\ reviews (log st) <= S max_retries)); auto.
  - intros s (H1 & H2 & H3) _. lia.
  - intros s s' (H1 & H2 & H3) Hle H. pass H;
      rewrite drafts_app, reviews_app; cbn; lia.
  - intros s s' (H1 & H2 & H3) Hle H. pass H;
      rewrite ?drafts_app, ?reviews_app; cbn; lia.
Qed.

Lemma answer_rounds plan st :
  answer_ plan = Return st ->
  drafts (log st) <= S max_retries /\ reviews (log st) <= S max_retries.
Proof.
  unfold answer. intros H.
  destruct (search_ (search_queries plan) (init_vars plan)) as [st0|] eqn:Hs;
    [|discriminate].
  cbn [bind] in H.
  assert (Hinit : drafts (log st0) = 0 /\ reviews (log st0) = 0
                  /\ current_attempt st0 = 0).
  { revert Hs.
    apply (search_all_rule
             (fun s => drafts (log s) = 0 /\ reviews (log s) = 0
                       /\ current_attempt s = 0)).
    - intros s q r (H1 & H2 & H3). cbn [add_evidence log current_attempt].
      rewrite drafts_app, reviews_app, H1, H2. auto.
    - auto. }
  destruct Hinit as (H1 & H2 & H3).
  apply (review_loop_rounds st0); [lia | lia | lia | exact H].
Qed.

Lemma answer_ends plan :
  reliable agents -> ends console (answer_ plan).
Proof.
  intros Hrel. unfold answer.
  pose proof (search_all_ends (search_queries plan) Hrel (init_vars plan))
    as Hend.
  destruct (search_ (search_queries plan) (init_vars plan)) as [st0|e];
    cbn [bind]; [|exact Hend].
  apply review_loop_ends. now apply attempt_ends.
Qed.

Lemma answer_returns plan :
  reliable agents -> prints console -> exists st, answer_ plan = Return st.
Proof.
  intros Hrel Hp. apply ends_returns; [exact Hp|]. now apply answer_ends.
Qed.

End Sessions.

Lemma agents_of_reliable {lib : Library} (caps : Capabilities) :
  reliable (agents_of caps).
Proof.
  repeat split; intros; cbn [agents_of planner_plan retriever_run reasoner_run
                               reviewer_review].
  - apply plan_returns.
  - apply retrieve_returns.
  - apply run_returns.
  - apply review_returns.
Qed.

(** Whatever the generation capability and the evidence lookup do at each
    call, and so whatever verdicts come out: app.py returns, after at most
    [max_retries + 1] Reason calls and as many Review calls; main.py
    returns within the same bounds or raises what [console.print] raised,
    and returns when the console writes every line. *)
Lemma pipelines_end {lib : Library} (caps : Capabilities)
    (console : Console) (budget : nat) (user_query : string) :
  (exists e,
     chat_pipeline_with budget (agents_of caps) user_query = Return e
     /\ match e with
        | Answered st =>
            drafts (log st) <= budget + 1 /\ reviews (log st) <= budget + 1
        | _ => True
        end)
  /\ match run_chat_pipeline_with console budget (agents_of caps) user_query with
     | Return st =>
         drafts (log st) <= budget + 1 /\ reviews (log st) <= budget + 1
     | Raise e => raised_by console e
     end
  /\ (prints console ->
      exists st,
        run_chat_pipeline_with console budget (agents_of caps) user_query
        = Return st).
Proof.
  pose proof (agents_of_reliable caps) as Hrel.
  assert (Hmain :
            match run_chat_pipeline_with console budget (agents_of caps)
                    user_query with
            | Return st =>
                drafts (log st) <= budget + 1 /\ reviews (log st) <= budget + 1
            | Raise e => raised_by console e
            end).
  { unfold run_chat_pipeline_with.
    destruct (console_print console (UserQuery user_query)) eqn:H0;
      cbn [bind]; [|now eexists; exact H0].
    destruct Hrel as (Hp & _). destruct (Hp user_query) as [plan Hplan].
    rewrite Hplan. cbn [bind].
    destruct (console_print console (PlanReasoning _)) eqn:H1;
      cbn [bind]; [|now eexists; exact H1].
    destruct (console_print console (SearchQueries _)) eqn:H2;
      cbn [bind]; [|now eexists; exact H2].
    pose proof (answer_ends main_wording console budget (agents_of caps)
                  user_query plan (agents_of_reliable caps)) as Hend.
    destruct (answer main_wording console budget (agents_of caps) user_query
                plan) as [st|e] eqn:Hst; [|exact Hend].
    rewrite Nat.add_1_r. eapply answer_rounds; eauto. }
  split; [|split; [exact Hmain|]].
  - unfold chat_pipeline_with.
    destruct (String.eqb user_query ""); [now exists NoQuestion|].
    destruct Hrel as (Hp & _). destruct (Hp user_query) as [plan Hplan].
    rewrite Hplan.
    destruct (answer_returns app_wording logs budget (agents_of caps)
                user_query plan (agents_of_reliable caps)) as [st Hst];
      [intros l; reflexivity|].
    rewrite Hst. cbn [bind]. exists (Answered st). split; [reflexivity|].
    rewrite Nat.add_1_r. eapply answer_rounds; eauto.
  - intros Hprints.
    destruct (run_chat_pipeline_with console budget (agents_of caps)
                user_query) as [st|e]; [eauto|].
    destruct Hmain as [l Hl]. rewrite Hprints in Hl. discriminate.
Qed.

(** C1, where main.py departs from it: [console.print] reads the critique
    of a rejected draft as Rich markup. Let [plan] be the plan of the
    session, [st] the variables after the planned round, [draft] and
    [review] the first draft and its review. When that review is a REJECT
    and the console, which writes every other line, raises [e] on the line
    of its critique, main.py raises [e]: the session ends in an exception
    after one round and returns nothing. app.py, which appends the same
    text to [logs], returns on the same capabilities, after at most
    [max_retries + 1] Reason calls and as many Review calls. *)
Theorem run_chat_pipeline_raises_on_critique {lib : Library}
    (caps : Capabilities) (console : Console) (budget : nat)
    (user_query : string) (plan : PlannerOutput) (st : vars)
    (draft : ReasonerOutput) (review : ReviewerOutput) (e : exception) :
  user_query <> "" ->
  planner_plan (agents_of caps) user_query = Return plan ->
  search_all console (agents_of caps) (search_queries plan) (init_vars plan)
  = Return st ->
  reasoner_run (agents_of caps) 0 user_query (aggregated_context st)
  = Return draft ->
  reviewer_review (agents_of caps) 0 user_query draft = Return review ->
  decision review = REJECT ->
  (forall l, l <> Critique (critique review) ->
             console_print console l = Return tt) ->
  console_print console (Critique (critique review)) = Raise e ->
  run_chat_pipeline_with console budget (agents_of caps) user_query = Raise e
  /\ exists st',
       chat_pipeline_with budget (agents_of caps) user_query
       = Return (Answered st')
       /\ drafts (log st') <= budget + 1 /\ reviews (log st') <= budget + 1.
Proof.
  intros Hq Hplan Hround Hdraft Hreview Hrej Hother Hcrit. split.
  - unfold run_chat_pipeline_with.
    rewrite (Hother (UserQuery user_query)) by discriminate. cbn [bind].
    rewrite Hplan. cbn [bind].
    rewrite (Hother (PlanReasoning _)) by discriminate. cbn [bind].
    rewrite (Hother (SearchQueries _)) by discriminate. cbn [bind].
    unfold answer. rewrite Hround. cbn [bind].
    assert (Hst : current_attempt st = 0 /\ feedback st = Some "").
    { revert Hround.
      apply (search_all_rule console (agents_of caps)
               (fun s => current_attempt s = 0 /\ feedback s = Some ""));
        [intros s q r Hs; exact Hs | split; reflexivity]. }
    destruct Hst as (Hzero & Hfb).
    rewrite review_loop_step, Hzero. cbn [Nat.leb].
    unfold attempt, effective_query. rewrite Hzero, Hfb.
    replace (truthy (Some "")) with false by reflexivity.
    rewrite Hdraft. cbn [bind]. rewrite Hreview. cbn [bind].
    rewrite Hrej, Hcrit. reflexivity.
  - destruct (pipelines_end caps console budget user_query)
      as ((end_ & Hend & Hbounds) & _).
    unfold chat_pipeline_with in *.
    destruct (String.eqb user_query "") eqn:Heq;
      [apply String.eqb_eq in Heq; contradiction|].
    rewrite Hplan in *.
    destruct (answer app_wording logs budget (agents_of caps) user_query plan)
      as [st'|e']; cbn [bind] in *; [|discriminate].
    inversion Hend; subst end_. exists st'. split; [reflexivity|exact Hbounds].
Qed.

(** The review of [Session.inst_json] on the first draft: main.py raises
    Rich's [MarkupError] where app.py returns. *)
Lemma run_chat_pipeline_raises_on_critique_witness :
  run_chat_pipeline Session.rich (agents_of Session.leaking) "Q"
  = Raise (Exc MarkupError
             "closing tag '[/INST]' at position 39 doesn't match any open tag")
  /\ exists st',
       chat_pipeline (agents_of Session.leaking) "Q" = Return (Answered st')
       /\ drafts (log st') <= 2 + 1 /\ reviews (log st') <= 2 + 1.
Proof.
  eapply (run_chat_pipeline_raises_on_critique Session.leaking Session.rich 2
            "Q").
  - discriminate.
  - vm_compute. reflexivity.
  - vm_compute. reflexivity.
  - vm_compute. reflexivity.
  - vm_compute. reflexivity.
  - reflexivity.
  - intros l Hl. destruct l as [| | | |[c|]|]; try reflexivity.
    cbn [Session.rich console_print critique].
    destruct (String.eqb c "[/INST]") eqn:Heq; [|reflexivity].
    apply String.eqb_eq in Heq. subst c. now elim Hl.
  - reflexivity.
Defined.

Section SessionLogs.
Variable wording : Wording.
Variable console : Console.
Variable max_retries : nat.
Variable agents : Agents.
Variable user_query : string.

Abbreviation pass_ := (attempt wording console agents user_query).
Abbreviation loop_ := (review_loop wording console max_retries agents user_query).
Abbreviation search_ := (search_all console agents).
Abbreviation answer_ := (answer wording console max_retries agents user_query).

Lemma search_all_planned_round plan st :
  search_ (search_queries plan) (init_vars plan) = Return st ->
  planned_round wording plan st.
Proof.
  intros H. unfold planned_round.
  destruct (search_all_calls console agents _ _ _ H) as (Hs & Hp & Hn & Ha).
  cbn in Hs, Hp, Hn, Ha. repeat split; try assumption.
  - revert H. apply (search_all_rule console agents (fun s => Forall (before 0) (log s))).
    + intros s q r HF. cbn [add_evidence log]. apply Forall_app. split; auto.
      apply Forall_cons; [exact I | apply Forall_nil].
    + apply Forall_cons; [exact I | apply Forall_nil].
  - revert H.
    apply (search_all_rule console agents
             (fun s => aggregated_context s = render wording (log s))).
    + intros s q r HF. cbn [add_evidence log aggregated_context].
      rewrite render_app, HF. cbn [render]. now rewrite string_app_nil_r.
    + reflexivity.
Qed.

Lemma before_weaken a b ev : a <= b -> before a ev -> before b ev.
Proof. destruct ev; simpl; auto; lia. Qed.

Lemma Forall_before_weaken a b l :
  a <= b -> Forall (before a) l -> Forall (before b) l.
Proof.
  intros Hab. apply Forall_impl. intros ev. now apply before_weaken.
Qed.

Lemma past_next st st' :
  past st -> pass_ st = Return (st', true) -> past st'.
Proof.
  unfold past. intros HF H. pass H;
    rewrite ?Forall_app; repeat split;
    try (apply Forall_before_weaken with (a := current_attempt st);
         [lia | assumption]);
    repeat (apply Forall_cons; [simpl; lia|]); apply Forall_nil.
Qed.

(** *** Supplemental searches *)

Lemma truthy_Some q : truthy (Some q) = true <-> q <> "".
Proof.
  unfold truthy. destruct (String.eqb_spec q ""); simpl; split; intros H;
    congruence.
Qed.

Lemma past_no_review st v :
  past st -> ~ In (Reviewed (current_attempt st) v) (log st).
Proof.
  intros HF Hin. unfold past in HF. rewrite Forall_forall in HF.
  apply HF in Hin. simpl in Hin. lia.
Qed.

Lemma past_no_supplement st q ev :
  past st -> ~ In (Supplemented (current_attempt st) q ev) (log st).
Proof.
  intros HF Hin. unfold past in HF. rewrite Forall_forall in HF.
  apply HF in Hin. simpl in Hin. lia.
Qed.

Lemma past_no_draft st q c d :
  past st -> ~ In (Drafted (current_attempt st) q c d) (log st).
Proof.
  intros HF Hin. unfold past in HF. rewrite Forall_forall in HF.
  apply HF in Hin. simpl in Hin. lia.
Qed.

Lemma supplemental_rule_pass st st' b :
  past st -> supplemental_rule st ->
  pass_ st = Return (st', b) -> supplemental_rule st'.
Proof.
  intros Hpast Hrule H i v Hin Hrej q.
  pose proof (past_no_review st) as Hnr.
  pose proof (past_no_supplement st) as Hns.
  pass H; rewrite ?in_app_iff in Hin; simpl in Hin.
  - (* accepted *)
    destruct Hin as [Hin|[Hin|[Hin|[]]]]; try discriminate.
    + rewrite <- (Hrule i v Hin Hrej q). split; intros [ev Hev]; exists ev.
      * rewrite in_app_iff in Hev. simpl in Hev.
        destruct Hev as [Hev|[Hev|[Hev|[]]]]; now try discriminate.
      * apply in_app_iff. now left.
    + inversion Hin; subst. congruence.
  - (* rejected, a supplemental search *)
    destruct Hin as [[Hin|[Hin|[Hin|[]]]]|[Hin|[]]]; try discriminate.
    + rewrite <- (Hrule i v Hin Hrej q). split; intros [ev Hev]; exists ev.
      * rewrite !in_app_iff in Hev. simpl in Hev.
        destruct Hev as [[Hev|[Hev|[Hev|[]]]]|[Hev|[]]]; try discriminate;
          [assumption|].
        inversion Hev; subst. now elim (Hnr v).
      * rewrite !in_app_iff. now left; left.
    + inversion Hin; subst. rewrite Hquery. split.
      * intros [ev Hev]. rewrite !in_app_iff in Hev. simpl in Hev.
        destruct Hev as [[Hev|[Hev|[Hev|[]]]]|[Hev|[]]]; try discriminate.
        -- now elim (Hns q ev).
        -- inversion Hev; subst. split; [reflexivity|].
           now apply truthy_Some.
      * intros [Heq _]. inversion Heq; subst. exists evidence.
        rewrite !in_app_iff. right. now left.
  - (* rejected, an empty query *)
    destruct Hin as [Hin|[Hin|[Hin|[]]]]; try discriminate.
    + rewrite <- (Hrule i v Hin Hrej q). split; intros [ev Hev]; exists ev.
      * rewrite in_app_iff in Hev. simpl in Hev.
        destruct Hev as [Hev|[Hev|[Hev|[]]]]; now try discriminate.
      * apply in_app_iff. now left.
    + inversion Hin; subst. rewrite Hquery. split.
      * intros [ev Hev]. rewrite in_app_iff in Hev. simpl in Hev.
        destruct Hev as [Hev|[Hev|[Hev|[]]]]; try discriminate.
        now elim (Hns q ev).
      * intros [Heq Hne]. inversion Heq; subst.
        apply truthy_Some in Hne. congruence.
  - (* rejected, no query *)
    destruct Hin as [Hin|[Hin|[Hin|[]]]]; try discriminate.
    + rewrite <- (Hrule i v Hin Hrej q). split; intros [ev Hev]; exists ev.
      * rewrite in_app_iff in Hev. simpl in Hev.
        destruct Hev as [Hev|[Hev|[Hev|[]]]]; now try discriminate.
      * apply in_app_iff. now left.
    + inversion Hin; subst. rewrite Hquery. split.
      * intros [ev Hev]. rewrite in_app_iff in Hev. simpl in Hev.
        destruct Hev as [Hev|[Hev|[Hev|[]]]]; try discriminate.
        now elim (Hns q ev).
      * intros [Heq _]. discriminate.
Qed.


(** *** The evidence block *)

Lemma render_pass st st' b :
  aggregated_context st = render wording (log st) ->
  pass_ st = Return (st', b) ->
  aggregated_context st' = render wording (log st').
Proof.
  intros Hctx H. pass H; rewrite ?render_app; cbn [render];
    rewrite <- Hctx, ?string_app_nil_r; reflexivity.
Qed.

Lemma snapshots_pass st st' b :
  past st -> snapshots_kept st -> snapshots_grow st ->
  pass_ st = Return (st', b) ->
  snapshots_kept st' /\ snapshots_grow st'.
Proof.
  intros Hpast Hkept Hgrow H.
  assert (Hlt : forall i q c d, In (Drafted i q c d) (log st) ->
                                i < current_attempt st).
  { intros i q c d Hin. unfold past in Hpast. rewrite Forall_forall in Hpast.
    now apply Hpast in Hin. }
  assert (Hcase : forall (dr : ReasonerOutput) (tail : list event) eq_ i q c d,
             (forall ev, In ev tail -> is_draft ev = false) ->
             In (Drafted i q c d)
               (log st ++ Drafted (current_attempt st) eq_
                            (aggregated_context st) dr :: tail) ->
             In (Drafted i q c d) (log st)
             \/ (i = current_attempt st /\ c = aggregated_context st)).
  { intros dr tail eq_ i q c d Htail Hin. apply in_app_iff in Hin.
    destruct Hin as [Hin|[Hin|Hin]].
    - now left.
    - inversion Hin; subst. now right.
    - apply Htail in Hin. discriminate. }
  assert (Hboth : forall (dr : ReasonerOutput) (tail : list event) eq_ more,
             (forall ev, In ev tail -> is_draft ev = false) ->
             let st1 := {| aggregated_context :=
                             (aggregated_context st ++ more)%string;
                           current_attempt := 0; feedback := None;
                           final_answer := None; draft_output := None;
                           searches := 0;
                           log := log st ++ Drafted (current_attempt st) eq_
                                    (aggregated_context st) dr :: tail |} in
             (forall i q c d, In (Drafted i q c d) (log st1) ->
                exists m, aggregated_context st1 = (c ++ m)%string)
             /\ (forall i j q c d q' c' d',
                   In (Drafted i q c d) (log st1) ->
                   In (Drafted j q' c' d') (log st1) ->
                   i < j -> exists m, c' = (c ++ m)%string)).
  { intros dr tail eq_ more Htail st1. subst st1. cbn [log aggregated_context].
    split.
    - intros i q c d Hin.
      destruct (Hcase _ _ _ _ _ _ _ Htail Hin) as [Hold|[_ ->]].
      + destruct (Hkept _ _ _ _ Hold) as [m ->].
        exists (m ++ more)%string. apply string_app_assoc.
      + now exists more.
    - intros i j q c d q' c' d' Hi Hj Hij.
      destruct (Hcase _ _ _ _ _ _ _ Htail Hi) as [Hio|[-> ->]];
        destruct (Hcase _ _ _ _ _ _ _ Htail Hj) as [Hjo|[-> ->]].
      + eapply Hgrow; eauto.
      + now apply Hkept in Hio.
      + apply Hlt in Hjo. lia.
      + lia. }
  pass H; unfold snapshots_kept, snapshots_grow;
    cbn [log aggregated_context]; rewrite <- ?app_assoc; cbn [List.app].
  - destruct (Hboth draft [Reviewed (current_attempt st) review]
                (effective_query wording user_query st) "") as [H1 H2].
    { intros ev [<-|[]]. reflexivity. }
    cbn [log aggregated_context] in H1, H2.
    rewrite string_app_nil_r in H1. now split.
  - eapply (Hboth draft
              [Reviewed (current_attempt st) review;
               Supplemented (current_attempt st) query evidence]).
    intros ev [<-|[<-|[]]]; reflexivity.
  - destruct (Hboth draft [Reviewed (current_attempt st) review]
                (effective_query wording user_query st) "") as [H1 H2].
    { intros ev [<-|[]]. reflexivity. }
    cbn [log aggregated_context] in H1, H2.
    rewrite string_app_nil_r in H1. now split.
  - destruct (Hboth draft [Reviewed (current_attempt st) review]
                (effective_query wording user_query st) "") as [H1 H2].
    { intros ev [<-|[]]. reflexivity. }
    cbn [log aggregated_context] in H1, H2.
    rewrite string_app_nil_r in H1. now split.
Qed.


Lemma split_at_draft (old tail l1 l2 : list event) (x : event) :
  old ++ tail = l1 ++ x :: l2 ->
  (exists l, old = l1 ++ x :: l)
  \/ (exists l l', l1 = old ++ l /\ tail = l ++ x :: l').
Proof.
  intros H. apply app_eq_app in H. destruct H as [l [[-> H]|[-> H]]].
  - destruct l as [|y l].
    + right. exists [], l2. rewrite !app_nil_r. simpl in H. now split.
    + inversion H; subst. left. now exists l.
  - right. now exists l, l2.
Qed.

Lemma rendered_pass st st' b :
  aggregated_context st = render wording (log st) ->
  snapshots_rendered wording st ->
  pass_ st = Return (st', b) ->
  snapshots_rendered wording st'.
Proof.
  intros Hctx Hr H l1 l2 i q c d Hsplit.
  assert (Hcase : forall tail,
             (forall ev, In ev tail -> is_draft ev = false) ->
             forall dr eq_,
             log st ++ Drafted (current_attempt st) eq_
                         (aggregated_context st) dr :: tail
             = l1 ++ Drafted i q c d :: l2 ->
             c = render wording l1).
  { intros tail Htail dr eq_ Heq.
    apply split_at_draft in Heq. destruct Heq as [[l Hold]|(l & l' & -> & Ht)].
    - eapply Hr; eauto.
    - destruct l as [|y l].
      + inversion Ht; subst. now rewrite app_nil_r.
      + inversion Ht; subst.
        assert (Hd : is_draft (Drafted i q c d) = false)
          by (apply Htail; apply in_app_iff; right; now left).
        discriminate. }
  pass H; cbn [log] in Hsplit; rewrite <- ?app_assoc in Hsplit;
    cbn [List.app] in Hsplit; eapply Hcase; try exact Hsplit;
    intros ev Hin; simpl in Hin; intuition (subst; reflexivity).
Qed.

(** *** Acceptance at the first attempt *)

Lemma all_rejected_next st st' :
  all_rejected st -> pass_ st = Return (st', true) -> all_rejected st'.
Proof.
  intros Hall H i v Hin. pass H; rewrite ?in_app_iff in Hin; simpl in Hin;
    intuition (try discriminate; eauto);
    match goal with
    | Heq : Reviewed _ _ = Reviewed _ _ |- _ => inversion Heq; subst; assumption
    end.
Qed.

Lemma first_accept_break plan st st' :
  past st -> all_rejected st ->
  (current_attempt st = 0 -> only_planned_round plan st) ->
  pass_ st = Return (st', false) ->
  forall v, In (Reviewed 0 v) (log st') -> decision v = ACCEPT ->
            only_planned_round plan st'.
Proof.
  intros Hpast Hall Hzero H v Hin Hacc. unfold only_planned_round.
  pass H. rewrite searched_app, supplemented_app. cbn.
  rewrite !app_nil_r. apply Hzero.
  apply in_app_iff in Hin. simpl in Hin.
  destruct Hin as [Hin|[Hin|[Hin|[]]]]; try discriminate.
  - apply Hall in Hin. congruence.
  - now inversion Hin.
Qed.

(** *** What holds at the end of a session *)

Lemma answer_facts plan st :
  answer_ plan = Return st ->
  supplemental_rule st
  /\ aggregated_context st = render wording (log st)
  /\ snapshots_grow st
  /\ snapshots_rendered wording st
  /\ (forall v, In (Reviewed 0 v) (log st) -> decision v = ACCEPT ->
                only_planned_round plan st).
Proof.
  unfold answer. intros H.
  destruct (search_ (search_queries plan) (init_vars plan)) as [st0|] eqn:Hs;
    [|discriminate].
  cbn [bind] in H.
  apply search_all_planned_round in Hs.
  destruct Hs as (Ha & Hb & Hq & Hp & Hn & Hc).
  assert (Hnone : forall ev, In ev (log st0) ->
                    match ev with
                    | Drafted _ _ _ _ | Reviewed _ _ | Supplemented _ _ _ => False
                    | _ => True
                    end).
  { intros ev Hin. rewrite Forall_forall in Hb. apply Hb in Hin.
    destruct ev; simpl in *; auto; lia. }
  apply (review_loop_rule wording console max_retries agents user_query
           (fun s => past s /\ supplemental_rule s
                     /\ aggregated_context s = render wording (log s)
                     /\ snapshots_kept s /\ snapshots_grow s
                     /\ snapshots_rendered wording s
                     /\ all_rejected s
                     /\ (current_attempt s = 0 -> only_planned_round plan s))
           (fun s => supplemental_rule s
                     /\ aggregated_context s = render wording (log s)
                     /\ snapshots_grow s
                     /\ snapshots_rendered wording s
                     /\ (forall v, In (Reviewed 0 v) (log s) ->
                                   decision v = ACCEPT ->
                                   only_planned_round plan s)))
    with (st := st0); [| | | |exact H].
  - intros s (H1 & H2 & H3 & H4 & H5 & H6 & H7 & H8) _.
    repeat (split; [assumption|]).
    intros v Hin Hacc. apply H7 in Hin. congruence.
  - intros s s' (H1 & H2 & H3 & H4 & H5 & H6 & H7 & H8) _ Hpass.
    split; [eapply supplemental_rule_pass; eauto|].
    split; [eapply render_pass; eauto|].
    split; [eapply snapshots_pass; eauto|].
    split; [eapply rendered_pass; eauto|].
    eapply first_accept_break; eauto.
  - intros s s' (H1 & H2 & H3 & H4 & H5 & H6 & H7 & H8) _ Hpass.
    split; [eapply past_next; eauto|].
    split; [eapply supplemental_rule_pass; eauto|].
    split; [eapply render_pass; eauto|].
    split; [eapply snapshots_pass; eauto|].
    split; [eapply snapshots_pass; eauto|].
    split; [eapply rendered_pass; eauto|].
    split; [eapply all_rejected_next; eauto|].
    intros Hz. apply attempt_continues in Hpass. lia.
  - unfold past. rewrite Ha.
    split; [assumption|].
    split; [intros i v Hin; now apply Hnone in Hin|].
    split; [assumption|].
    split; [intros i q c d Hin; now apply Hnone in Hin|].
    split; [intros i j q c d q' c' d' Hin; now apply Hnone in Hin|].
    split.
    { intros l1 l2 i q c d Heq.
      assert (Hin : In (Drafted i q c d) (log st0))
        by (rewrite Heq; apply in_app_iff; right; now left).
      now apply Hnone in Hin. }
    split; [intros i v Hin; now apply Hnone in Hin|].
    intros _. unfold only_planned_round. auto.
Qed.

End SessionLogs.

(** A session that ran to its end went through [answer]. *)
Lemma session_of_answer budget agents user_query w st :
  session_of budget agents user_query w st ->
  exists console plan,
    planner_plan agents user_query = Return plan
    /\ answer w console budget agents user_query plan = Return st.
Proof.
  intros [console s H|s H].
  - unfold run_chat_pipeline_with in H.
    destruct (console_print console (UserQuery _)); [|discriminate].
    cbn [bind] in H.
    destruct (planner_plan agents user_query) as [plan|]; [|discriminate].
    cbn [bind] in H.
    destruct (console_print console (PlanReasoning _)); [|discriminate].
    cbn [bind] in H.
    destruct (console_print console (SearchQueries _)); [|discriminate].
    now exists console, plan.
  - unfold chat_pipeline_with in H.
    destruct (String.eqb user_query ""); [discriminate|].
    destruct (planner_plan agents user_query) as [plan|]; [|discriminate].
    exists logs, plan. split; [reflexivity|].
    destruct (answer app_wording logs budget agents user_query plan);
      cbn [bind] in H; now inversion H.
Qed.

(** C3, as the code has it: in a session of either pipeline, after an
    attempt whose verdict is REJECT a supplemental retrieval is on record
    exactly when the verdict's [feedback_for_retriever] is a non-empty
    string; it is for that string, and its evidence is in the evidence
    block. The attempt's index plays no part. *)
Theorem supplemental_search_rule (budget : nat) (agents : Agents)
    (user_query : string) (w : Wording) (st : vars) :
  session_of budget agents user_query w st ->
  supplemental_rule st /\ aggregated_context st = render w (log st).
Proof.
  intros H. apply session_of_answer in H.
  destruct H as (console & plan & _ & H).
  apply answer_facts in H. tauto.
Qed.

(** C8: in a session of either pipeline whose first verdict is ACCEPT,
    the retrieval calls are those of the planned round, one per search
    query of the plan and in its order, and there is no supplemental
    call. *)
Theorem first_accept_one_round (budget : nat) (agents : Agents)
    (user_query : string) (w : Wording) (st : vars) (v : ReviewerOutput) :
  session_of budget agents user_query w st ->
  In (Reviewed 0 v) (log st) ->
  decision v = ACCEPT ->
  exists plan, planner_plan agents user_query = Return plan
               /\ searched (log st) = search_queries plan
               /\ supplemented (log st) = []
               /\ searches st = length (search_queries plan).
Proof.
  intros H Hin Hacc. apply session_of_answer in H.
  destruct H as (console & plan & Hplan & H).
  exists plan. split; [exact Hplan|].
  apply answer_facts in H. destruct H as (_ & _ & _ & _ & H).
  exact (H v Hin Hacc).
Qed.

(** C6: in a session of either pipeline, the evidence an attempt sees is
    a prefix of the evidence the next attempt sees, hence no longer; and
    the evidence an attempt sees is made of the segments of all the
    retrieval calls before it, each one whole and in the order of the
    calls. *)
Theorem evidence_is_append_only (budget : nat) (agents : Agents)
    (user_query : string) (w : Wording) (st : vars) :
  session_of budget agents user_query w st ->
  (forall i q c d q' c' d',
     In (Drafted i q c d) (log st) ->
     In (Drafted (S i) q' c' d') (log st) ->
     String.prefix c c' = true
     /\ String.length c <= String.length c'
     /\ exists more, c' = (c ++ more)%string)
  /\ snapshots_rendered w st.
Proof.
  intros H. apply session_of_answer in H.
  destruct H as (console & plan & _ & H).
  apply answer_facts in H. destruct H as (_ & _ & Hgrow & Hrend & _).
  split; [|exact Hrend].
  intros i q c d q' c' d' Hi Hj.
  destruct (Hgrow i (S i) q c d q' c' d' Hi Hj (Nat.lt_succ_diag_r i))
    as [more ->].
  split; [apply prefix_app|].
  split; [rewrite string_app_length; lia | now exists more].
Qed.

(** ** The score of a verdict *)

Section Scores.
Variable wording : Wording.
Variable console : Console.
Variable max_retries : nat.
Variables a1 a2 : Agents.
Variable user_query : string.
Hypothesis Hsame : same_but_scores a1 a2.

Lemma search_all_same_retriever qs : forall st,
  search_all console a1 qs st = search_all console a2 qs st.
Proof.
  destruct Hsame as (_ & Hr & _).
  induction qs as [|q qs IH]; simpl; intros st; [reflexivity|].
  destruct (console_print console (Searching q)); cbn [bind]; [|reflexivity].
  rewrite Hr. destruct (retriever_run a2 (searches st) q); cbn [bind]; auto.
Qed.

Lemma without_score_eq v1 v2 :
  without_score v1 = without_score v2 ->
  decision v1 = decision v2 /\ critique v1 = critique v2
  /\ feedback_for_retriever v1 = feedback_for_retriever v2.
Proof. unfold without_score. intros H. now inversion H. Qed.

Lemma vars_without_score_eq st1 st2 :
  vars_without_score st1 = vars_without_score st2 ->
  aggregated_context st1 = aggregated_context st2
  /\ current_attempt st1 = current_attempt st2
  /\ feedback st1 = feedback st2
  /\ final_answer st1 = final_answer st2
  /\ draft_output st1 = draft_output st2
  /\ searches st1 = searches st2
  /\ map event_without_score (log st1) = map event_without_score (log st2).
Proof. unfold vars_without_score. intros H. now inversion H. Qed.

Lemma attempt_same st1 st2 :
  vars_without_score st1 = vars_without_score st2 ->
  pass_without_score (attempt wording console a1 user_query st1)
  = pass_without_score (attempt wording console a2 user_query st2).
Proof.
  intros H. apply vars_without_score_eq in H.
  destruct H as (Hc & Ha & Hf & Hfin & Hd & Hs & Hl).
  destruct Hsame as (_ & Hret & Hrea & Hrev).
  unfold attempt, effective_query. rewrite Hf, Ha, Hc, Hrea.
  destruct (reasoner_run a2 _ _ _) as [draft|]; cbn [bind]; [|reflexivity].
  specialize (Hrev (current_attempt st2) user_query draft).
  destruct (reviewer_review a1 _ _ _) as [v1|e1];
    destruct (reviewer_review a2 _ _ _) as [v2|e2];
    cbn [map_result] in Hrev; try discriminate; cbn [bind];
    [|now inversion Hrev].
  assert (Hv : without_score v1 = without_score v2) by congruence.
  destruct (without_score_eq _ _ Hv) as (Hdec & Hcrit & Hfb).
  rewrite Hdec. destruct (decision v2).
  - unfold pass_without_score, vars_without_score. cbn.
    rewrite !map_app, ?Hl, ?Hc, ?Hf, ?Hfin, ?Hd, ?Hs, ?Ha. cbn. now rewrite Hv.
  - rewrite Hcrit.
    destruct (console_print console (Critique _)); cbn [bind];
      [|reflexivity].
    unfold supplemental_search.
    cbn [searches current_attempt aggregated_context log feedback
         final_answer draft_output add_evidence].
    rewrite Hfb.
    destruct (feedback_for_retriever v2) as [q|]; cbn [bind].
    + destruct (truthy (Some q)); cbn [bind].
      * destruct (console_print console (SupplementalSearch _)); cbn [bind];
          [|reflexivity].
        rewrite ?Hs, Hret.
        destruct (retriever_run a2 (searches st2) q); cbn [bind];
          [|reflexivity].
        unfold pass_without_score, vars_without_score. cbn.
        rewrite !map_app, ?Hl, ?Hc, ?Hd, ?Hfin, ?Hs, ?Ha, ?Hcrit. cbn.
        now rewrite Hv.
      * unfold pass_without_score, vars_without_score. cbn.
        rewrite !map_app, ?Hl, ?Hc, ?Hd, ?Hfin, ?Hs, ?Ha, ?Hcrit. cbn.
        now rewrite Hv.
    + unfold pass_without_score, vars_without_score. cbn.
      rewrite !map_app, ?Hl, ?Hc, ?Hd, ?Hfin, ?Hs, ?Ha, ?Hcrit. cbn.
      now rewrite Hv.
Qed.

Lemma review_loop_same : forall st1 st2,
  vars_without_score st1 = vars_without_score st2 ->
  map_result vars_without_score
    (review_loop wording console max_retries a1 user_query st1)
  = map_result vars_without_score
      (review_loop wording console max_retries a2 user_query st2).
Proof.
  intros st1.
  remember (S max_retries - current_attempt st1) as n eqn:Hn.
  revert st1 Hn. induction n as [n IH] using lt_wf_ind.
  intros st1 Hn st2 Heq.
  pose proof (attempt_same st1 st2 Heq) as Hpass.
  pose proof (vars_without_score_eq _ _ Heq) as (_ & Ha & _).
  rewrite (review_loop_step wording console max_retries a1),
          (review_loop_step wording console max_retries a2), <- Ha.
  destruct (Nat.leb (current_attempt st1) max_retries) eqn:Hle;
    [|cbn; now rewrite Heq].
  apply Nat.leb_le in Hle.
  destruct (attempt wording console a1 user_query st1) as [[s1 b1]|e1] eqn:H1;
    destruct (attempt wording console a2 user_query st2) as [[s2 b2]|e2] eqn:H2;
    cbn in Hpass; try discriminate; [|now inversion Hpass].
  assert (Hs : vars_without_score s1 = vars_without_score s2) by congruence.
  assert (Hb : b1 = b2) by congruence.
  subst b2. destruct b1.
  - pose proof (attempt_continues _ _ _ _ _ _ H1) as Hinc.
    apply (IH (S max_retries - current_attempt s1)); [lia | reflexivity|].
    exact Hs.
  - cbn. now rewrite Hs.
Qed.

Lemma answer_same plan :
  map_result vars_without_score
    (answer wording console max_retries a1 user_query plan)
  = map_result vars_without_score
      (answer wording console max_retries a2 user_query plan).
Proof.
  unfold answer. rewrite search_all_same_retriever.
  destruct (search_all console a2 (search_queries plan) (init_vars plan))
    as [st|];
    cbn [bind]; [|reflexivity].
  now apply review_loop_same.
Qed.

End Scores.

Lemma drafts_without_score l : drafts (map event_without_score l) = drafts l.
Proof.
  unfold drafts. induction l as [|ev l IH]; [reflexivity|].
  destruct ev; simpl; auto.
Qed.

(** C9: two sessions whose agents differ at most by the scores of the
    verdicts end alike, in either pipeline: the same events in the same
    order up to those scores, the same number of attempts, the same
    accepted answer or none, the same last draft; and if one raises, so
    does the other. *)
Theorem score_is_reporting_only (console : Console) (budget : nat)
    (a1 a2 : Agents) (user_query : string) :
  same_but_scores a1 a2 ->
  map_result vars_without_score (run_chat_pipeline_with console budget a1 user_query)
  = map_result vars_without_score (run_chat_pipeline_with console budget a2 user_query)
  /\ map_result chat_end_without_score (chat_pipeline_with budget a1 user_query)
     = map_result chat_end_without_score
         (chat_pipeline_with budget a2 user_query)
  /\ (forall s1, run_chat_pipeline_with console budget a1 user_query = Return s1 ->
        exists s2,
          run_chat_pipeline_with console budget a2 user_query = Return s2
          /\ map event_without_score (log s1) = map event_without_score (log s2)
          /\ drafts (log s1) = drafts (log s2)
          /\ current_attempt s1 = current_attempt s2
          /\ final_answer s1 = final_answer s2
          /\ draft_output s1 = draft_output s2).
Proof.
  intros Hsame.
  assert (Hmain :
    map_result vars_without_score (run_chat_pipeline_with console budget a1 user_query)
    = map_result vars_without_score
        (run_chat_pipeline_with console budget a2 user_query)).
  { unfold run_chat_pipeline_with.
    destruct (console_print console (UserQuery _)); cbn [bind];
      [|reflexivity].
    rewrite (proj1 Hsame).
    destruct (planner_plan a2 user_query); cbn [bind]; [|reflexivity].
    destruct (console_print console (PlanReasoning _)); cbn [bind];
      [|reflexivity].
    destruct (console_print console (SearchQueries _)); cbn [bind];
      [|reflexivity].
    now apply answer_same. }
  split; [exact Hmain|]. split.
  - unfold chat_pipeline_with. destruct (String.eqb user_query "");
      [reflexivity|].
    rewrite (proj1 Hsame).
    destruct (planner_plan a2 user_query) as [plan|]; [|reflexivity].
    pose proof (answer_same app_wording logs budget a1 a2 user_query Hsame
                  plan) as Ha.
    destruct (answer app_wording logs budget a1 user_query plan);
      destruct (answer app_wording logs budget a2 user_query plan);
      cbn [bind map_result chat_end_without_score] in Ha |- *; congruence.
  - intros s1 H1. rewrite H1 in Hmain.
    destruct (run_chat_pipeline_with console budget a2 user_query) as [s2|];
      [|discriminate].
    exists s2. split; [reflexivity|].
    assert (Heq : vars_without_score s1 = vars_without_score s2)
      by (cbn [map_result] in Hmain; congruence).
    apply vars_without_score_eq in Heq.
    destruct Heq as (_ & Ha & _ & Hfin & Hd & _ & Hl).
    repeat split; try assumption.
    now rewrite <- (drafts_without_score (log s1)), Hl, drafts_without_score.
Qed.

(** ** The theorems at work *)

(** Witness of C3: rejected once with the query "look at Fig.2", then
    accepted. *)
Lemma supplemental_search_rule_witness :
  exists st,
    session_of 2 (Session.accepting_from 1 0) "Q" main_wording st
    /\ supplemental_rule st
    /\ aggregated_context st = render main_wording (log st).
Proof.
  eexists. split.
  - apply main_session with (console := Session.rich). vm_compute. reflexivity.
  - apply (supplemental_search_rule 2 (Session.accepting_from 1 0) "Q").
    apply main_session with (console := Session.rich). vm_compute. reflexivity.
Defined.

(** C3 as the specification words it fails: with a reviewer that never
    accepts, the third and last attempt is followed by a supplemental
    search although [2 < max_retries] does not hold. *)
Lemma supplemental_search_after_last_attempt :
  exists st,
    run_chat_pipeline Session.rich Session.never_accepting "Q" = Return st
    /\ ~ spec_supplemental_rule max_retries st.
Proof.
  eexists. split; [vm_compute; reflexivity|].
  intros Hspec.
  destruct (Hspec 2 (Session.rejection 0)) as [Hlast _].
  - cbn [log]. do 10 right. left. reflexivity.
  - reflexivity.
  - destruct Hlast as [_ Hlt].
    + exists "look at Fig.2", "evidence 4 for look at Fig.2".
      cbn [log]. do 11 right. left. reflexivity.
    + unfold max_retries in Hlt. lia.
Qed.

(** Witness of C8: accepted at the first attempt. *)
Lemma first_accept_one_round_witness :
  exists st plan,
    session_of 2 (Session.accepting_from 0 0) "Q" main_wording st
    /\ planner_plan (Session.accepting_from 0 0) "Q" = Return plan
    /\ searched (log st) = search_queries plan
    /\ supplemented (log st) = []
    /\ searches st = length (search_queries plan).
Proof.
  eexists.
  assert (H : session_of 2 (Session.accepting_from 0 0) "Q" main_wording _)
    by (apply main_session with (console := Session.rich);
        vm_compute; reflexivity).
  destruct (first_accept_one_round 2 (Session.accepting_from 0 0) "Q"
              main_wording _ (Session.acceptance 1) H)
    as [plan Hplan].
  - cbn [log]. do 4 right. left. reflexivity.
  - reflexivity.
  - exists plan. split; [exact H | exact Hplan].
Defined.

(** Witness of C6: rejected once, then accepted. *)
Lemma evidence_is_append_only_witness :
  exists st,
    session_of 2 (Session.accepting_from 1 0) "Q" main_wording st
    /\ (forall i q c d q' c' d',
          In (Drafted i q c d) (log st) ->
          In (Drafted (S i) q' c' d') (log st) ->
          String.prefix c c' = true
          /\ String.length c <= String.length c'
          /\ exists more, c' = (c ++ more)%string)
    /\ snapshots_rendered main_wording st.
Proof.
  eexists. split.
  - apply main_session with (console := Session.rich). vm_compute. reflexivity.
  - apply (evidence_is_append_only 2 (Session.accepting_from 1 0) "Q").
    apply main_session with (console := Session.rich). vm_compute. reflexivity.
Defined.

(** Witness of C9: the rejections scored 0.25 in one session and 0.5 in
    the other. *)
Lemma score_is_reporting_only_witness :
  map_result vars_without_score
    (run_chat_pipeline_with Session.rich 2 (Session.accepting_from 1 0.25) "Q")
  = map_result vars_without_score
      (run_chat_pipeline_with Session.rich 2 (Session.accepting_from 1 0.5) "Q").
Proof.
  apply (score_is_reporting_only Session.rich 2
           (Session.accepting_from 1 0.25)
           (Session.accepting_from 1 0.5) "Q").
  repeat split. intros n q d. destruct n; reflexivity.
Defined.

(** The full rejection path: the query "Q", a reviewer that always
    rejects. Three attempts are on record, no answer is accepted, and the
    last draft is that of the third attempt. *)
Example full_rejection_path :
  exists st,
    run_chat_pipeline Session.rich Session.never_accepting "Q" = Return st
    /\ drafts (log st) = 3 /\ reviews (log st) = 3
    /\ final_answer st = None
    /\ draft_output st = Some (Session.nth_draft 2).
Proof. eexists. split; [vm_compute; reflexivity|]. repeat split. Qed.

(** Acceptance at the second attempt: one more retrieval, for
    "look at Fig.2", between the first review and the second draft, whose
    evidence holds the planned segments and the supplemental one. *)
Example accept_on_second_try :
  exists st c,
    run_chat_pipeline Session.rich (Session.accepting_from 1 0) "Q" = Return st
    /\ supplemented (log st) = [(0, "look at Fig.2")]
    /\ searches st = 3
    /\ In (Drafted 1
             ("Q" ++ nl ++ nl ++ "(PREVIOUS FEEDBACK: no citation for the figure. "
              ++ "Please improve the answer.)")%string
             c (Session.nth_draft 1)) (log st)
    /\ c = (search_block "method" "evidence 0 for method"
            ++ search_block "results" "evidence 1 for results"
            ++ supplemental_block main_wording "evidence 2 for look at Fig.2")%string
    /\ final_answer st = Some (Session.nth_draft 1).
Proof.
  eexists. eexists. split; [vm_compute; reflexivity|].
  split; [reflexivity|]. split; [reflexivity|].
  split; [cbn [log]; do 6 right; left; reflexivity|].
  split; reflexivity.
Qed.

(** A session on the reference library in which the plan does not decode
    and the evidence lookup fails: the plan falls back to the query, the
    failure becomes the evidence, and the answer is accepted at once. *)
Example degraded_session :
  exists st,
    run_chat_pipeline Session.rich (agents_of Session.degraded) "Q" = Return st
    /\ searched (log st) = ["Q"]
    /\ aggregated_context st
       = search_block "Q" "Retriever failed: connection refused"
    /\ final_answer st
       = Some {| draft_answer := "It decreases [Page 4].";
                 citations := ["Page 4"];
                 reasoning_trace := "from the text" |}.
Proof. eexists. split; [vm_compute; reflexivity|]. repeat split. Qed.

(** * More properties of the code *)

(** ** Strings *)

Lemma substring_length_le n m s : String.length (substring n m s) <= m.
Proof.
  revert n m. induction s as [|c s IH]; intros [|n] [|m]; simpl;
    try lia.
  - specialize (IH 0 m). lia.
  - apply (IH n 0).
  - apply (IH n (S m)).
Qed.

Lemma slice_from_length n s : String.length (slice_from n s) <= String.length s.
Proof.
  unfold slice_from.
  pose proof (substring_length_le n (String.length s - n) s). lia.
Qed.

Lemma slice_to_minus_length n s :
  String.length (slice_to_minus n s) <= String.length s.
Proof.
  unfold slice_to_minus.
  pose proof (substring_length_le 0 (String.length s - n) s). lia.
Qed.

Lemma substring_0_app (a b : string) :
  substring 0 (String.length a) (a ++ b) = a.
Proof. induction a as [|c a IH]; simpl; [now destruct b | now rewrite IH]. Qed.

Lemma substring_all (a : string) : substring 0 (String.length a) a = a.
Proof. induction a as [|c a IH]; simpl; [reflexivity | now rewrite IH]. Qed.

Lemma substring_skip_app (a b : string) :
  substring (String.length a) (String.length b) (a ++ b) = b.
Proof. induction a as [|c a IH]; simpl; [apply substring_all | exact IH]. Qed.

Lemma slice_from_app (a b : string) : slice_from (String.length a) (a ++ b) = b.
Proof.
  unfold slice_from. rewrite string_app_length.
  replace (String.length a + String.length b - String.length a)
    with (String.length b) by lia.
  apply substring_skip_app.
Qed.

Lemma slice_to_minus_app (a b : string) :
  slice_to_minus (String.length b) (a ++ b) = a.
Proof.
  unfold slice_to_minus. rewrite string_app_length.
  replace (String.length a + String.length b - String.length b)
    with (String.length a) by lia.
  apply substring_0_app.
Qed.

Lemma startswith_app (p s : string) : startswith (p ++ s) p = true.
Proof. apply prefix_app. Qed.

Lemma endswith_app (s p : string) : endswith (s ++ p) p = true.
Proof.
  unfold endswith. rewrite string_app_length.
  replace (String.length s + String.length p - String.length p)
    with (String.length s) by lia.
  rewrite slice_from_app, String.eqb_refl.
  apply andb_true_iff. split; [apply Nat.leb_le; lia | reflexivity].
Qed.

Lemma lstrip_length s : String.length (lstrip s) <= String.length s.
Proof.
  induction s as [|c s IH]; simpl; [lia|].
  destruct (isspace c); simpl; lia.
Qed.

Lemma rstrip_length s : String.length (rstrip s) <= String.length s.
Proof.
  induction s as [|c s IH]; simpl; [lia|].
  destruct (rstrip s); [destruct (isspace c)|]; simpl in *; lia.
Qed.

Lemma strip_length s : String.length (strip s) <= String.length s.
Proof.
  unfold strip. pose proof (rstrip_length (lstrip s)).
  pose proof (lstrip_length s). lia.
Qed.

Lemma rstrip_cons c s :
  isspace c = false -> rstrip (String c s) = String c (rstrip s).
Proof. intros Hc. simpl. destruct (rstrip s); [now rewrite Hc | reflexivity]. Qed.

Lemma rstrip_idempotent s : rstrip (rstrip s) = rstrip s.
Proof.
  induction s as [|c s IH]; [reflexivity|]. simpl.
  destruct (rstrip s) as [|k kept] eqn:Hk.
  - destruct (isspace c) eqn:Hc; [reflexivity|]. simpl. now rewrite Hc.
  - simpl. simpl in IH. now rewrite IH.
Qed.

(** What [lstrip] returns does not start with whitespace. *)
Lemma lstrip_head s c rest : lstrip s = String c rest -> isspace c = false.
Proof.
  induction s as [|x s IH]; simpl; [discriminate|].
  destruct (isspace x) eqn:Hx; [exact IH|].
  intros H. inversion H; subst. exact Hx.
Qed.

(** What [rstrip] returns does not end with whitespace. *)
Lemma rstrip_last s init c :
  rstrip s = (init ++ String c "")%string -> isspace c = false.
Proof.
  revert init. induction s as [|x s IH]; intros init; simpl.
  - destruct init; discriminate.
  - destruct (rstrip s) as [|k kept] eqn:Hk.
    + destruct (isspace x) eqn:Hx.
      * destruct init; discriminate.
      * destruct init as [|y init]; simpl; intros H; inversion H; subst;
          [exact Hx | destruct init; discriminate].
    + destruct init as [|y init]; simpl; intros H; inversion H; subst.
      apply (IH init). assumption.
Qed.

Lemma strip_idempotent s : strip (strip s) = strip s.
Proof.
  unfold strip.
  destruct (lstrip s) as [|c t] eqn:Ht; [reflexivity|].
  pose proof (lstrip_head _ _ _ Ht) as Hc.
  rewrite (rstrip_cons _ _ Hc). simpl lstrip. rewrite Hc.
  rewrite <- (rstrip_cons _ _ Hc). apply rstrip_idempotent.
Qed.

Lemma strip_head s c rest : strip s = String c rest -> isspace c = false.
Proof.
  unfold strip. destruct (lstrip s) as [|x t] eqn:Ht; [discriminate|].
  pose proof (lstrip_head _ _ _ Ht) as Hx.
  rewrite (rstrip_cons _ _ Hx). intros H. inversion H; subst. exact Hx.
Qed.

Lemma strip_last s init c :
  strip s = (init ++ String c "")%string -> isspace c = false.
Proof. unfold strip. apply rstrip_last. Qed.

Lemma lstrip_all_space_app pre s :
  all_space pre = true -> lstrip (pre ++ s) = lstrip s.
Proof.
  induction pre as [|c pre IH]; simpl; [reflexivity|].
  intros H. apply andb_true_iff in H. destruct H as [Hc Hp].
  rewrite Hc. auto.
Qed.

Lemma rstrip_all_space post : all_space post = true -> rstrip post = "".
Proof.
  induction post as [|c post IH]; simpl; [reflexivity|].
  intros H. apply andb_true_iff in H. destruct H as [Hc Hp].
  now rewrite (IH Hp), Hc.
Qed.

Lemma rstrip_app_all_space s post :
  all_space post = true -> rstrip (s ++ post) = rstrip s.
Proof.
  intros Hp. induction s as [|c s IH]; simpl.
  - now apply rstrip_all_space.
  - now rewrite IH.
Qed.

(** [strip] gives back a text that has no whitespace at either end,
    whatever whitespace is put around it. *)
Lemma strip_around pre s post :
  all_space pre = true -> all_space post = true -> strip s = s ->
  strip (pre ++ s ++ post) = s.
Proof.
  intros Hpre Hpost Hs. unfold strip in *.
  rewrite (lstrip_all_space_app _ _ Hpre).
  assert (Hl : lstrip s = s).
  { apply (f_equal String.length) in Hs.
    pose proof (rstrip_length (lstrip s)). pose proof (lstrip_length s).
    assert (Hlen : String.length (lstrip s) = String.length s) by lia.
    clear - Hlen. induction s as [|c s IH]; [reflexivity|].
    simpl in *. destruct (isspace c); [|reflexivity].
    pose proof (lstrip_length s). lia. }
  assert (Hl2 : lstrip (s ++ post) = (s ++ post)%string
                \/ (s = "" /\ lstrip (s ++ post) = "")).
  { destruct s as [|c s]; simpl.
    - right. split; [reflexivity|].
      clear - Hpost. induction post as [|c post IH]; [reflexivity|].
      simpl in *. apply andb_true_iff in Hpost. destruct Hpost as [-> Hp].
      auto.
    - left. simpl in Hl. destruct (isspace c); [|reflexivity].
      pose proof (lstrip_length s).
      apply (f_equal String.length) in Hl. simpl in Hl. lia. }
  destruct Hl2 as [-> | [-> ->]]; [|reflexivity].
  rewrite (rstrip_app_all_space _ _ Hpost). now rewrite Hl in Hs.
Qed.

Lemma strip_cons_snoc c mid d :
  isspace c = false -> isspace d = false ->
  strip (String c (mid ++ String d "")) = String c (mid ++ String d "").
Proof.
  intros Hc Hd. unfold strip. simpl lstrip. rewrite Hc.
  rewrite (rstrip_cons _ _ Hc). f_equal.
  induction mid as [|x mid IH]; simpl; [now rewrite Hd|].
  rewrite IH. destruct mid; reflexivity.
Qed.

(** ** [_clean_json_output] *)

Lemma space_not_backquote c : isspace c = true -> c <> "`"%char.
Proof. intros H ->. discriminate H. Qed.

Lemma space_not_j c : isspace c = true -> c <> "j"%char.
Proof. intros H ->. discriminate H. Qed.

Lemma clean_after_fence (a body b : string) :
  all_space a = true -> a <> "" -> all_space b = true -> strip body = body ->
  let rest := (a ++ body ++ b ++ "```")%string in
  startswith rest "```" = false
  /\ strip (if endswith rest "```" then slice_to_minus 3 rest else rest) = body.
Proof.
  intros Ha Hne Hb Hbody rest. split.
  - destruct a as [|c a]; [now elim Hne|].
    simpl in Ha. apply andb_true_iff in Ha. destruct Ha as [Hc _].
    unfold rest, startswith. cbn [String.append String.prefix].
    destruct (ascii_dec "`" c) as [<-|_]; [discriminate Hc | reflexivity].
  - assert (Hrest : rest = ((a ++ body ++ b) ++ "```")%string)
      by (unfold rest; now rewrite !string_app_assoc).
    rewrite Hrest, endswith_app.
    replace (slice_to_minus 3 ((a ++ body ++ b) ++ "```"))
      with (a ++ body ++ b)%string
      by (symmetry; apply (slice_to_minus_app _ "```")).
    now apply strip_around.
Qed.

Lemma strip_fenced (pre tag' mid post : string) :
  all_space pre = true -> all_space post = true ->
  strip (pre ++ (String "`" tag' ++ mid ++ "```") ++ post)
  = (String "`" tag' ++ mid ++ "```")%string.
Proof.
  intros Hpre Hpost. apply strip_around; try assumption.
  replace (String "`" tag' ++ mid ++ "```")%string
    with (String "`" ((tag' ++ mid ++ "``") ++ String "`" ""))%string.
  - now apply strip_cons_snoc.
  - simpl. now rewrite !string_app_assoc.
Qed.

Lemma clean_json_fence (pre a body b post : string) :
  all_space pre = true -> all_space post = true ->
  all_space a = true -> a <> "" -> all_space b = true -> strip body = body ->
  _clean_json_output (pre ++ "```json" ++ a ++ body ++ b ++ "```" ++ post)
  = body.
Proof.
  intros Hpre Hpost Ha Hne Hb Hbody. unfold _clean_json_output.
  replace (pre ++ "```json" ++ a ++ body ++ b ++ "```" ++ post)%string
    with (pre ++ ("```json" ++ (a ++ body ++ b) ++ "```") ++ post)%string
    by (now rewrite !string_app_assoc).
  rewrite (strip_fenced pre "``json" (a ++ body ++ b) post Hpre Hpost).
  replace ("```json" ++ (a ++ body ++ b) ++ "```")%string
    with ("```json" ++ (a ++ body ++ b ++ "```"))%string
    by (now rewrite !string_app_assoc).
  rewrite startswith_app.
  replace (slice_from 7 ("```json" ++ a ++ body ++ b ++ "```"))
    with (a ++ body ++ b ++ "```")%string
    by (symmetry; apply (slice_from_app "```json")).
  destruct (clean_after_fence a body b Ha Hne Hb Hbody) as [-> H].
  exact H.
Qed.

Lemma clean_plain_fence (pre a body b post : string) :
  all_space pre = true -> all_space post = true ->
  all_space a = true -> a <> "" -> all_space b = true -> strip body = body ->
  _clean_json_output (pre ++ "```" ++ a ++ body ++ b ++ "```" ++ post) = body.
Proof.
  intros Hpre Hpost Ha Hne Hb Hbody. unfold _clean_json_output.
  replace (pre ++ "```" ++ a ++ body ++ b ++ "```" ++ post)%string
    with (pre ++ ("```" ++ (a ++ body ++ b) ++ "```") ++ post)%string
    by (now rewrite !string_app_assoc).
  rewrite (strip_fenced pre "``" (a ++ body ++ b) post Hpre Hpost).
  replace ("```" ++ (a ++ body ++ b) ++ "```")%string
    with ("```" ++ (a ++ body ++ b ++ "```"))%string
    by (now rewrite !string_app_assoc).
  assert (Hj : startswith ("```" ++ a ++ body ++ b ++ "```") "```json" = false).
  { destruct a as [|c a]; [now elim Hne|].
    simpl in Ha. apply andb_true_iff in Ha. destruct Ha as [Hc _].
    unfold startswith. cbn [String.append String.prefix].
    destruct (ascii_dec "`" "`") as [_|Hx]; [|now elim Hx].
    destruct (ascii_dec "j" c) as [<-|_]; [discriminate Hc | reflexivity]. }
  rewrite Hj, startswith_app.
  replace (slice_from 3 ("```" ++ a ++ body ++ b ++ "```"))
    with (a ++ body ++ b ++ "```")%string
    by (symmetry; apply (slice_from_app "```")).
  destruct (clean_after_fence a body b Ha Hne Hb Hbody) as [_ H].
  exact H.
Qed.

Lemma startswith_longer s p q :
  startswith s p = false -> startswith s (p ++ q) = false.
Proof.
  unfold startswith. revert s.
  induction p as [|c p IH]; intros s; simpl.
  - intros H. destruct s; discriminate H.
  - destruct s as [|x s]; simpl; [reflexivity|].
    destruct (ascii_dec c x); [apply IH | reflexivity].
Qed.

Lemma clean_bare (pre body post : string) :
  all_space pre = true -> all_space post = true -> strip body = body ->
  startswith body "```" = false -> endswith body "```" = false ->
  _clean_json_output (pre ++ body ++ post) = body.
Proof.
  intros Hpre Hpost Hbody Hs He. unfold _clean_json_output.
  rewrite (strip_around pre body post Hpre Hpost Hbody).
  pose proof (startswith_longer body "```" "json" Hs) as Hj.
  cbn [String.append] in Hj. rewrite Hj, Hs, He. exact Hbody.
Qed.

(** X1: what [_clean_json_output] returns never starts or ends with
    whitespace, is left unchanged by [strip], and is never longer than
    what it was given. *)
Theorem clean_json_output_is_stripped (raw_output : string) :
  let cleaned := _clean_json_output raw_output in
  strip cleaned = cleaned
  /\ String.length cleaned <= String.length raw_output
  /\ (forall c rest, cleaned = String c rest -> isspace c = false)
  /\ (forall init c, cleaned = (init ++ String c "")%string ->
                     isspace c = false).
Proof.
  unfold _clean_json_output. cbv zeta.
  split; [apply strip_idempotent|].
  split; [|split; [intros c rest; apply strip_head
                  | intros init c; apply strip_last]].
  pose proof (strip_length raw_output) as H0.
  set (s0 := strip raw_output) in *.
  assert (H1 : String.length
                 (if startswith s0 "```json" then slice_from 7 s0 else s0)
               <= String.length s0)
    by (destruct (startswith s0 "```json");
        [apply slice_from_length | lia]).
  set (s1 := if startswith s0 "```json" then slice_from 7 s0 else s0) in *.
  assert (H2 : String.length
                 (if startswith s1 "```" then slice_from 3 s1 else s1)
               <= String.length s1)
    by (destruct (startswith s1 "```"); [apply slice_from_length | lia]).
  set (s2 := if startswith s1 "```" then slice_from 3 s1 else s1) in *.
  assert (H3 : String.length
                 (if endswith s2 "```" then slice_to_minus 3 s2 else s2)
               <= String.length s2)
    by (destruct (endswith s2 "```"); [apply slice_to_minus_length | lia]).
  pose proof (strip_length
                (if endswith s2 "```" then slice_to_minus 3 s2 else s2)).
  lia.
Qed.

(** X2: [_clean_json_output] takes a fenced block back to its body. For a
    body with no whitespace at either end, put between a fence line
    (tagged [json] or not) followed by whitespace and a closing fence,
    with any whitespace around, the result is the body; and a body that
    carries no fence itself comes back unchanged from any whitespace
    around it. *)
Theorem clean_json_output_unwraps (pre a body b post : string) :
  all_space pre = true -> all_space post = true ->
  all_space a = true -> a <> "" -> all_space b = true ->
  strip body = body ->
  _clean_json_output (pre ++ "```json" ++ a ++ body ++ b ++ "```" ++ post)
  = body
  /\ _clean_json_output (pre ++ "```" ++ a ++ body ++ b ++ "```" ++ post)
     = body
  /\ (startswith body "```" = false -> endswith body "```" = false ->
      _clean_json_output (pre ++ body ++ post) = body).
Proof.
  intros Hpre Hpost Ha Hne Hb Hbody.
  split; [now apply clean_json_fence|].
  split; [now apply clean_plain_fence|].
  intros Hs He. now apply clean_bare.
Qed.

(** Witness of X2: a JSON object between "```json" and "```" lines. *)
Lemma clean_json_output_unwraps_witness :
  _clean_json_output
    ("  " ++ "```json" ++ nl ++ "{}" ++ nl ++ "```" ++ nl)
  = "{}"
  /\ _clean_json_output ("  " ++ "```" ++ nl ++ "{}" ++ nl ++ "```" ++ nl)
     = "{}"
  /\ (startswith "{}" "```" = false -> endswith "{}" "```" = false ->
      _clean_json_output ("  " ++ "{}" ++ nl) = "{}").
Proof.
  apply (clean_json_output_unwraps "  " nl "{}" nl nl);
    try reflexivity. discriminate.
Defined.

Section FencedReplies.
Context {lib : Library}.

Lemma plan_of_cleaned q s1 s2 :
  _clean_json_output s1 = _clean_json_output s2 ->
  PlannerAgent.plan q (Return (ChatMessage (PStr s1)))
  = PlannerAgent.plan q (Return (ChatMessage (PStr s2))).
Proof.
  intros H. unfold PlannerAgent.plan. cbn [bind content_of clean_content].
  now rewrite H.
Qed.

Lemma review_of_cleaned q d s1 s2 :
  _clean_json_output s1 = _clean_json_output s2 ->
  ReviewerAgent.review q d (Return (ChatMessage (PStr s1)))
  = ReviewerAgent.review q d (Return (ChatMessage (PStr s2))).
Proof.
  intros H. unfold ReviewerAgent.review. cbn [bind content_of clean_content].
  now rewrite H.
Qed.

(** X3: the Plan and Review stages do not see the fence around a body
    that has none of its own. For a body that is left unchanged by
    [strip] (no whitespace at either end) and that neither starts nor
    ends with "```", a reply that wraps it in a "```json" block, with
    whitespace before and after the block, at least one whitespace
    character between "```json" and the body, and whitespace between the
    body and the closing "```", gives the same plan and the same verdict
    as the body alone, whether the body decodes or not. *)
Theorem fence_changes_no_plan_no_verdict (q : string) (d : ReasonerOutput)
    (pre a body b post : string) :
  all_space pre = true -> all_space post = true ->
  all_space a = true -> a <> "" -> all_space b = true ->
  strip body = body ->
  startswith body "```" = false -> endswith body "```" = false ->
  let fenced := (pre ++ "```json" ++ a ++ body ++ b ++ "```" ++ post)%string in
  PlannerAgent.plan q (Return (ChatMessage (PStr fenced)))
  = PlannerAgent.plan q (Return (ChatMessage (PStr body)))
  /\ ReviewerAgent.review q d (Return (ChatMessage (PStr fenced)))
     = ReviewerAgent.review q d (Return (ChatMessage (PStr body))).
Proof.
  intros Hpre Hpost Ha Hne Hb Hbody Hs He fenced.
  assert (H : _clean_json_output fenced = _clean_json_output body).
  { unfold fenced. rewrite clean_json_fence by assumption.
    symmetry. rewrite <- (string_app_nil_r body) at 1.
    apply (clean_bare "" body ""); auto. }
  split; [now apply plan_of_cleaned | now apply review_of_cleaned].
Qed.

End FencedReplies.

(** Witness of X3: the text "not json" in a fence. *)
Lemma fence_changes_no_plan_no_verdict_witness :
  let fenced := ("```json" ++ nl ++ "not json" ++ nl ++ "```")%string in
  PlannerAgent.plan "X" (Return (ChatMessage (PStr fenced)))
  = PlannerAgent.plan "X" (Return (ChatMessage (PStr "not json")))
  /\ ReviewerAgent.review "X" (Session.nth_draft 0)
       (Return (ChatMessage (PStr fenced)))
     = ReviewerAgent.review "X" (Session.nth_draft 0)
         (Return (ChatMessage (PStr "not json"))).
Proof.
  apply (fence_changes_no_plan_no_verdict "X" (Session.nth_draft 0)
           "" nl "not json" nl "");
    try reflexivity. discriminate.
Defined.

(** ** The model identifiers *)

Lemma prefixed_differs (p s : string) : p <> "" -> (p ++ s)%string <> s.
Proof.
  intros Hp H. apply (f_equal String.length) in H.
  rewrite string_app_length in H. destruct p; [now elim Hp | simpl in H; lia].
Qed.

(** X4: the identifier the Retrieval agent hands to LiteLLM always starts
    with "openai/"; it is the configured one, with that prefix added when
    it was missing; and computing it from its own result changes
    nothing. *)
Theorem retriever_model_id_prefixed (raw_model_id : string) :
  startswith (retriever_model_id_for_litellm raw_model_id) "openai/" = true
  /\ (retriever_model_id_for_litellm raw_model_id = raw_model_id
      \/ retriever_model_id_for_litellm raw_model_id
         = ("openai/" ++ raw_model_id)%string)
  /\ retriever_model_id_for_litellm
       (retriever_model_id_for_litellm raw_model_id)
     = retriever_model_id_for_litellm raw_model_id.
Proof.
  unfold retriever_model_id_for_litellm.
  destruct (startswith raw_model_id "openai/") eqn:H; cbn [negb].
  - rewrite H. cbn [negb]. auto.
  - rewrite (startswith_app "openai/" raw_model_id). cbn [negb]. auto.
Qed.

(** X5: the identifier the Plan, Reason and Review agents hand to LiteLLM
    starts with "openai/" whenever the configured one names deepseek, in
    any letter case; it is the configured one otherwise; and computing it
    from its own result changes nothing. *)
Theorem model_id_for_litellm_deepseek (raw_model_id : string) :
  (contains "deepseek" (lower raw_model_id) = true ->
   startswith (model_id_for_litellm raw_model_id) "openai/" = true)
  /\ (contains "deepseek" (lower raw_model_id) = false ->
      model_id_for_litellm raw_model_id = raw_model_id)
  /\ model_id_for_litellm (model_id_for_litellm raw_model_id)
     = model_id_for_litellm raw_model_id.
Proof.
  unfold model_id_for_litellm.
  destruct (startswith raw_model_id "openai/") eqn:H; cbn [negb andb].
  - rewrite H. cbn [negb andb]. auto.
  - destruct (contains "deepseek" (lower raw_model_id)) eqn:Hd.
    + rewrite (startswith_app "openai/" raw_model_id). cbn [negb andb].
      repeat split; intros; auto; discriminate.
    + rewrite H, Hd. cbn [negb andb].
      repeat split; intros; auto; discriminate.
Qed.

(** X6: the Retrieval agent and the other three agents hand LiteLLM the
    same identifier exactly when the configured one already starts with
    "openai/" or names deepseek; for any other identifier the Retrieval
    agent adds the prefix and the others do not. *)
Theorem model_ids_agree_iff (raw_model_id : string) :
  (model_id_for_litellm raw_model_id
   = retriever_model_id_for_litellm raw_model_id
   <-> (startswith raw_model_id "openai/" = true
        \/ contains "deepseek" (lower raw_model_id) = true))
  /\ (startswith raw_model_id "openai/" = false ->
      contains "deepseek" (lower raw_model_id) = false ->
      model_id_for_litellm raw_model_id = raw_model_id
      /\ retriever_model_id_for_litellm raw_model_id
         = ("openai/" ++ raw_model_id)%string).
Proof.
  unfold model_id_for_litellm, retriever_model_id_for_litellm.
  destruct (startswith raw_model_id "openai/") eqn:H; cbn [negb andb].
  - split; [|discriminate]. split; auto.
  - destruct (contains "deepseek" (lower raw_model_id)) eqn:Hd.
    + split; [|discriminate]. split; auto.
    + split; [|auto]. split.
      * intros Heq. symmetry in Heq.
        apply prefixed_differs in Heq; [contradiction | discriminate].
      * intros [Hx|Hx]; discriminate.
Qed.

(** ** What the stages keep of a reply *)

Section Replies.
Context {lib : Library}.

(** X7: when the Plan Stage's reply decodes to a JSON object, the plan
    carries the object's [reasoning], [search_queries] (in their order)
    and [need_visual_understanding] unchanged; a key that is missing gets
    "No reasoning provided.", the query itself as only search query, and
    [False]. *)
Theorem plan_carries_decoded_fields (q text : string) (r : response)
    (fields : list (string * pyval)) (reasoning_ : option string)
    (queries : option (list string)) (visual : option bool) :
  content_of r = PStr text ->
  json_loads (_clean_json_output text) = Return (PDict fields) ->
  lookup "reasoning" fields = option_map PStr reasoning_ ->
  lookup "search_queries" fields
  = option_map (fun l => PList (map PStr l)) queries ->
  lookup "need_visual_understanding" fields = option_map PBool visual ->
  PlannerAgent.plan q (Return r)
  = Return {| reasoning := or_default reasoning_ "No reasoning provided.";
              search_queries := or_default queries [q];
              need_visual_understanding := or_default visual false |}.
Proof.
  intros Hc Hl Hr Hs Hv. unfold PlannerAgent.plan. cbn [bind].
  rewrite Hc. cbn [clean_content bind]. rewrite Hl. cbn [bind get].
  rewrite Hr, Hs, Hv.
  destruct reasoning_ as [x|], queries as [l|], visual as [b|];
    cbn [option_map or_default try_except];
    first [ rewrite (PlannerOutput_init_typed _ _ _)
          | rewrite (PlannerOutput_init_typed _ [q] _) ];
    reflexivity.
Qed.

(** X8: when the Review Stage's reply decodes to a JSON object with a
    float score and a decision "ACCEPT" or "REJECT", the verdict carries
    them and the critique and the supplemental query unchanged, [null]
    giving none. A missing score is 0.0, a missing decision REJECT, a
    missing critique "No critique provided.", a missing supplemental
    query none. *)
Theorem review_carries_decoded_fields (q text : string) (d : ReasonerOutput)
    (r : response) (fields : list (string * pyval)) (score : option float)
    (dec : option AgentDecision) (crit fb : option (option string)) :
  content_of r = PStr text ->
  json_loads (_clean_json_output text) = Return (PDict fields) ->
  lookup "confidence_score" fields = option_map PFloat score ->
  lookup "decision" fields
  = option_map (fun x => PStr (decision_value x)) dec ->
  lookup "critique" fields = option_map optional_str crit ->
  lookup "feedback_for_retriever" fields = option_map optional_str fb ->
  ReviewerAgent.review q d (Return r)
  = Return {| confidence_score := or_default score 0%float;
              decision := or_default dec REJECT;
              critique := or_default crit (Some "No critique provided.");
              feedback_for_retriever := or_default fb None |}.
Proof.
  intros Hc Hl Hs Hd Hcr Hfb. unfold ReviewerAgent.review. cbn [bind].
  rewrite Hc. cbn [clean_content bind]. rewrite Hl. cbn [bind get].
  rewrite Hs, Hd, Hcr, Hfb.
  assert (Hscore : builtin_float (or_default (option_map PFloat score)
                                    (PFloat 0))
                   = Return (or_default score 0%float))
    by (destruct score; apply builtin_float_float).
  assert (Hdec : AgentDecision_call
                   (or_default
                      (option_map (fun x => PStr (decision_value x)) dec)
                      (PStr "REJECT"))
                 = Return (or_default dec REJECT))
    by (destruct dec as [[|]|]; reflexivity).
  unfold or_default in Hscore, Hdec. rewrite Hscore. cbn [bind].
  rewrite Hdec. cbn [bind]. unfold ReviewerOutput_init, validate_optional_str.
  destruct crit as [[c|]|], fb as [[f|]|];
    cbn [option_map optional_str or_default bind];
    rewrite ?validate_str_str; reflexivity.
Qed.

(** X9: when the Reason Stage's reply decodes to a JSON object, the draft
    carries the object's [draft_answer], [citations] (in their order) and
    [reasoning_trace] unchanged; a key that is missing gets
    "No answer provided.", no citation, and "No trace provided.". *)
Theorem run_carries_decoded_fields (q ctx text : string) (r : response)
    (fields : list (string * pyval)) (trace answer : option string)
    (cites : option (list string)) :
  content_of r = PStr text ->
  json_loads (_clean_json_output text) = Return (PDict fields) ->
  lookup "reasoning_trace" fields = option_map PStr trace ->
  lookup "draft_answer" fields = option_map PStr answer ->
  lookup "citations" fields = option_map (fun l => PList (map PStr l)) cites ->
  ReasonerAgent.run q ctx (Return r)
  = Return {| draft_answer := or_default answer "No answer provided.";
              citations := or_default cites [];
              reasoning_trace := or_default trace "No trace provided." |}.
Proof.
  intros Hc Hl Ht Ha Hci. unfold ReasonerAgent.run. cbn [bind].
  rewrite Hc. cbn [clean_content bind]. rewrite Hl. cbn [bind get].
  rewrite Ht, Ha, Hci.
  destruct trace as [t|], answer as [a|], cites as [l|];
    cbn [option_map or_default try_except];
    first [ rewrite (ReasonerOutput_init_typed _ _ _)
          | rewrite (ReasonerOutput_init_typed _ _ []) ];
    reflexivity.
Qed.

(** X10: when the Reason Stage's reply is text that does not decode, the
    draft answer is the reply as it was received, fence and surrounding
    whitespace included, with no citation and the trace
    "JSON Parse Error". *)
Theorem run_keeps_undecodable_reply (q ctx text : string) (r : response)
    (e : exception) :
  content_of r = PStr text ->
  json_loads (_clean_json_output text) = Raise e ->
  exc_type e = JSONDecodeError ->
  ReasonerAgent.run q ctx (Return r)
  = Return {| draft_answer := text;
              citations := [];
              reasoning_trace := "JSON Parse Error" |}.
Proof.
  intros Hc Hl He. unfold ReasonerAgent.run. cbn [bind].
  rewrite Hc. cbn [clean_content bind]. rewrite Hl.
  cbn [bind try_except]. rewrite He. cbn [exc_class_eqb].
  rewrite (ReasonerOutput_init_typed _ _ []). reflexivity.
Qed.

(** X11: when the generation call raises, or its reply carries something
    that is not text, the Plan Stage plans the query itself, with no
    visual analysis and the error in [reasoning], and the Reason Stage
    drafts the error message, with no citation. *)
Theorem capability_failure_degrades (q ctx : string)
    (outcome : result response) (e : exception) :
  outcome = Raise e
  \/ (exists r, outcome = Return r /\ clean_content (content_of r) = Raise e) ->
  PlannerAgent.plan q outcome
  = Return {| reasoning := ("System error: " ++ exc_str e)%string;
              search_queries := [q];
              need_visual_understanding := false |}
  /\ ReasonerAgent.run q ctx outcome
     = Return {| draft_answer :=
                   ("An error occurred while generating the answer: "
                    ++ exc_str e)%string;
                 citations := [];
                 reasoning_trace := "System Error" |}.
Proof.
  intros [->|(r & -> & Hc)]; unfold PlannerAgent.plan, ReasonerAgent.run;
    cbn [bind try_except Exception]; rewrite ?Hc;
    cbn [bind try_except Exception];
    rewrite (PlannerOutput_init_typed _ [q] false),
            (ReasonerOutput_init_typed _ _ []); auto.
Qed.

End Replies.

(** Witness of X7: an object that gives two search queries and nothing
    else. *)
Lemma plan_carries_decoded_fields_witness :
  PlannerAgent.plan "Q"
    (Return (ChatMessage (PStr Session.two_queries_json)))
  = Return {| reasoning := "No reasoning provided.";
              search_queries := ["method"; "results"];
              need_visual_understanding := false |}.
Proof.
  apply (plan_carries_decoded_fields "Q" Session.two_queries_json
           (ChatMessage (PStr Session.two_queries_json))
           [("search_queries", PList [PStr "method"; PStr "results"])]
           None (Some ["method"; "results"]) None);
    reflexivity.
Defined.

(** Witness of X8: the accepting review of [Session.accept_json], whose
    supplemental query is the empty string. *)
Lemma review_carries_decoded_fields_witness :
  ReviewerAgent.review "Q" (Session.nth_draft 0)
    (Return (Opaque Session.accept_json))
  = Return {| confidence_score := 0.5;
              decision := ACCEPT;
              critique := Some "well cited";
              feedback_for_retriever := Some "" |}.
Proof.
  apply (review_carries_decoded_fields "Q" Session.accept_json
           (Session.nth_draft 0) (Opaque Session.accept_json)
           [("confidence_score", PFloat 0.5); ("decision", PStr "ACCEPT");
            ("critique", PStr "well cited");
            ("feedback_for_retriever", PStr "")]
           (Some 0.5%float) (Some ACCEPT) (Some (Some "well cited"))
           (Some (Some "")));
    reflexivity.
Defined.

(** Witness of X9: the draft of [Session.draft_json]. *)
Lemma run_carries_decoded_fields_witness :
  ReasonerAgent.run "Q" "" (Return (ChatMessage (PStr Session.draft_json)))
  = Return {| draft_answer := "It decreases [Page 4].";
              citations := ["Page 4"];
              reasoning_trace := "from the text" |}.
Proof.
  apply (run_carries_decoded_fields "Q" "" Session.draft_json
           (ChatMessage (PStr Session.draft_json))
           [("reasoning_trace", PStr "from the text");
            ("draft_answer", PStr "It decreases [Page 4].");
            ("citations", PList [PStr "Page 4"])]
           (Some "from the text") (Some "It decreases [Page 4].")
           (Some ["Page 4"]));
    reflexivity.
Defined.

(** Witness of X10: free text inside a fence. *)
Lemma run_keeps_undecodable_reply_witness :
  ReasonerAgent.run "Q" ""
    (Return (ChatMessage (PStr ("```json" ++ nl ++ "It decreases." ++ nl ++ "```"))))
  = Return {| draft_answer := ("```json" ++ nl ++ "It decreases." ++ nl ++ "```")%string;
              citations := [];
              reasoning_trace := "JSON Parse Error" |}.
Proof.
  apply (run_keeps_undecodable_reply "Q" ""
           ("```json" ++ nl ++ "It decreases." ++ nl ++ "```")
           (ChatMessage (PStr ("```json" ++ nl ++ "It decreases." ++ nl ++ "```")))
           (Exc JSONDecodeError "Expecting value: line 1 column 1 (char 0)"));
    reflexivity.
Defined.

(** Witness of X11: a reply whose content is [None]. *)
Lemma capability_failure_degrades_witness :
  PlannerAgent.plan "Q" (Return (ChatMessage PNone))
  = Return {| reasoning :=
                "System error: 'NoneType' object has no attribute 'strip'";
              search_queries := ["Q"];
              need_visual_understanding := false |}
  /\ ReasonerAgent.run "Q" "" (Return (ChatMessage PNone))
     = Return {| draft_answer :=
                   "An error occurred while generating the answer: 'NoneType' object has no attribute 'strip'";
                 citations := [];
                 reasoning_trace := "System Error" |}.
Proof.
  apply (capability_failure_degrades "Q" "" (Return (ChatMessage PNone))
           (Exc AttributeError "'NoneType' object has no attribute 'strip'")).
  right. exists (ChatMessage PNone). split; reflexivity.
Defined.

(** ** More on sessions *)

Section MoreSessionLogs.
Variable wording : Wording.
Variable console : Console.
Variable max_retries : nat.
Variable agents : Agents.
Variable user_query : string.

Abbreviation pass_ := (attempt wording console agents user_query).
Abbreviation answer_ := (answer wording console max_retries agents user_query).

Lemma noted_effective_query st :
  effective_query wording user_query st
  = noted wording user_query (feedback st).
Proof. reflexivity. Qed.

Lemma past_lt st :
  past st -> forall ev, In ev (log st) -> before (current_attempt st) ev.
Proof. unfold past. intros H. now apply Forall_forall. Qed.

Lemma feedback_pass st st' b :
  past st -> one_verdict_each st -> feedback_is_last_critique st ->
  feedback_channel wording user_query st ->
  pass_ st = Return (st', b) ->
  one_verdict_each st' /\ feedback_channel wording user_query st'
  /\ (b = true -> feedback_is_last_critique st').
Proof.
  intros Hpast Huniq Hfb [Hzero Hnext] H.
  pose proof (past_lt st Hpast) as Hlt.
  assert (Hcore : forall (dr : ReasonerOutput) (v0 : ReviewerOutput)
                         (tail : list event),
             (forall ev, In ev tail -> is_draft ev = false
                                       /\ is_review ev = false) ->
             let l := log st
                      ++ Drafted (current_attempt st)
                           (effective_query wording user_query st)
                           (aggregated_context st) dr
                         :: Reviewed (current_attempt st) v0 :: tail in
             (forall i v v', In (Reviewed i v) l -> In (Reviewed i v') l ->
                             v = v')
             /\ (forall q c d, In (Drafted 0 q c d) l -> q = user_query)
             /\ (forall i v q c d, In (Reviewed i v) l ->
                                   In (Drafted (S i) q c d) l ->
                                   q = noted wording user_query (critique v))
             /\ In (Reviewed (current_attempt st) v0) l).
  { intros dr v0 tail Htail l.
    assert (Hrev : forall i v, In (Reviewed i v) l ->
                     In (Reviewed i v) (log st)
                     \/ (i = current_attempt st /\ v = v0)).
    { intros i v Hin. unfold l in Hin. apply in_app_iff in Hin.
      destruct Hin as [Hin|[Hin|[Hin|Hin]]]; try discriminate.
      - now left.
      - inversion Hin; subst. now right.
      - apply Htail in Hin. destruct Hin as [_ Hin]. discriminate. }
    assert (Hdr : forall i q c d, In (Drafted i q c d) l ->
                    In (Drafted i q c d) (log st)
                    \/ (i = current_attempt st
                        /\ q = effective_query wording user_query st)).
    { intros i q c d Hin. unfold l in Hin. apply in_app_iff in Hin.
      destruct Hin as [Hin|[Hin|[Hin|Hin]]]; try discriminate.
      - now left.
      - inversion Hin; subst. now right.
      - apply Htail in Hin. destruct Hin as [Hin _]. discriminate. }
    repeat split.
    - intros i v v' H1 H2.
      destruct (Hrev _ _ H1) as [H1o|[-> ->]];
        destruct (Hrev _ _ H2) as [H2o|[Hi ->]]; auto.
      + eapply Huniq; eauto.
      + subst i. apply Hlt in H1o. simpl in H1o. lia.
      + apply Hlt in H2o. simpl in H2o. lia.
    - intros q c d Hin. destruct (Hdr _ _ _ _ Hin) as [Ho|[Hi ->]].
      + eapply Hzero; eauto.
      + unfold feedback_is_last_critique in Hfb. rewrite <- Hi in Hfb.
        rewrite noted_effective_query, Hfb. reflexivity.
    - intros i v q c d Hr Hd.
      destruct (Hdr _ _ _ _ Hd) as [Hdo|[Hi ->]].
      + destruct (Hrev _ _ Hr) as [Hro|[-> ->]].
        * eapply Hnext; eauto.
        * apply Hlt in Hdo. simpl in Hdo. lia.
      + destruct (Hrev _ _ Hr) as [Hro|[-> ->]]; [|lia].
        unfold feedback_is_last_critique in Hfb. rewrite <- Hi in Hfb.
        destruct Hfb as (v1 & Hv1 & Hf).
        rewrite (Huniq _ _ _ Hro Hv1), noted_effective_query, Hf.
        reflexivity.
    - unfold l. apply in_app_iff. right. right. now left. }
  unfold one_verdict_each, feedback_channel, feedback_is_last_critique.
  pass H; cbn [log current_attempt feedback]; rewrite <- ?app_assoc;
    cbn [List.app].
  - destruct (Hcore draft review []) as (H1 & H2 & H3 & H4);
      [intros ev []|].
    repeat split; auto. discriminate.
  - destruct (Hcore draft review
                [Supplemented (current_attempt st) query evidence])
      as (H1 & H2 & H3 & H4);
      [intros ev [<-|[]]; now split|].
    repeat split; auto. intros _. now exists review.
  - destruct (Hcore draft review []) as (H1 & H2 & H3 & H4);
      [intros ev []|].
    repeat split; auto. intros _. now exists review.
  - destruct (Hcore draft review []) as (H1 & H2 & H3 & H4);
      [intros ev []|].
    repeat split; auto. intros _. now exists review.
Qed.

Lemma ending_next st st' :
  past st -> final_answer st = None ->
  drafts (log st) = current_attempt st ->
  pass_ st = Return (st', true) ->
  final_answer st' = None
  /\ drafts (log st') = current_attempt st'
  /\ draft_is_last st'.
Proof.
  intros Hpast Hfin Hd H. unfold draft_is_last.
  pass H; rewrite ?drafts_app; cbn; repeat split; auto; try lia;
    exists (effective_query wording user_query st), (aggregated_context st),
           draft;
    (split; [reflexivity|]); rewrite ?in_app_iff; simpl; tauto.
Qed.

Lemma ending_break st st' :
  past st -> all_rejected st -> drafts (log st) = current_attempt st ->
  pass_ st = Return (st', false) ->
  exists d, final_answer st' = Some d /\ ended_accepted st' d.
Proof.
  intros Hpast Hall Hd H. pose proof (past_lt st Hpast) as Hlt.
  pass H. exists draft. split; [reflexivity|]. unfold ended_accepted.
  cbn [draft_output log current_attempt].
  split; [reflexivity|].
  split; [rewrite drafts_app; cbn; lia|].
  split.
  - exists (effective_query wording user_query st), (aggregated_context st),
           review.
    rewrite !in_app_iff. simpl. tauto.
  - intros i v Hin Hacc. apply in_app_iff in Hin. simpl in Hin.
    destruct Hin as [Hin|[Hin|[Hin|[]]]]; try discriminate.
    + apply Hall in Hin. congruence.
    + now inversion Hin.
Qed.

Lemma searches_pass st st' b :
  searches st
  = length (searched (log st)) + length (supplemented (log st)) ->
  length (supplemented (log st)) <= current_attempt st ->
  pass_ st = Return (st', b) ->
  searched (log st') = searched (log st)
  /\ searches st'
     = length (searched (log st')) + length (supplemented (log st'))
  /\ length (supplemented (log st'))
     <= (if b then current_attempt st' else S (current_attempt st')).
Proof.
  intros Hs Hle H.
  pass H; rewrite ?searched_app, ?supplemented_app, ?length_app; cbn;
    rewrite ?app_nil_r; repeat split; auto; lia.
Qed.

(** What else holds at the end of a session. *)
Lemma answer_more_facts plan st :
  answer_ plan = Return st ->
  feedback_channel wording user_query st
  /\ match final_answer st with
     | Some d => ended_accepted st d
     | None => ended_exhausted max_retries st
     end
  /\ searched (log st) = search_queries plan
  /\ searches st
     = length (search_queries plan) + length (supplemented (log st))
  /\ length (supplemented (log st)) <= S max_retries.
Proof.
  unfold answer. intros H.
  destruct (search_all console agents (search_queries plan) (init_vars plan))
    as [st0|] eqn:Hs; [|discriminate].
  cbn [bind] in H.
  assert (Hfin0 : final_answer st0 = None /\ feedback st0 = Some "").
  { revert Hs.
    apply (search_all_rule console agents
             (fun s => final_answer s = None /\ feedback s = Some "")); auto. }
  apply (search_all_planned_round wording) in Hs.
  destruct Hs as (Ha & Hb & Hq & Hp & Hn & Hc).
  destruct Hfin0 as [Hfin0 Hfb0].
  assert (Hnone : forall ev, In ev (log st0) ->
                    match ev with
                    | Drafted _ _ _ _ | Reviewed _ _ | Supplemented _ _ _ => False
                    | _ => True
                    end).
  { intros ev Hin. rewrite Forall_forall in Hb. apply Hb in Hin.
    destruct ev; simpl in *; auto; lia. }
  apply (review_loop_rule wording console max_retries agents user_query
           (fun s => past s /\ one_verdict_each s
                     /\ feedback_is_last_critique s
                     /\ feedback_channel wording user_query s
                     /\ final_answer s = None
                     /\ drafts (log s) = current_attempt s
                     /\ all_rejected s /\ draft_is_last s
                     /\ current_attempt s <= S max_retries
                     /\ searched (log s) = search_queries plan
                     /\ searches s
                        = length (searched (log s))
                          + length (supplemented (log s))
                     /\ length (supplemented (log s)) <= current_attempt s)
           (fun s => feedback_channel wording user_query s
                     /\ match final_answer s with
                        | Some d => ended_accepted s d
                        | None => ended_exhausted max_retries s
                        end
                     /\ searched (log s) = search_queries plan
                     /\ searches s
                        = length (search_queries plan)
                          + length (supplemented (log s))
                     /\ length (supplemented (log s)) <= S max_retries))
    with (st := st0); [| | | |exact H].
  - intros s (H1 & H2 & H3 & H4 & H5 & H6 & H7 & H8 & H9 & H10 & H11 & H12)
           Hgt.
    assert (Hcur : current_attempt s = S max_retries) by lia.
    split; [assumption|]. rewrite H5.
    split.
    { unfold ended_exhausted. unfold draft_is_last in H8.
      rewrite Hcur in H8. repeat split; auto; lia. }
    rewrite <- H10. repeat split; auto; lia.
  - intros s s' (H1 & H2 & H3 & H4 & H5 & H6 & H7 & H8 & H9 & H10 & H11 & H12)
           Hle Hpass.
    destruct (feedback_pass _ _ _ H1 H2 H3 H4 Hpass) as (_ & Hch & _).
    destruct (ending_break _ _ H1 H7 H6 Hpass) as (d & Hd & Hend).
    destruct (searches_pass _ _ _ H11 H12 Hpass) as (Hs1 & Hs2 & Hs3).
    pose proof (attempt_continues wording console agents user_query) as _.
    assert (Hcur : current_attempt s' = current_attempt s)
      by (clear - Hpass; pass Hpass; reflexivity).
    split; [assumption|]. rewrite Hd.
    split; [assumption|].
    rewrite Hs1, H10 in *. repeat split; auto; lia.
  - intros s s' (H1 & H2 & H3 & H4 & H5 & H6 & H7 & H8 & H9 & H10 & H11 & H12)
           Hle Hpass.
    destruct (feedback_pass _ _ _ H1 H2 H3 H4 Hpass) as (Hu & Hch & Hf).
    destruct (ending_next _ _ H1 H5 H6 Hpass) as (Hfin & Hdr & Hlast).
    destruct (searches_pass _ _ _ H11 H12 Hpass) as (Hs1 & Hs2 & Hs3).
    pose proof (attempt_continues wording console agents user_query _ _ Hpass) as Hinc.
    split; [eapply past_next; eauto|].
    repeat (split; [now auto|]).
    split; [eapply all_rejected_next; eauto|].
    split; [assumption|].
    split; [lia|].
    split; [congruence|].
    split; assumption.
  - unfold past, one_verdict_each, feedback_is_last_critique,
      feedback_channel, all_rejected, draft_is_last.
    rewrite Ha, Hq, Hp, Hn. cbn.
    split; [assumption|].
    split; [intros i v v' Hin; now apply Hnone in Hin|].
    split; [assumption|].
    split; [split; [intros q c d Hin; now apply Hnone in Hin
                   | intros i v q c d Hin; now apply Hnone in Hin]|].
    split; [assumption|].
    split.
    { unfold drafts. clear - Hnone.
      induction (log st0) as [|ev l IH]; [reflexivity|].
      assert (He := Hnone ev (or_introl eq_refl)).
      destruct ev; simpl in *; try contradiction;
        apply IH; intros e Hin; apply Hnone; now right. }
    split; [intros i v Hin; now apply Hnone in Hin|].
    repeat split; auto; lia.
Qed.

End MoreSessionLogs.

(** X12: in a session of either pipeline the Reason Stage gets the
    query as it is at the first attempt, and at every later attempt the
    query followed by the note that carries the critique of the attempt
    just before, or the query alone when that critique is absent or
    empty. *)
Theorem critique_feeds_next_attempt (budget : nat) (agents : Agents)
    (user_query : string) (w : Wording) (st : vars) :
  session_of budget agents user_query w st ->
  (forall q c d, In (Drafted 0 q c d) (log st) -> q = user_query)
  /\ (forall i v q c d,
        In (Reviewed i v) (log st) -> In (Drafted (S i) q c d) (log st) ->
        q = match critique v with
            | Some s =>
                if String.eqb s "" then user_query
                else (user_query ++ feedback_note w s)%string
            | None => user_query
            end).
Proof.
  intros H. apply session_of_answer in H.
  destruct H as (console & plan & _ & H).
  apply answer_more_facts in H. destruct H as ((H0 & Hn) & _).
  split; [exact H0|].
  intros i v q c d Hr Hd. rewrite (Hn i v q c d Hr Hd).
  unfold noted, truthy. destruct (critique v) as [s|]; [|reflexivity].
  now destruct (String.eqb s "").
Qed.

(** X13: a session of either pipeline ends in one of two ways. Either an
    answer is accepted: it is the draft of the last attempt made, that
    attempt's verdict is the only ACCEPT on record, and as many drafts
    were made as attempts. Or none is: the budget is spent,
    [max_retries + 1] drafts were made, every verdict is a REJECT, and
    the draft kept is that of the last attempt. *)
Theorem session_ends_accepted_or_exhausted (budget : nat) (agents : Agents)
    (user_query : string) (w : Wording) (st : vars) :
  session_of budget agents user_query w st ->
  match final_answer st with
  | Some d => ended_accepted st d
  | None => ended_exhausted budget st
  end.
Proof.
  intros H. apply session_of_answer in H.
  destruct H as (console & plan & _ & H).
  apply answer_more_facts in H. tauto.
Qed.

(** X14: in a session of either pipeline the planned round makes one
    retrieval call per search query of the plan, in the plan's order,
    whatever the verdicts; every other retrieval call is a supplemental
    one; and there are at most [max_retries + 1] of those. *)
Theorem retrieval_calls_bounded (budget : nat) (agents : Agents)
    (user_query : string) (w : Wording) (st : vars) :
  session_of budget agents user_query w st ->
  exists plan,
    planner_plan agents user_query = Return plan
    /\ searched (log st) = search_queries plan
    /\ searches st
       = length (search_queries plan) + length (supplemented (log st))
    /\ length (supplemented (log st)) <= budget + 1
    /\ searches st <= length (search_queries plan) + budget + 1.
Proof.
  intros H. apply session_of_answer in H.
  destruct H as (console & plan & Hplan & H).
  apply answer_more_facts in H. destruct H as (_ & _ & Hs & Hn & Hb).
  exists plan. repeat split; auto; lia.
Qed.

(** Witness of X12: rejected once with the critique
    "no citation for the figure". *)
Lemma critique_feeds_next_attempt_witness :
  exists st,
    session_of 2 (Session.accepting_from 1 0) "Q" main_wording st
    /\ (forall q c d, In (Drafted 0 q c d) (log st) -> q = "Q")
    /\ (forall i v q c d,
          In (Reviewed i v) (log st) -> In (Drafted (S i) q c d) (log st) ->
          q = match critique v with
              | Some s =>
                  if String.eqb s "" then "Q"
                  else ("Q" ++ feedback_note main_wording s)%string
              | None => "Q"
              end).
Proof.
  eexists. split.
  - apply main_session with (console := Session.rich). vm_compute. reflexivity.
  - apply (critique_feeds_next_attempt 2 (Session.accepting_from 1 0) "Q").
    apply main_session with (console := Session.rich). vm_compute. reflexivity.
Defined.

(** Witness of X13: a reviewer that never accepts. *)
Lemma session_ends_accepted_or_exhausted_witness :
  exists st,
    session_of 2 Session.never_accepting "Q" main_wording st
    /\ match final_answer st with
       | Some d => ended_accepted st d
       | None => ended_exhausted 2 st
       end.
Proof.
  eexists.
  assert (H : session_of 2 Session.never_accepting "Q" main_wording _)
    by (apply main_session with (console := Session.rich);
        vm_compute; reflexivity).
  split; [exact H|].
  exact (session_ends_accepted_or_exhausted 2 Session.never_accepting "Q"
           main_wording _ H).
Defined.

(** Witness of X14: a reviewer that never accepts and always asks for one
    more search. *)
Lemma retrieval_calls_bounded_witness :
  exists st plan,
    session_of 2 Session.never_accepting "Q" main_wording st
    /\ planner_plan Session.never_accepting "Q" = Return plan
    /\ searched (log st) = search_queries plan
    /\ searches st
       = length (search_queries plan) + length (supplemented (log st))
    /\ length (supplemented (log st)) <= 2 + 1
    /\ searches st <= length (search_queries plan) + 2 + 1.
Proof.
  eexists.
  assert (H : session_of 2 Session.never_accepting "Q" main_wording _)
    by (apply main_session with (console := Session.rich);
        vm_compute; reflexivity).
  destruct (retrieval_calls_bounded 2 Session.never_accepting "Q"
              main_wording _ H) as [plan Hplan].
  exists plan. split; [exact H | exact Hplan].
Defined.

(** ** The figure analysis *)

Section VLFacts.
Context {lib : Library}.

Lemma VLOutput_init_str a b :
  VLOutput_init (PStr a) (PStr b)
  = Return {| description := a; insights := b |}.
Proof. unfold VLOutput_init. now rewrite !validate_str_str. Qed.

Lemma try_body_reply outcome raw :
  snd (VLAgent.try_body outcome raw) = VLAgent.reply outcome.
Proof. destruct outcome as [[]|]; reflexivity. Qed.

Lemma try_body_rebound outcome raw :
  fst (VLAgent.try_body outcome raw) = VLAgent.rebound outcome raw.
Proof. destruct outcome as [[]|]; reflexivity. Qed.

Lemma reply_not_text outcome :
  (forall s, outcome <> Return (PStr s)) ->
  exists e, VLAgent.reply outcome = Raise e
            /\ (exc_type e = JSONDecodeError -> outcome = Raise e).
Proof.
  intros H. destruct outcome as [v|e].
  - destruct v; try (eexists; split; [reflexivity|discriminate]).
    now elim (H s).
  - exists e. now split.
Qed.

(** One step of the loop. *)
Lemma attempts_cons m create attempt rest st :
  VLAgent.attempts m create (attempt :: rest) st
  = let st1 := {| VLAgent.raw_content :=
                    VLAgent.rebound (create attempt) (VLAgent.raw_content st);
                  VLAgent.calls := S (VLAgent.calls st);
                  VLAgent.sleeps := VLAgent.sleeps st |} in
    match VLAgent.reply (create attempt) with
    | Return v => (st1, VLAgent.Returned v)
    | Raise e =>
        if exc_class_eqb JSONDecodeError (exc_type e) then
          if Nat.eqb attempt (m - 1) then
            match VLAgent.raw_content st1 with
            | Some s =>
                (st1, VLAgent.Returned
                        {| description := s;
                           insights := "Failed to parse structured insights." |})
            | None => (st1, VLAgent.UnboundLocalError "raw_content")
            end
          else VLAgent.attempts m create rest st1
        else
          let st2 := {| VLAgent.raw_content := VLAgent.raw_content st1;
                        VLAgent.calls := VLAgent.calls st1;
                        VLAgent.sleeps := S (VLAgent.sleeps st1) |} in
          if Nat.eqb attempt (m - 1) then
            (st2, VLAgent.Returned
                    {| description := "Error calling VL model.";
                       insights := exc_str e |})
          else VLAgent.attempts m create rest st2
    end.
Proof.
  cbn [VLAgent.attempts].
  rewrite <- try_body_reply with (raw := VLAgent.raw_content st).
  rewrite <- try_body_rebound.
  destruct (VLAgent.try_body (create attempt) (VLAgent.raw_content st))
    as [raw r].
  cbn [fst snd VLAgent.raw_content VLAgent.calls VLAgent.sleeps].
  destruct r as [v|e]; [reflexivity|].
  destruct raw; rewrite !VLOutput_init_str; reflexivity.
Qed.

Lemma attempts_counts m create todo : forall st,
  let out := fst (VLAgent.attempts m create todo st) in
  VLAgent.calls st <= VLAgent.calls out
  /\ VLAgent.calls out <= VLAgent.calls st + length todo
  /\ VLAgent.sleeps st <= VLAgent.sleeps out
  /\ VLAgent.sleeps out + VLAgent.calls st
     <= VLAgent.sleeps st + VLAgent.calls out.
Proof.
  induction todo as [|attempt rest IH]; intros st.
  - cbn. lia.
  - cbv zeta. rewrite attempts_cons. cbv zeta.
    destruct (VLAgent.reply (create attempt)) as [v|e]; [cbn; lia|].
    destruct (exc_class_eqb JSONDecodeError (exc_type e));
      destruct (Nat.eqb attempt (m - 1)).
    + cbn [VLAgent.raw_content].
      destruct (VLAgent.rebound _ _); cbn; lia.
    + match goal with |- context [VLAgent.attempts m create rest ?s] =>
        specialize (IH s) end.
      cbv zeta in IH. cbn in IH |- *. lia.
    + cbn. lia.
    + match goal with |- context [VLAgent.attempts m create rest ?s] =>
        specialize (IH s) end.
      cbv zeta in IH. cbn in IH |- *. lia.
Qed.

(** How the loop ends: on the first attempt that gives an output, or,
    every attempt having failed, on the handler of the last one. *)
Lemma attempts_ends m create : forall n a st,
  a + S n = m ->
  let out := VLAgent.attempts m create (seq a (S n)) st in
  (exists k v,
      a <= k < m
      /\ (forall j, a <= j < k -> exists e, VLAgent.reply (create j) = Raise e)
      /\ VLAgent.reply (create k) = Return v
      /\ snd out = VLAgent.Returned v
      /\ VLAgent.calls (fst out) = VLAgent.calls st + (k - a) + 1)
  \/ (exists e,
         (forall j, a <= j < m ->
                    exists e', VLAgent.reply (create j) = Raise e')
         /\ VLAgent.reply (create (m - 1)) = Raise e
         /\ VLAgent.calls (fst out) = VLAgent.calls st + S n
         /\ snd out
            = if exc_class_eqb JSONDecodeError (exc_type e) then
                match fold_left (fun raw j => VLAgent.rebound (create j) raw)
                        (seq a (S n)) (VLAgent.raw_content st) with
                | Some s =>
                    VLAgent.Returned
                      {| description := s;
                         insights := "Failed to parse structured insights." |}
                | None => VLAgent.UnboundLocalError "raw_content"
                end
              else
                VLAgent.Returned
                  {| description := "Error calling VL model.";
                     insights := exc_str e |}).
Proof.
  induction n as [|n IH]; intros a st Hm out; unfold out; clear out.
  - assert (Ha : a = m - 1) by lia.
    cbn [seq]. rewrite attempts_cons. cbv zeta.
    destruct (VLAgent.reply (create a)) as [v|e] eqn:Hr.
    + left. exists a, v. cbn [fst snd VLAgent.calls].
      split; [lia|]. split; [intros j Hj; lia|].
      split; [assumption|]. split; [reflexivity|lia].
    + right. exists e.
      assert (Hall : forall j, a <= j < m ->
                       exists e', VLAgent.reply (create j) = Raise e').
      { intros j Hj. assert (j = a) by lia. subst j. now exists e. }
      rewrite <- Ha, Hr. cbn [fold_left].
      destruct (exc_class_eqb JSONDecodeError (exc_type e));
        rewrite Nat.eqb_refl.
      * cbn [VLAgent.raw_content].
        destruct (VLAgent.rebound (create a) (VLAgent.raw_content st));
          cbn [fst snd VLAgent.calls];
          (split; [assumption|]); (split; [reflexivity|]);
          (split; [lia|reflexivity]).
      * cbn [fst snd VLAgent.calls].
        split; [assumption|]. split; [reflexivity|].
        split; [lia|reflexivity].
  - assert (Ha : Nat.eqb a (m - 1) = false) by (apply Nat.eqb_neq; lia).
    change (seq a (S (S n))) with (a :: seq (S a) (S n)).
    rewrite attempts_cons. cbv zeta.
    destruct (VLAgent.reply (create a)) as [v|e] eqn:Hr.
    + left. exists a, v. cbn [fst snd VLAgent.calls].
      split; [lia|]. split; [intros j Hj; lia|].
      split; [assumption|]. split; [reflexivity|lia].
    + rewrite Ha.
      assert (Hnext : forall st1,
                 VLAgent.raw_content st1
                 = VLAgent.rebound (create a) (VLAgent.raw_content st) ->
                 VLAgent.calls st1 = S (VLAgent.calls st) ->
                 let out := VLAgent.attempts m create (seq (S a) (S n)) st1 in
                 (exists k v,
                     a <= k < m
                     /\ (forall j, a <= j < k ->
                           exists e, VLAgent.reply (create j) = Raise e)
                     /\ VLAgent.reply (create k) = Return v
                     /\ snd out = VLAgent.Returned v
                     /\ VLAgent.calls (fst out)
                        = VLAgent.calls st + (k - a) + 1)
                 \/ (exists e,
                        (forall j, a <= j < m ->
                           exists e', VLAgent.reply (create j) = Raise e')
                        /\ VLAgent.reply (create (m - 1)) = Raise e
                        /\ VLAgent.calls (fst out)
                           = VLAgent.calls st + S (S n)
                        /\ snd out
                           = if exc_class_eqb JSONDecodeError (exc_type e) then
                               match
                                 fold_left
                                   (fun raw j => VLAgent.rebound (create j) raw)
                                   (a :: seq (S a) (S n))
                                   (VLAgent.raw_content st)
                               with
                               | Some s =>
                                   VLAgent.Returned
                                     {| description := s;
                                        insights :=
                                          "Failed to parse structured insights." |}
                               | None => VLAgent.UnboundLocalError "raw_content"
                               end
                             else
                               VLAgent.Returned
                                 {| description := "Error calling VL model.";
                                    insights := exc_str e |})).
      { intros st1 Hraw Hcalls.
        destruct (IH (S a) st1 ltac:(lia))
          as [(k & v & Hk & Hbefore & Hv & Hout & Hc)
             |(e' & Hall & Hlast & Hc & Hout)].
        - left. exists k, v. split; [lia|]. split.
          { intros j Hj. destruct (Nat.eq_dec j a) as [->|Hne].
            - now exists e.
            - apply Hbefore. lia. }
          split; [assumption|]. split; [assumption|lia].
        - right. exists e'. split.
          { intros j Hj. destruct (Nat.eq_dec j a) as [->|Hne].
            - now exists e.
            - apply Hall. lia. }
          split; [assumption|]. split; [lia|].
          cbn [fold_left]. rewrite <- Hraw. exact Hout. }
      destruct (exc_class_eqb JSONDecodeError (exc_type e));
        apply Hnext; reflexivity.
Qed.

(** The same for [analyze_image] when the loop is reached. *)
Lemma analyze_image_ends base64_image create :
  let out := VLAgent.analyze_image true true (Return base64_image)
               (Return tt) create in
  (exists k v,
      k < 3
      /\ (forall j, j < k -> exists e, VLAgent.reply (create j) = Raise e)
      /\ VLAgent.reply (create k) = Return v
      /\ snd out = VLAgent.Returned v
      /\ VLAgent.calls (fst out) = S k)
  \/ (exists e,
         (forall j, j < 3 -> exists e', VLAgent.reply (create j) = Raise e')
         /\ VLAgent.reply (create 2) = Raise e
         /\ VLAgent.calls (fst out) = 3
         /\ snd out
            = if exc_class_eqb JSONDecodeError (exc_type e) then
                match VLAgent.rebound (create 2)
                        (VLAgent.rebound (create 1)
                           (VLAgent.rebound (create 0) None)) with
                | Some s =>
                    VLAgent.Returned
                      {| description := s;
                         insights := "Failed to parse structured insights." |}
                | None => VLAgent.UnboundLocalError "raw_content"
                end
              else
                VLAgent.Returned
                  {| description := "Error calling VL model.";
                     insights := exc_str e |}).
Proof.
  cbv zeta. unfold VLAgent.analyze_image. cbn [negb].
  destruct (attempts_ends VLAgent.max_retries create 2 0
              {| VLAgent.raw_content := None; VLAgent.calls := 0;
                 VLAgent.sleeps := 0 |} eq_refl)
    as [(k & v & Hk & Hbefore & Hv & Hout & Hc)
       |(e & Hall & Hlast & Hc & Hout)].
  - left. exists k, v. unfold VLAgent.max_retries in *.
    cbn [VLAgent.calls] in Hc.
    split; [lia|]. split; [intros j Hj; apply Hbefore; lia|].
    split; [assumption|]. split; [assumption|lia].
  - right. exists e. unfold VLAgent.max_retries in *.
    cbn [VLAgent.calls] in Hc.
    split; [intros j Hj; apply Hall; lia|].
    split; [assumption|]. split; [lia|exact Hout].
Qed.

(** X15: [analyze_image] calls the model at most three times, and not at
    all when the image file is missing, the client is not initialised,
    the file cannot be read or the model settings cannot; it pauses at
    most once per call. *)
Theorem analyze_image_call_budget (file_exists ready : bool)
    (encode_image : result string) (settings : result unit)
    (create : nat -> result pyval) :
  let st := fst (VLAgent.analyze_image file_exists ready encode_image
                   settings create) in
  VLAgent.calls st <= 3
  /\ VLAgent.sleeps st <= VLAgent.calls st
  /\ (file_exists = false \/ ready = false
      \/ (exists e, encode_image = Raise e)
      \/ (exists e, settings = Raise e) ->
      VLAgent.calls st = 0).
Proof.
  cbv zeta. unfold VLAgent.analyze_image.
  pose proof (attempts_counts VLAgent.max_retries create
                (seq 0 VLAgent.max_retries)
                {| VLAgent.raw_content := None; VLAgent.calls := 0;
                   VLAgent.sleeps := 0 |}) as H.
  cbv zeta in H. cbn [VLAgent.calls VLAgent.sleeps length seq] in H.
  unfold VLAgent.max_retries in *. cbn [length seq] in H.
  destruct file_exists; cbn [negb];
    [|cbn; split; [lia|]; split; [lia|reflexivity]].
  destruct ready; cbn [negb];
    [|cbn; split; [lia|]; split; [lia|reflexivity]].
  destruct encode_image as [b|e];
    [|cbn; split; [lia|]; split; [lia|reflexivity]].
  destruct settings as [u|e];
    [|cbn; split; [lia|]; split; [lia|reflexivity]].
  cbn [seq]. split; [lia|]. split; [lia|].
  intros [Hf|[Hf|[[e Hf]|[e Hf]]]]; discriminate.
Qed.

(** X16: [analyze_image] returns what the first attempt that gives an
    output gives, after one call per attempt up to that one; the failures
    before it leave no trace in the result. *)
Theorem analyze_image_returns_first_output (base64_image : string)
    (create : nat -> result pyval) (k : nat) (v : VLOutput) :
  k < 3 ->
  (forall j, j < k -> exists e, VLAgent.reply (create j) = Raise e) ->
  VLAgent.reply (create k) = Return v ->
  let out := VLAgent.analyze_image true true (Return base64_image)
               (Return tt) create in
  snd out = VLAgent.Returned v /\ VLAgent.calls (fst out) = S k.
Proof.
  intros Hk Hbefore Hv. cbv zeta.
  destruct (analyze_image_ends base64_image create)
    as [(k' & v' & Hk' & Hbefore' & Hv' & Hout & Hc)
       |(e & Hall & _)].
  - assert (k' = k).
    { destruct (Nat.lt_trichotomy k' k) as [Hlt|[Heq|Hgt]]; [|exact Heq|].
      - destruct (Hbefore _ Hlt) as [e He]. congruence.
      - destruct (Hbefore' _ Hgt) as [e He]. congruence. }
    subst k'. split; [congruence|assumption].
  - destruct (Hall _ Hk) as [e' He']. congruence.
Qed.

(** X17: when the three attempts fail, three calls were made and the
    third failure decides what [analyze_image] reports. If it is anything
    but a [JSONDecodeError], the description is "Error calling VL model."
    and the insights are the error's text. If it is a [JSONDecodeError],
    the insights say that parsing failed and the description is
    [raw_content] as last assigned: the third reply, stripped and without
    its fence, when the third call returned a text; when the third call
    raised the error itself, the cleaned reply of the latest earlier
    attempt whose call returned a text, which is not what failed last;
    and when no call returned a text, [raw_content] is read unbound. *)
Theorem analyze_image_reports_last_failure (base64_image : string)
    (create : nat -> result pyval) (e : exception) :
  (forall j, j < 2 -> exists e', VLAgent.reply (create j) = Raise e') ->
  VLAgent.reply (create 2) = Raise e ->
  let out := VLAgent.analyze_image true true (Return base64_image)
               (Return tt) create in
  VLAgent.calls (fst out) = 3
  /\ (exc_type e <> JSONDecodeError ->
      snd out = VLAgent.Returned
                  {| description := "Error calling VL model.";
                     insights := exc_str e |})
  /\ (exc_type e = JSONDecodeError ->
      (forall s, create 2 = Return (PStr s) ->
         snd out = VLAgent.Returned
                     {| description := VLAgent.cleaned s;
                        insights := "Failed to parse structured insights." |})
      /\ (create 2 = Raise e ->
          snd out
          = match VLAgent.last_text create 2 with
            | Some raw_content =>
                VLAgent.Returned
                  {| description := raw_content;
                     insights := "Failed to parse structured insights." |}
            | None => VLAgent.UnboundLocalError "raw_content"
            end)
      /\ ((exists s, create 2 = Return (PStr s)) \/ create 2 = Raise e)).
Proof.
  intros Hbefore Hlast. cbv zeta.
  destruct (analyze_image_ends base64_image create)
    as [(k & v & Hk & _ & Hv & _)
       |(e' & _ & Hlast' & Hc & Hout)].
  - destruct (Nat.eq_dec k 2) as [->|Hne]; [congruence|].
    destruct (Hbefore k ltac:(lia)) as [e' He']. congruence.
  - assert (e' = e) by congruence. subst e'.
    split; [assumption|]. split.
    + intros Hne. rewrite Hout.
      destruct (exc_type e); try reflexivity. now elim Hne.
    + intros Hjson. rewrite Hout, Hjson. cbn [exc_class_eqb].
      split; [intros s Hs; rewrite Hs; reflexivity|]. split.
      * intros H2. rewrite H2. cbn [VLAgent.rebound VLAgent.last_text].
        destruct (create 1) as [[]|]; cbn [VLAgent.rebound];
          try reflexivity;
          destruct (create 0) as [[]|]; reflexivity.
      * unfold VLAgent.reply in Hlast.
        destruct (create 2) as [content|e2] eqn:H2.
        -- destruct content; cbn [VLAgent.try_body snd] in Hlast;
             try (left; eexists; reflexivity);
             unfold no_attribute in Hlast; inversion Hlast; subst e;
             discriminate Hjson.
        -- cbn [VLAgent.try_body snd] in Hlast. right. congruence.
Qed.

(** X18: [analyze_image] lets an exception through in two cases only.
    One is that the model settings cannot be read, after the image was.
    The other is its own [UnboundLocalError] on [raw_content]: the third
    call raises a [JSONDecodeError] itself and neither of the first two
    calls returned a text. In every other case it returns an output. *)
Theorem analyze_image_raises_only_if (file_exists ready : bool)
    (encode_image : result string) (settings : result unit)
    (create : nat -> result pyval) :
  let out := snd (VLAgent.analyze_image file_exists ready encode_image
                    settings create) in
  (forall e,
      out = VLAgent.Raised e
      <-> file_exists = true /\ ready = true
          /\ (exists b, encode_image = Return b) /\ settings = Raise e)
  /\ (forall name,
         out = VLAgent.UnboundLocalError name
         <-> name = "raw_content"
             /\ file_exists = true /\ ready = true
             /\ (exists b, encode_image = Return b)
             /\ (exists u, settings = Return u)
             /\ (forall j s, j < 2 -> create j <> Return (PStr s))
             /\ (exists e, create 2 = Raise e
                           /\ exc_type e = JSONDecodeError)).
Proof.
  cbv zeta.
  destruct file_exists;
    [|unfold VLAgent.analyze_image; cbn [negb]; rewrite VLOutput_init_str;
      cbn; split; intros; split;
      [discriminate | intros (H & _); discriminate
      | discriminate | intros (_ & H & _); discriminate]].
  destruct ready;
    [|unfold VLAgent.analyze_image; cbn [negb]; rewrite VLOutput_init_str;
      cbn; split; intros; split;
      [discriminate | intros (_ & H & _); discriminate
      | discriminate | intros (_ & _ & H & _); discriminate]].
  destruct encode_image as [b|e0];
    [|unfold VLAgent.analyze_image; cbn [negb]; rewrite VLOutput_init_str;
      cbn; split; intros; split;
      [discriminate | intros (_ & _ & [b Hb] & _); discriminate
      | discriminate | intros (_ & _ & _ & [b Hb] & _); discriminate]].
  destruct settings as [[]|e0].
  2:{ unfold VLAgent.analyze_image; cbn. split; intros; split.
      - intros H. inversion H. repeat split; eauto.
      - intros (_ & _ & _ & H). now inversion H.
      - discriminate.
      - intros (_ & _ & _ & _ & [u Hu] & _). discriminate. }
  destruct (analyze_image_ends b create)
    as [(k & v & Hk & _ & Hv & Hout & _)
       |(e & Hall & Hlast & _ & Hout)]; cbv zeta in Hout; rewrite Hout.
  - split; intros; split; try discriminate.
    + intros (_ & _ & _ & H). discriminate.
    + intros (_ & _ & _ & _ & _ & Hno & (e & He & Hjson)).
      exfalso. destruct (Nat.eq_dec k 2) as [->|Hne].
      * rewrite He in Hv. discriminate.
      * destruct (reply_not_text (create k) (fun s => Hno k s ltac:(lia)))
          as (e' & He' & _). congruence.
  - split; intros; split.
    + destruct (exc_class_eqb JSONDecodeError (exc_type e));
        [destruct (VLAgent.rebound _ _)|]; discriminate.
    + intros (_ & _ & _ & H). discriminate.
    + intros H.
      destruct (exc_class_eqb JSONDecodeError (exc_type e)) eqn:Hjson;
        [|discriminate].
      assert (Hty : exc_type e = JSONDecodeError)
        by (destruct (exc_type e); try discriminate; reflexivity).
      destruct (VLAgent.rebound (create 2) _) eqn:H2; [discriminate|].
      inversion H. repeat split; eauto.
      * intros j s Hj Hs.
        assert (Hj' : j = 0 \/ j = 1) by lia.
        destruct Hj' as [->| ->]; rewrite Hs in H2.
        -- destruct (create 1) as [[]|]; destruct (create 2) as [[]|];
             discriminate.
        -- destruct (create 2) as [[]|]; discriminate.
      * destruct (create 2) as [c|e2] eqn:H2c.
        -- destruct c; try discriminate H2;
             cbn in Hlast; inversion Hlast; subst e; discriminate.
        -- exists e2. cbn in Hlast. inversion Hlast. subst. now split.
    + intros (-> & _ & _ & _ & _ & Hno & (e2 & He2 & Hjson)).
      assert (e = e2) by (rewrite He2 in Hlast; cbn in Hlast; congruence).
      subst e2. rewrite Hjson. cbn [exc_class_eqb].
      rewrite He2. cbn [VLAgent.rebound].
      destruct (create 1) as [c1|] eqn:H1;
        [destruct c1; try (now elim (Hno 1 s ltac:(lia)))|];
        (destruct (create 0) as [c0|] eqn:H0;
         [destruct c0; try (now elim (Hno 0 s ltac:(lia)))|]);
        reflexivity.
Qed.

(** X19: the output of the last [return] of [analyze_image],
    "Unknown Error." with "Max retries exceeded.", is returned only when
    the model itself answers with these words: the statement is never
    reached. *)
Theorem analyze_image_never_unknown_error (file_exists ready : bool)
    (encode_image : result string) (settings : result unit)
    (create : nat -> result pyval) :
  snd (VLAgent.analyze_image file_exists ready encode_image settings create)
  = VLAgent.Returned {| description := "Unknown Error.";
                        insights := "Max retries exceeded." |} ->
  exists k, k < 3
            /\ VLAgent.reply (create k)
               = Return {| description := "Unknown Error.";
                           insights := "Max retries exceeded." |}.
Proof.
  destruct file_exists;
    [|unfold VLAgent.analyze_image; cbn [negb]; rewrite VLOutput_init_str;
      cbn; discriminate].
  destruct ready;
    [|unfold VLAgent.analyze_image; cbn [negb]; rewrite VLOutput_init_str;
      cbn; discriminate].
  destruct encode_image as [b|e0];
    [|unfold VLAgent.analyze_image; cbn [negb]; rewrite VLOutput_init_str;
      cbn; discriminate].
  destruct settings as [[]|e0]; [|cbn; discriminate].
  destruct (analyze_image_ends b create)
    as [(k & v & Hk & _ & Hv & Hout & _)
       |(e & _ & _ & _ & Hout)]; cbv zeta in Hout; rewrite Hout.
  - intros H. exists k. split; [assumption|]. congruence.
  - destruct (exc_class_eqb JSONDecodeError (exc_type e));
      [destruct (VLAgent.rebound _ _)|]; discriminate.
Qed.

End VLFacts.

(** Witness of X16: two timeouts, then a fenced JSON reply. *)
Lemma analyze_image_returns_first_output_witness :
  let out := VLAgent.analyze_image true true (Return "aGk=") (Return tt)
               VLAgent.third_time_lucky in
  snd out = VLAgent.Returned
              {| description := "A bar chart of accuracy per model.";
                 insights := "Accuracy grows with model size." |}
  /\ VLAgent.calls (fst out) = 3.
Proof.
  apply (analyze_image_returns_first_output "aGk=" VLAgent.third_time_lucky 2).
  - lia.
  - intros j Hj. exists VLAgent.timeout.
    assert (Hj' : j = 0 \/ j = 1) by lia.
    destruct Hj' as [->| ->]; reflexivity.
  - vm_compute. reflexivity.
Defined.

(** Witness of X17: a reply in prose, a timeout, and a third call that
    raises [JSONDecodeError] itself. The description is the prose of the
    first attempt. *)
Lemma analyze_image_reports_last_failure_witness :
  let out := VLAgent.analyze_image true true (Return "aGk=") (Return tt)
               VLAgent.prose_then_undecodable in
  VLAgent.calls (fst out) = 3
  /\ snd out = VLAgent.Returned
                 {| description := "The figure shows a bar chart.";
                    insights := "Failed to parse structured insights." |}.
Proof.
  destruct (analyze_image_reports_last_failure "aGk="
              VLAgent.prose_then_undecodable
              (Exc JSONDecodeError "Expecting value: line 1 column 1 (char 0)"))
    as (Hc & _ & Hjson).
  - intros j Hj. assert (Hj' : j = 0 \/ j = 1) by lia.
    destruct Hj' as [->| ->]; eexists; vm_compute; reflexivity.
  - vm_compute. reflexivity.
  - split; [exact Hc|].
    exact (proj1 (proj2 (Hjson eq_refl)) eq_refl).
Defined.

(** Witness of X19: the model answers with the words of the last
    [return]. *)
Lemma analyze_image_never_unknown_error_witness :
  exists k, k < 3
            /\ VLAgent.reply (VLAgent.unknown k)
               = Return {| description := "Unknown Error.";
                           insights := "Max retries exceeded." |}.
Proof.
  apply (analyze_image_never_unknown_error true true (Return "aGk=")
           (Return tt) VLAgent.unknown).
  vm_compute. reflexivity.
Defined.



(** ** The embeddings *)

Section EmbeddingFacts.
Variable client : VectorDB.embedder.

Lemma retry_step m i t st :
  VectorDB.retry client m i t st
  = if negb (VectorDB.success st) && Nat.ltb (VectorDB.retry_count st) m
    then VectorDB.retry client m i t (VectorDB.try_once client i t st)
    else st.
Proof.
  funelim (VectorDB.retry client m i t st);
    match goal with H : _ && _ = _ |- _ => rewrite H end; reflexivity.
Qed.

(** The rule of the [while]: what holds whenever the condition is tested
    holds when the loop is left, and the condition is false then. *)
Lemma retry_rule m i t (I : VectorDB.loop_vars -> Prop) :
  (forall st, I st -> VectorDB.success st = false ->
              VectorDB.retry_count st < m ->
              I (VectorDB.try_once client i t st)) ->
  forall st, I st ->
    I (VectorDB.retry client m i t st)
    /\ (VectorDB.success (VectorDB.retry client m i t st) = true
        \/ m <= VectorDB.retry_count (VectorDB.retry client m i t st)).
Proof.
  intros Hstep st.
  remember (if VectorDB.success st then 0 else m - VectorDB.retry_count st)
    as n eqn:Hn.
  revert st Hn. induction n as [n IH] using lt_wf_ind.
  intros st Hn HI. rewrite retry_step.
  destruct (VectorDB.success st) eqn:Hs; cbn [negb andb].
  - split; [assumption|]. now left.
  - destruct (Nat.ltb (VectorDB.retry_count st) m) eqn:Hlt.
    + apply Nat.ltb_lt in Hlt.
      apply (IH (if VectorDB.success (VectorDB.try_once client i t st)
                 then 0
                 else m - VectorDB.retry_count
                            (VectorDB.try_once client i t st)));
        [|reflexivity|now apply Hstep].
      subst n. unfold VectorDB.try_once.
      destruct (VectorDB.create_one client i (VectorDB.retry_count st) t)
        as [[emb|]|e]; cbn [VectorDB.success VectorDB.retry_count]; lia.
    + apply Nat.ltb_ge in Hlt. split; [assumption|]. now right.
Qed.

Lemma calls_app l1 l2 :
  VectorDB.calls (l1 ++ l2) = VectorDB.calls l1 + VectorDB.calls l2.
Proof. unfold VectorDB.calls. now rewrite filter_app, length_app. Qed.

Lemma slept_app l1 l2 :
  VectorDB.slept (l1 ++ l2) = VectorDB.slept l1 + VectorDB.slept l2.
Proof.
  induction l1 as [|[]]; cbn [VectorDB.slept List.app]; lia.
Qed.

Lemma sent_app l1 l2 :
  VectorDB.sent (l1 ++ l2) = VectorDB.sent l1 ++ VectorDB.sent l2.
Proof.
  induction l1 as [|[]]; cbn [VectorDB.sent List.app];
    rewrite ?IHl1, <- ?app_assoc; reflexivity.
Qed.

(** The loop over one text: a vector more and at most [m] calls when it
    succeeds, no vector and [m] calls when it does not; the text alone
    is sent. *)
Lemma retry_one m i t vecs0 effs0 :
  let st := VectorDB.retry client m i t
              {| VectorDB.success := false; VectorDB.retry_count := 0;
                 VectorDB.all_embeddings := vecs0;
                 VectorDB.effects := effs0 |} in
  exists k,
    VectorDB.calls (VectorDB.effects st) = VectorDB.calls effs0 + k
    /\ k <= m
    /\ VectorDB.sent (VectorDB.effects st) = VectorDB.sent effs0 ++ repeat t k
    /\ VectorDB.slept (VectorDB.effects st)
       <= VectorDB.slept effs0 + 10 * k * (k + 1)
    /\ (if VectorDB.success st
        then 0 < k
             /\ length (VectorDB.all_embeddings st) = S (length vecs0)
        else (0 < m -> 0 < k) /\ VectorDB.all_embeddings st = vecs0).
Proof.
  cbv zeta.
  set (I := fun st : VectorDB.loop_vars =>
    VectorDB.retry_count st <= m
    /\ exists k,
      k = VectorDB.retry_count st + (if VectorDB.success st then 1 else 0)
      /\ VectorDB.calls (VectorDB.effects st) = VectorDB.calls effs0 + k
      /\ k <= m
      /\ VectorDB.sent (VectorDB.effects st)
         = VectorDB.sent effs0 ++ repeat t k
      /\ VectorDB.slept (VectorDB.effects st)
         <= VectorDB.slept effs0 + 10 * k * (k + 1)
      /\ (if VectorDB.success st
          then length (VectorDB.all_embeddings st) = S (length vecs0)
          else VectorDB.all_embeddings st = vecs0)).
  destruct (retry_rule m i t I) with
    (st := {| VectorDB.success := false; VectorDB.retry_count := 0;
              VectorDB.all_embeddings := vecs0;
              VectorDB.effects := effs0 |}) as [HI Hexit].
  - intros st (Hle & k & Hk & Hc & Hkm & Hsent & Hsl & Hv) Hs Hlt.
    rewrite Hs in Hk, Hv. rewrite Nat.add_0_r in Hk. subst k.
    unfold I, VectorDB.try_once.
    assert (Hrep : forall n, repeat t n ++ [t] = repeat t (S n)).
    { intros n. induction n; cbn; [reflexivity|]. now rewrite IHn. }
    destruct (VectorDB.create_one client i (VectorDB.retry_count st) t)
      as [[emb|]|e];
      cbn [VectorDB.success VectorDB.retry_count VectorDB.effects
           VectorDB.all_embeddings];
      (split; [lia|]); eexists; (split; [reflexivity|]);
      rewrite !calls_app, !sent_app, !slept_app, Hc, Hsent, <- ?app_assoc;
      cbn [VectorDB.calls VectorDB.sent VectorDB.slept VectorDB.is_call
           filter length List.app];
      rewrite ?app_nil_r, ?Nat.add_0_r.
    + split; [lia|]. split; [lia|].
      split; [now rewrite Nat.add_1_r, <- Hrep|].
      split; [nia|]. rewrite length_app, Hv. cbn. lia.
    + split; [lia|]. split; [lia|].
      split; [now rewrite <- Hrep|].
      split; [nia|assumption].
    + split; [lia|]. split; [lia|].
      split; [now rewrite <- Hrep|].
      split; [destruct (contains "429" (exc_str e)); nia|assumption].
  - unfold I. cbn. split; [lia|]. exists 0. cbn.
    rewrite app_nil_r. unfold VectorDB.calls.
    split; [reflexivity|]. split; [lia|]. split; [lia|].
    split; [reflexivity|]. split; [lia|reflexivity].
  - destruct HI as (Hle & k & Hk & Hc & Hkm & Hsent & Hsl & Hv).
    exists k. split; [assumption|]. split; [assumption|].
    split; [assumption|]. split; [assumption|].
    destruct (VectorDB.success (VectorDB.retry client m i t _)).
    + split; [lia|assumption].
    + split; [|assumption]. destruct Hexit as [Hx|Hx]; [discriminate|]. lia.
Qed.

Lemma clean_text_of_stripped text :
  strip (VectorDB.clean_text_of text) = VectorDB.clean_text_of text
  /\ VectorDB.clean_text_of text <> "".
Proof.
  unfold VectorDB.clean_text_of.
  destruct (strip text) as [|c s] eqn:Hs.
  - split; [reflexivity|discriminate].
  - rewrite <- Hs. split; [apply strip_idempotent|]. rewrite Hs. discriminate.
Qed.

Lemma cleaned_batch_not_blank batch input :
  In input (VectorDB.cleaned_batch batch) -> strip input <> "".
Proof.
  unfold VectorDB.cleaned_batch. intros H. apply in_map_iff in H.
  destruct H as (t & Ht & _).
  destruct (String.eqb (strip t) "") eqn:He; cbn [negb] in Ht; subst input.
  - discriminate.
  - now apply String.eqb_neq in He.
Qed.

Lemma cleaned_batch_length batch :
  length (VectorDB.cleaned_batch batch) = length batch.
Proof. unfold VectorDB.cleaned_batch. apply length_map. Qed.

(** The loop of the rate-limited mode. *)
Lemma embed_each_facts texts : forall i vecs0 effs0,
  let out := VectorDB.embed_each client i texts vecs0 effs0 in
  VectorDB.calls (fst out)
  <= VectorDB.calls effs0 + VectorDB.max_retries * length texts
  /\ VectorDB.slept (fst out) <= VectorDB.slept effs0 + 300 * length texts
  /\ (exists more, VectorDB.sent (fst out) = VectorDB.sent effs0 ++ more
                   /\ Forall (fun input => strip input = input
                                           /\ input <> "") more)
  /\ match snd out with
     | VectorDB.Done vecs =>
         length vecs = length vecs0 + length texts
         /\ VectorDB.calls effs0 + length texts <= VectorDB.calls (fst out)
     | VectorDB.Failed r =>
         exists text,
           In text texts
           /\ r = VectorDB.EmbeddingFailed
                    (substring 0 20 (VectorDB.clean_text_of text))
     end.
Proof.
  induction texts as [|text rest IH]; intros i vecs0 effs0.
  - cbv zeta. cbn [VectorDB.embed_each fst snd length].
    rewrite !Nat.mul_0_r, !Nat.add_0_r.
    split; [lia|]. split; [lia|].
    split; [exists []; rewrite app_nil_r; auto|]. split; lia.
  - cbv zeta. cbn [VectorDB.embed_each].
    destruct (retry_one VectorDB.max_retries i (VectorDB.clean_text_of text)
                vecs0 effs0) as (k & Hc & Hk & Hsent & Hsl & Hv).
    cbv zeta in Hc, Hsent, Hsl, Hv.
    assert (Hk5 : k <= 5) by exact Hk.
    assert (Hrep : Forall (fun input => strip input = input /\ input <> "")
                     (repeat (VectorDB.clean_text_of text) k)).
    { apply Forall_forall. intros x Hx. apply repeat_spec in Hx. subst x.
      apply clean_text_of_stripped. }
    destruct (VectorDB.success (VectorDB.retry client _ _ _ _)) eqn:Hs;
      cbn [negb].
    + destruct Hv as [Hpos Hlen].
      match goal with |- context [VectorDB.embed_each client ?j rest ?v ?e] =>
        specialize (IH j v e) end.
      cbv zeta in IH. destruct IH as (IHc & IHs & (more & IHm & IHf) & IHo).
      unfold VectorDB.max_retries in *. cbn [length].
      split; [lia|]. split; [nia|]. split.
      * exists (repeat (VectorDB.clean_text_of text) k ++ more).
        rewrite IHm, Hsent, <- app_assoc. split; [reflexivity|].
        apply Forall_app. now split.
      * destruct (snd (VectorDB.embed_each client _ rest _ _)) as [vecs|r].
        -- rewrite Hlen in IHo. lia.
        -- destruct IHo as (t' & Hin & Hr). exists t'. split; [now right|].
           assumption.
    + destruct Hv as [_ Hvecs]. cbn [fst snd length].
      unfold VectorDB.max_retries in *.
      split; [lia|]. split; [nia|]. split.
      * exists (repeat (VectorDB.clean_text_of text) k). now split.
      * exists text. split; [now left|reflexivity].
Qed.

Lemma insert_by_index_length x l :
  length (VectorDB.insert_by_index x l) = S (length l).
Proof.
  induction l as [|y l IH]; [reflexivity|].
  cbn [VectorDB.insert_by_index].
  destruct (fst x <=? fst y)%Z; cbn [length]; [reflexivity|].
  now rewrite IH.
Qed.

Lemma sorted_by_index_length data :
  length (VectorDB.sorted_by_index data) = length data.
Proof.
  induction data as [|x data IH]; [reflexivity|].
  cbn [VectorDB.sorted_by_index fold_right].
  rewrite insert_by_index_length. cbn [length]. f_equal. exact IH.
Qed.

(** The loop of the batch mode, from the batch of rank [a] on. *)
Lemma embed_batches_facts b texts (Hb : 0 < b) : forall n a vecs0 effs0,
  let out := VectorDB.embed_batches client b texts
               (map (fun k => k * b) (seq a n)) vecs0 effs0 in
  (a + n) * b < length texts + b ->
  VectorDB.calls (fst out) <= VectorDB.calls effs0 + n
  /\ VectorDB.slept (fst out) = VectorDB.slept effs0
  /\ (forall input, In (VectorDB.CalledBatch input) (fst out) ->
        In (VectorDB.CalledBatch input) effs0
        \/ (0 < length input <= b
            /\ forall x, In x input -> strip x <> ""))
  /\ match snd out with
     | VectorDB.Done vecs =>
         VectorDB.calls (fst out) = VectorDB.calls effs0 + n
         /\ (length texts <= (a + n) * b ->
             VectorDB.sent (fst out)
             = VectorDB.sent effs0
               ++ VectorDB.cleaned_batch (skipn (a * b) texts))
         /\ ((forall i input data,
                VectorDB.create_batch client i input = Return data ->
                length data = length input) ->
             length vecs + length (VectorDB.sent effs0)
             = length vecs0 + length (VectorDB.sent (fst out)))
     | VectorDB.Failed r =>
         exists e i input, r = VectorDB.Passed e
                           /\ VectorDB.create_batch client i input = Raise e
     end.
Proof.
  induction n as [|n IH]; intros a vecs0 effs0 out Hlt; unfold out; clear out.
  - cbn [seq map VectorDB.embed_batches fst snd].
    split; [lia|]. split; [reflexivity|]. split; [now left|].
    split; [lia|]. split; [|lia].
    intros Hle. rewrite skipn_all2 by lia. cbn. now rewrite app_nil_r.
  - cbn [seq map VectorDB.embed_batches].
    set (batch := firstn b (skipn (a * b) texts)).
    assert (Hbatch : 0 < length batch <= b).
    { unfold batch. rewrite length_firstn, length_skipn. nia. }
    destruct (VectorDB.create_batch client (a * b)
                (VectorDB.cleaned_batch batch)) as [data|e] eqn:Hcall.
    + match goal with
      | |- context [VectorDB.embed_batches client b texts _ ?v ?e] =>
          specialize (IH (S a) v e)
      end.
      cbv zeta in IH.
      destruct IH as (IHc & IHs & IHin & IHo); [lia|].
      rewrite calls_app, slept_app in *.
      cbn [VectorDB.calls VectorDB.slept VectorDB.is_call filter length] in *.
      split; [lia|]. split; [lia|]. split.
      * intros input Hin. destruct (IHin input Hin) as [Hold|Hnew];
          [|now right].
        apply in_app_iff in Hold. destruct Hold as [Hold|[Hold|[]]];
          [now left|].
        inversion Hold; subst input. right.
        rewrite cleaned_batch_length.
        split; [assumption|]. intros x. apply cleaned_batch_not_blank.
      * destruct (snd (VectorDB.embed_batches client b texts _ _ _))
          as [vecs|r]; [|assumption].
        destruct IHo as (IHcalls & IHsent & IHlen).
        split; [lia|]. split.
        -- intros Hle. rewrite IHsent by lia.
           rewrite sent_app. cbn [VectorDB.sent]. rewrite app_nil_r.
           rewrite <- app_assoc. f_equal.
           unfold VectorDB.cleaned_batch. rewrite <- map_app. f_equal.
           unfold batch.
           replace (S a * b) with (b + a * b) by lia.
           rewrite <- skipn_skipn. apply firstn_skipn.
        -- intros Hsame. specialize (IHlen Hsame).
           rewrite length_app, length_map, sorted_by_index_length in IHlen.
           rewrite (Hsame _ _ _ Hcall) in IHlen.
           rewrite sent_app, length_app in IHlen.
           cbn [VectorDB.sent] in IHlen. rewrite app_nil_r in IHlen. lia.
    + cbn [fst snd]. rewrite calls_app, slept_app.
      cbn [VectorDB.calls VectorDB.slept VectorDB.is_call filter length].
      split; [lia|]. split; [lia|]. split.
      * intros input Hin. apply in_app_iff in Hin.
        destruct Hin as [Hold|[Hold|[]]]; [now left|].
        inversion Hold; subst input. right.
        rewrite cleaned_batch_length.
        split; [assumption|]. intros x. apply cleaned_batch_not_blank.
      * eauto.
Qed.

Lemma embed_batches_no_single b texts starts : forall vecs0 effs0 x,
  In (VectorDB.CalledOne x)
     (fst (VectorDB.embed_batches client b texts starts vecs0 effs0)) ->
  In (VectorDB.CalledOne x) effs0.
Proof.
  induction starts as [|i rest IH]; intros vecs0 effs0 x; [auto|].
  cbn [VectorDB.embed_batches].
  destruct (VectorDB.create_batch client i _) as [data|e].
  - intros H. apply IH in H. apply in_app_iff in H.
    destruct H as [H|[H|[]]]; [assumption|discriminate].
  - cbn [fst]. intros H. apply in_app_iff in H.
    destruct H as [H|[H|[]]]; [assumption|discriminate].
Qed.

Lemma range_step_bound stop step :
  0 < step ->
  let n := (stop + step - 1) / step in
  stop <= n * step /\ n * step < stop + step.
Proof.
  intros Hs n. unfold n.
  pose proof (Nat.div_mod_eq (stop + step - 1) step) as Hd.
  pose proof (Nat.mod_upper_bound (stop + step - 1) step ltac:(lia)) as Hm.
  nia.
Qed.

(** The loop over one text from its start: [k] calls, all for the text;
    on success the first [k - 1] failed and the [k]-th gave the vector
    appended; otherwise [k] is [m] and all of them failed. *)
Lemma retry_trace m i t vecs0 effs0 :
  let st := VectorDB.retry client m i t
              {| VectorDB.success := false; VectorDB.retry_count := 0;
                 VectorDB.all_embeddings := vecs0;
                 VectorDB.effects := effs0 |} in
  exists k,
    k <= m
    /\ VectorDB.sent (VectorDB.effects st) = VectorDB.sent effs0 ++ repeat t k
    /\ (if VectorDB.success st
        then exists emb,
               VectorDB.embedded_at client i t k emb
               /\ VectorDB.all_embeddings st = vecs0 ++ [emb]
        else k = m
             /\ (forall n, n < m -> VectorDB.failed client i n t)
             /\ VectorDB.all_embeddings st = vecs0).
Proof.
  cbv zeta.
  set (I := fun st : VectorDB.loop_vars =>
    VectorDB.retry_count st <= m
    /\ (forall n, n < VectorDB.retry_count st -> VectorDB.failed client i n t)
    /\ VectorDB.sent (VectorDB.effects st)
       = VectorDB.sent effs0
         ++ repeat t (VectorDB.retry_count st
                      + if VectorDB.success st then 1 else 0)
    /\ (if VectorDB.success st
        then VectorDB.retry_count st < m
             /\ exists emb,
                  VectorDB.create_one client i (VectorDB.retry_count st) t
                  = Return (Some emb)
                  /\ VectorDB.all_embeddings st = vecs0 ++ [emb]
        else VectorDB.all_embeddings st = vecs0)).
  destruct (retry_rule m i t I) with
    (st := {| VectorDB.success := false; VectorDB.retry_count := 0;
              VectorDB.all_embeddings := vecs0;
              VectorDB.effects := effs0 |}) as [HI Hexit].
  - intros st (Hle & Hfail & Hsent & Hv) Hs Hlt.
    rewrite Hs in Hsent, Hv. rewrite Nat.add_0_r in Hsent.
    unfold I, VectorDB.try_once.
    assert (Hrep : forall n, repeat t n ++ [t] = repeat t (S n)).
    { intros n. induction n; cbn; [reflexivity|]. now rewrite IHn. }
    destruct (VectorDB.create_one client i (VectorDB.retry_count st) t)
      as [[emb|]|e] eqn:Hcall;
      cbn [VectorDB.success VectorDB.retry_count VectorDB.effects
           VectorDB.all_embeddings];
      rewrite !sent_app, Hsent, <- ?app_assoc;
      cbn [VectorDB.sent List.app]; rewrite ?app_nil_r.
    + split; [lia|]. split; [exact Hfail|].
      split; [now rewrite Nat.add_1_r, <- Hrep|].
      split; [exact Hlt|]. exists emb. now rewrite Hv.
    + split; [lia|]. split.
      { intros n Hn emb. destruct (Nat.eq_dec n (VectorDB.retry_count st))
          as [->|Hne]; [rewrite Hcall; discriminate|].
        apply Hfail. lia. }
      split; [now rewrite Nat.add_0_r, <- Hrep|exact Hv].
    + split; [lia|]. split.
      { intros n Hn emb. destruct (Nat.eq_dec n (VectorDB.retry_count st))
          as [->|Hne]; [rewrite Hcall; discriminate|].
        apply Hfail. lia. }
      split; [now rewrite Nat.add_0_r, <- Hrep|exact Hv].
  - unfold I. cbn. split; [lia|]. split; [intros n Hn; lia|].
    split; [now rewrite app_nil_r|reflexivity].
  - destruct HI as (Hle & Hfail & Hsent & Hv).
    destruct (VectorDB.success (VectorDB.retry client m i t _)) eqn:Hs.
    + destruct Hv as (Hlt & emb & Hcall & Hvecs).
      exists (S (VectorDB.retry_count (VectorDB.retry client m i t
                {| VectorDB.success := false; VectorDB.retry_count := 0;
                   VectorDB.all_embeddings := vecs0;
                   VectorDB.effects := effs0 |}))).
      split; [lia|]. split; [now rewrite Hsent, Nat.add_1_r|].
      exists emb. split; [|exact Hvecs].
      unfold VectorDB.embedded_at. cbn [Nat.sub]. rewrite Nat.sub_0_r.
      split; [lia|]. split; [exact Hfail|exact Hcall].
    + destruct Hexit as [Hx|Hx]; [discriminate|].
      exists m. split; [lia|].
      assert (Heq : VectorDB.retry_count (VectorDB.retry client m i t
                {| VectorDB.success := false; VectorDB.retry_count := 0;
                   VectorDB.all_embeddings := vecs0;
                   VectorDB.effects := effs0 |}) = m) by lia.
      rewrite Heq, Nat.add_0_r in Hsent. rewrite Heq in Hfail.
      split; [exact Hsent|]. split; [reflexivity|]. split; assumption.
Qed.

(** The loop over the texts, text by text. *)
Lemma embed_each_trace texts : forall i vecs0 effs0,
  let out := VectorDB.embed_each client i texts vecs0 effs0 in
  let clean j := VectorDB.clean_text_of (nth j texts "") in
  match snd out with
  | VectorDB.Done vecs =>
      exists new tries,
        vecs = vecs0 ++ new
        /\ length new = length texts
        /\ length tries = length texts
        /\ VectorDB.sent (fst out)
           = VectorDB.sent effs0 ++ VectorDB.inputs texts tries
        /\ forall j, j < length texts ->
             nth j tries 0 <= VectorDB.max_retries
             /\ VectorDB.embedded_at client (i + j) (clean j) (nth j tries 0)
                  (nth j new [])
  | VectorDB.Failed r =>
      exists j tries,
        j < length texts
        /\ length tries = j
        /\ r = VectorDB.EmbeddingFailed (substring 0 20 (clean j))
        /\ (forall n, n < VectorDB.max_retries ->
                      VectorDB.failed client (i + j) n (clean j))
        /\ VectorDB.sent (fst out)
           = VectorDB.sent effs0 ++ VectorDB.inputs (firstn j texts) tries
             ++ repeat (clean j) VectorDB.max_retries
        /\ forall j', j' < j ->
             nth j' tries 0 <= VectorDB.max_retries
             /\ exists emb,
                  VectorDB.embedded_at client (i + j') (clean j')
                    (nth j' tries 0) emb
  end.
Proof.
  induction texts as [|text rest IH]; intros i vecs0 effs0; cbv zeta.
  - cbn [VectorDB.embed_each fst snd]. exists [], [].
    rewrite !app_nil_r. repeat split; cbn in *; lia.
  - cbn [VectorDB.embed_each].
    destruct (retry_trace VectorDB.max_retries i (VectorDB.clean_text_of text)
                vecs0 effs0) as (k & Hk & Hsent & Hv).
    cbv zeta in Hsent, Hv.
    destruct (VectorDB.success (VectorDB.retry client _ _ _ _)) eqn:Hs;
      cbn [negb].
    + destruct Hv as (emb & Hemb & Hvecs).
      match goal with |- context [VectorDB.embed_each client ?j rest ?v ?e] =>
        specialize (IH j v e) end.
      cbv zeta in IH.
      destruct (VectorDB.embed_each client (S i) rest _ _) as [effs [vecs|r]];
        cbn [fst snd] in IH |- *.
      * destruct IH as (new & tries & Hnew & Hlen & Htries & Hsent' & Hall).
        exists (emb :: new), (k :: tries).
        split; [now rewrite Hnew, Hvecs, <- app_assoc|].
        split; [cbn [length]; lia|]. split; [cbn [length]; lia|].
        split.
        { rewrite Hsent', Hsent, <- app_assoc. reflexivity. }
        intros [|j] Hj; cbn [nth length] in *.
        -- rewrite Nat.add_0_r. split; assumption.
        -- rewrite Nat.add_succ_r.
           exact (Hall j ltac:(lia)).
      * destruct IH as (j & tries & Hj & Htries & Hr & Hfail & Hsent' & Hall).
        exists (S j), (k :: tries). cbn [nth length firstn].
        split; [lia|]. split; [lia|]. split; [exact Hr|].
        split; [intros n Hn; rewrite Nat.add_succ_r; exact (Hfail n Hn)|].
        split.
        { change (VectorDB.inputs (text :: firstn j rest) (k :: tries))
            with (repeat (VectorDB.clean_text_of text) k
                  ++ VectorDB.inputs (firstn j rest) tries).
          rewrite Hsent', Hsent, <- !app_assoc. reflexivity. }
        intros [|j'] Hj'; cbn [nth].
        -- rewrite Nat.add_0_r. split; [assumption|now exists emb].
        -- rewrite Nat.add_succ_r.
           exact (Hall j' ltac:(lia)).
    + destruct Hv as (-> & Hfail & _).
      cbn [fst snd]. exists 0, []. cbn [nth length firstn].
      rewrite Nat.add_0_r.
      split; [lia|]. split; [reflexivity|]. split; [reflexivity|].
      split; [exact Hfail|]. split; [exact Hsent|]. intros j' Hj'. lia.
Qed.

(** X21: in the rate-limited mode (a base URL that names modelscope.cn)
    [generate_embeddings] makes at most five calls per text and waits at
    most 30 seconds per text, in total. When it returns, it returns one
    vector per text: each text was sent between one and five times, the
    calls before its last having failed, and its vector is the one of
    its last call. When it raises, it is its own error for a text whose
    five calls all failed, quoting the first 20 characters of the cleaned
    text; the texts before it got their vectors this way, and no text
    after it was sent. *)
Theorem rate_limited_mode_one_vector_per_text (base_url : string)
    (batch_size : Z) (texts : list string) :
  contains "modelscope.cn" base_url = true ->
  let out := VectorDB.generate_embeddings client base_url batch_size texts in
  let clean j := VectorDB.clean_text_of (nth j texts "") in
  VectorDB.calls (fst out) <= 5 * length texts
  /\ VectorDB.slept (fst out) <= 300 * length texts
  /\ match snd out with
     | VectorDB.Done vecs =>
         length vecs = length texts
         /\ length texts <= VectorDB.calls (fst out)
         /\ exists tries,
              length tries = length texts
              /\ VectorDB.sent (fst out) = VectorDB.inputs texts tries
              /\ forall j, j < length texts ->
                   nth j tries 0 <= 5
                   /\ VectorDB.embedded_at client j (clean j) (nth j tries 0)
                        (nth j vecs [])
     | VectorDB.Failed r =>
         exists j tries,
           j < length texts
           /\ length tries = j
           /\ r = VectorDB.EmbeddingFailed (substring 0 20 (clean j))
           /\ (forall n, n < 5 -> VectorDB.failed client j n (clean j))
           /\ VectorDB.sent (fst out)
              = VectorDB.inputs (firstn j texts) tries ++ repeat (clean j) 5
           /\ forall j', j' < j ->
                nth j' tries 0 <= 5
                /\ exists emb,
                     VectorDB.embedded_at client j' (clean j')
                       (nth j' tries 0) emb
     end.
Proof.
  intros Hm. cbv zeta. unfold VectorDB.generate_embeddings. rewrite Hm.
  destruct (embed_each_facts texts 0 [] []) as (Hc & Hs & _ & Ho).
  pose proof (embed_each_trace texts 0 [] []) as Ht.
  cbv zeta in Hc, Hs, Ho, Ht. unfold VectorDB.max_retries in Hc, Ht.
  cbn [VectorDB.calls VectorDB.slept VectorDB.sent filter length List.app
       Nat.add] in Hc, Hs, Ho, Ht.
  split; [lia|]. split; [lia|].
  destruct (snd (VectorDB.embed_each client 0 texts [] [])) as [vecs|r].
  - destruct Ht as (new & tries & Hnew & _ & Htries & Hsent & Hall).
    cbn [List.app] in Hnew. subst new.
    split; [lia|]. split; [lia|]. now exists tries.
  - exact Ht.
Qed.

(** X22: in the batch mode, with a positive batch size,
    [generate_embeddings] that returns has sent every text exactly once,
    in order, in [ceil(len(texts) / batch_size)] calls of at most
    [batch_size] texts each, without waiting; and it returns one vector
    per text when every reply has one item per input. *)
Theorem batch_mode_sends_each_text_once (base_url : string) (p : positive)
    (texts : list string) (effs : list VectorDB.effect)
    (vecs : list VectorDB.embedding) :
  contains "modelscope.cn" base_url = false ->
  VectorDB.generate_embeddings client base_url (Zpos p) texts
  = (effs, VectorDB.Done vecs) ->
  VectorDB.sent effs = VectorDB.cleaned_batch texts
  /\ VectorDB.calls effs
     = (length texts + Pos.to_nat p - 1) / Pos.to_nat p
  /\ VectorDB.slept effs = 0
  /\ (forall input, In (VectorDB.CalledBatch input) effs ->
        0 < length input <= Pos.to_nat p)
  /\ ((forall i input data,
         VectorDB.create_batch client i input = Return data ->
         length data = length input) ->
      length vecs = length texts).
Proof.
  intros Hm H. unfold VectorDB.generate_embeddings in H. rewrite Hm in H.
  unfold VectorDB.range_step in H.
  assert (Hp : 0 < Pos.to_nat p) by lia.
  destruct (range_step_bound (length texts) (Pos.to_nat p) Hp) as [Hge Hlt].
  destruct (embed_batches_facts (Pos.to_nat p) texts Hp
              ((length texts + Pos.to_nat p - 1) / Pos.to_nat p) 0 [] [])
    as (Hc & Hs & Hin & Ho); [cbn [Nat.add]; lia|].
  rewrite H in Hc, Hs, Hin, Ho. cbn [fst snd] in Hc, Hs, Hin, Ho.
  destruct Ho as (Hcalls & Hsent & Hlen).
  cbn [VectorDB.calls VectorDB.sent VectorDB.slept filter length Nat.add
       Nat.mul skipn List.app] in *.
  split; [apply Hsent; lia|]. split; [assumption|]. split; [assumption|].
  split.
  - intros input Hi. destruct (Hin input Hi) as [[]|[Hl _]]. exact Hl.
  - intros Hsame. specialize (Hlen Hsame).
    rewrite Hsent in Hlen by lia.
    rewrite cleaned_batch_length in Hlen. lia.
Qed.

(** X23: [generate_embeddings] never sends an empty or blank text: a
    text made of whitespace only is sent as "empty_node" in both modes;
    any other text is sent stripped in the rate-limited mode and as it
    is in the batch mode. *)
Theorem no_blank_text_is_sent (base_url : string) (batch_size : Z)
    (texts : list string) :
  Forall (fun input => strip input <> "")
         (VectorDB.sent
            (fst (VectorDB.generate_embeddings client base_url batch_size
                    texts)))
  /\ (forall text, strip text = "" ->
        VectorDB.clean_text_of text = "empty_node"
        /\ VectorDB.cleaned_batch [text] = ["empty_node"])
  /\ (forall text, strip text <> "" ->
        VectorDB.clean_text_of text = strip text
        /\ VectorDB.cleaned_batch [text] = [text]).
Proof.
  split; [|split].
  - unfold VectorDB.generate_embeddings.
    destruct (contains "modelscope.cn" base_url).
    + destruct (embed_each_facts texts 0 [] []) as (_ & _ & Hsent & _).
      cbv zeta in Hsent. destruct Hsent as (more & -> & Hf).
      cbn [VectorDB.sent List.app]. eapply Forall_impl; [|exact Hf].
      intros x [Hx Hne]. now rewrite Hx.
    + destruct batch_size as [|p|p]; [constructor| |constructor].
      assert (Hp : 0 < Pos.to_nat p) by lia.
      destruct (range_step_bound (length texts) (Pos.to_nat p) Hp)
        as [Hge Hlt].
      destruct (embed_batches_facts (Pos.to_nat p) texts Hp
                  ((length texts + Pos.to_nat p - 1) / Pos.to_nat p) 0 [] [])
        as (_ & _ & Hin & _); [cbn [Nat.add]; lia|].
      pose proof (embed_batches_no_single (Pos.to_nat p) texts
                    (VectorDB.range_step (length texts) (Pos.to_nat p))
                    [] []) as Hone.
      unfold VectorDB.range_step in *.
      set (effs := fst (VectorDB.embed_batches client _ texts _ [] [])) in *.
      clearbody effs. induction effs as [|ef effs IH]; [constructor|].
      assert (IH' : Forall (fun input => strip input <> "")
                      (VectorDB.sent effs)).
      { apply IH.
        - intros input Hi. apply Hin. now right.
        - intros x Hx. apply (Hone x). now right. }
      destruct ef as [x|input| | |]; cbn [VectorDB.sent]; try exact IH'.
      * elim (Hone x). now left.
      * apply Forall_app. split; [|exact IH'].
        destruct (Hin input (or_introl eq_refl)) as [[]|[_ Hx]].
        now apply Forall_forall.
  - intros text Hs. unfold VectorDB.clean_text_of, VectorDB.cleaned_batch.
    cbn [map]. rewrite Hs. split; reflexivity.
  - intros text Hs. unfold VectorDB.clean_text_of, VectorDB.cleaned_batch.
    cbn [map]. destruct (strip text) eqn:He; [now elim Hs|].
    split; reflexivity.
Qed.

End EmbeddingFacts.

(** ** The vector store *)

Section StoreFacts.
Variable db : VectorDB.store.
Variable client : VectorDB.embedder.

Lemma analyzed_app l1 l2 :
  VectorDB.analyzed (l1 ++ l2) = VectorDB.analyzed l1 ++ VectorDB.analyzed l2.
Proof.
  induction l1 as [|[]]; cbn [VectorDB.analyzed List.app];
    rewrite ?IHl1; reflexivity.
Qed.

(** The loop over the figures makes analysis calls only; when it ends,
    every figure whose file exists was analysed and has its item. *)
Lemma figure_items_facts figs : forall i items0 effs0,
  let out := VectorDB.figure_items db i figs items0 effs0 in
  (exists paths, fst out = effs0 ++ map VectorDB.Analyzed paths)
  /\ match snd out with
     | VectorDB.Done items =>
         VectorDB.analyzed (fst out)
         = VectorDB.analyzed effs0
           ++ map (fun p => FigureData.image_path (snd p))
                  (VectorDB.existing db i figs)
         /\ exists new, items = items0 ++ new
                        /\ Forall2 (VectorDB.item_of_figure db)
                             (VectorDB.existing db i figs) new
     | VectorDB.Failed r =>
         (exists e, r = VectorDB.Passed e)
         \/ (exists name, r = VectorDB.UnboundLocal name)
     end.
Proof.
  induction figs as [|fig rest IH]; intros i items0 effs0.
  - cbn. split; [exists []; now rewrite app_nil_r|].
    rewrite app_nil_r. split; [reflexivity|].
    exists []. rewrite app_nil_r. split; [reflexivity|constructor].
  - cbv zeta. cbn [VectorDB.figure_items]. unfold VectorDB.existing.
    cbn [length seq combine filter snd].
    fold (VectorDB.existing db (S i) rest).
    destruct (VectorDB.file_exists db (FigureData.image_path fig)) eqn:Hex;
      cbn [negb]; [|apply IH].
    destruct (VectorDB.analyze_image db i (FigureData.image_path fig))
      as [vl|e|name] eqn:Han.
    + match goal with
      | |- context [VectorDB.figure_items db (S i) rest ?it ?ef] =>
          specialize (IH (S i) it ef)
      end.
      cbv zeta in IH. destruct IH as ((paths & Hp) & IHo). split.
      * exists (FigureData.image_path fig :: paths).
        rewrite Hp, <- app_assoc. reflexivity.
      * destruct (snd (VectorDB.figure_items db (S i) rest _ _))
          as [items|r]; [|assumption].
        destruct IHo as (Ha & new & Hnew & Hf). split.
        -- rewrite Ha, analyzed_app, <- app_assoc. reflexivity.
        -- exists (VectorDB.figure_item fig vl :: new).
           rewrite Hnew, <- app_assoc. split; [reflexivity|].
           constructor; [|assumption]. exists vl. now split.
    + cbn [fst snd]. split; [|left; eauto].
      exists [FigureData.image_path fig]. reflexivity.
    + cbn [fst snd]. split; [|right; eauto].
      exists [FigureData.image_path fig]. reflexivity.
Qed.

Lemma generate_embeddings_effects base_url batch_size texts :
  Forall (fun ef => match ef with
                    | VectorDB.Analyzed _ | VectorDB.Upserted _ _ _ _ => False
                    | _ => True
                    end)
         (fst (VectorDB.generate_embeddings client base_url batch_size texts)).
Proof.
  unfold VectorDB.generate_embeddings.
  assert (Hb : forall b starts vecs0 effs0,
             Forall (fun ef => match ef with
                               | VectorDB.Analyzed _
                               | VectorDB.Upserted _ _ _ _ => False
                               | _ => True
                               end) effs0 ->
             Forall (fun ef => match ef with
                               | VectorDB.Analyzed _
                               | VectorDB.Upserted _ _ _ _ => False
                               | _ => True
                               end)
               (fst (VectorDB.embed_batches client b texts starts
                       vecs0 effs0))).
  { intros b starts. induction starts as [|i rest IH]; intros vecs0 effs0 H;
      [exact H|].
    cbn [VectorDB.embed_batches].
    destruct (VectorDB.create_batch client i _).
    - apply IH. apply Forall_app. split; [assumption|]. now repeat constructor.
    - cbn [fst]. apply Forall_app. split; [assumption|].
      now repeat constructor. }
  assert (He : forall ts i vecs0 effs0,
             Forall (fun ef => match ef with
                               | VectorDB.Analyzed _
                               | VectorDB.Upserted _ _ _ _ => False
                               | _ => True
                               end) effs0 ->
             Forall (fun ef => match ef with
                               | VectorDB.Analyzed _
                               | VectorDB.Upserted _ _ _ _ => False
                               | _ => True
                               end)
               (fst (VectorDB.embed_each client i ts vecs0 effs0))).
  { induction ts as [|t rest IH]; intros i vecs0 effs0 H; [exact H|].
    cbn [VectorDB.embed_each].
    assert (Hr : Forall (fun ef => match ef with
                                   | VectorDB.Analyzed _
                                   | VectorDB.Upserted _ _ _ _ => False
                                   | _ => True
                                   end)
                   (VectorDB.effects
                      (VectorDB.retry client VectorDB.max_retries i
                         (VectorDB.clean_text_of t)
                         {| VectorDB.success := false;
                            VectorDB.retry_count := 0;
                            VectorDB.all_embeddings := vecs0;
                            VectorDB.effects := effs0 |}))).
    { apply (retry_rule client VectorDB.max_retries i
               (VectorDB.clean_text_of t)
               (fun st => Forall (fun ef => match ef with
                                            | VectorDB.Analyzed _
                                            | VectorDB.Upserted _ _ _ _ => False
                                            | _ => True
                                            end) (VectorDB.effects st)));
        [|exact H].
      intros st Hst _ _. unfold VectorDB.try_once.
      destruct (VectorDB.create_one client i _ _) as [[emb|]|e];
        cbn [VectorDB.effects]; repeat (apply Forall_app; split);
        try assumption; now repeat constructor. }
    destruct (VectorDB.success _); cbn [negb fst]; [|exact Hr].
    now apply IH. }
  destruct (contains "modelscope.cn" base_url); [now apply He|].
  destruct batch_size; try constructor. now apply Hb.
Qed.

(** X24: [add_documents] writes to the collection at most once, as its
    last step, after every analysis and every embedding succeeded. What
    it writes is aligned: as many ids, vectors, documents and metadata
    as items; the items are the text chunks of five characters or more,
    in order, then one per figure whose image file exists, in order, with
    the caption, description and insights of its analysis as document. *)
Theorem add_documents_upserts_once_aligned (base_url : string)
    (batch_size : Z) (text_chunks : list TextChunk.t)
    (figure_data : list FigureData.t) (ids : list string)
    (embeddings : list VectorDB.embedding) (documents : list string)
    (metadatas : list (list (string * pyval))) :
  let effs := fst (VectorDB.add_documents db client base_url batch_size
                     text_chunks figure_data) in
  In (VectorDB.Upserted ids embeddings documents metadatas) effs ->
  VectorDB.written_once_aligned db text_chunks figure_data effs
    ids embeddings documents metadatas.
Proof.
  cbv zeta. unfold VectorDB.written_once_aligned, VectorDB.add_documents.
  destruct (figure_items_facts figure_data 0
              (VectorDB.text_items text_chunks) [])
    as ((paths & Hpaths) & Ho).
  cbv zeta in Hpaths, Ho.
  destruct (VectorDB.figure_items db 0 figure_data _ [])
    as [effs0 [items|r]] eqn:Hfig; cbn [fst snd] in Hpaths, Ho.
  2:{ cbn [fst]. subst effs0. cbn [List.app]. intros H.
      apply in_map_iff in H. destruct H as (x & Hx & _). discriminate. }
  assert (Hno0 : forall l,
             In (VectorDB.Upserted ids embeddings documents metadatas)
                (effs0 ++ l) ->
             In (VectorDB.Upserted ids embeddings documents metadatas) l).
  { intros l H. apply in_app_iff in H. destruct H as [H|H]; [|exact H].
    subst effs0. cbn [List.app] in H.
    apply in_map_iff in H. destruct H as (x & Hx & _). discriminate. }
  assert (Hpre0 : forallb (fun ef => negb (VectorDB.is_upsert ef)) effs0
                  = true).
  { subst effs0. cbn [List.app]. apply forallb_forall. intros x Hx.
    apply in_map_iff in Hx. destruct Hx as (y & <- & _). reflexivity. }
  destruct Ho as (Han & new & Hnew & Hf).
  cbn [VectorDB.analyzed List.app] in Han.
  destruct items as [|item items'].
  { cbn [fst]. intros H. rewrite <- (app_nil_r effs0) in H.
    apply Hno0 in H. destruct H. }
  set (items := item :: items') in *.
  pose proof (generate_embeddings_effects base_url batch_size
                (map EvidenceItem.content items)) as Hgen.
  destruct (VectorDB.generate_embeddings client base_url batch_size
              (map EvidenceItem.content items)) as [geffs [vecs|r]];
    cbn [fst] in Hgen.
  2:{ cbn [fst]. intros H. apply Hno0 in H. rewrite Forall_forall in Hgen.
      now apply Hgen in H. }
  assert (Hpre : forallb (fun ef => negb (VectorDB.is_upsert ef))
                   (effs0 ++ geffs) = true).
  { rewrite forallb_app, Hpre0. cbn [andb]. apply forallb_forall.
    intros x Hx. rewrite Forall_forall in Hgen. apply Hgen in Hx.
    now destruct x. }
  assert (Hanz : VectorDB.analyzed (effs0 ++ geffs)
                 = map (fun p => FigureData.image_path (snd p))
                       (VectorDB.existing db 0 figure_data)).
  { rewrite analyzed_app, Han.
    assert (Hz : VectorDB.analyzed geffs = []).
    { clear - Hgen. induction geffs as [|ef l IH]; [reflexivity|].
      inversion Hgen; subst. destruct ef; cbn [VectorDB.analyzed];
        try contradiction; now apply IH. }
    rewrite Hz. apply app_nil_r. }
  destruct (Nat.eqb (length vecs) (length items)) eqn:Hlen; cbn [negb].
  2:{ cbn [fst]. intros H. apply Hno0 in H. rewrite Forall_forall in Hgen.
      now apply Hgen in H. }
  apply Nat.eqb_eq in Hlen.
  assert (Hlast : forall tail : VectorDB.outcome unit,
             In (VectorDB.Upserted ids embeddings documents metadatas)
                (fst ((effs0 ++ geffs)
                      ++ [VectorDB.Upserted (map EvidenceItem.id items) vecs
                            (map EvidenceItem.content items)
                            (map EvidenceItem.metadata items)], tail)) ->
             (exists pre,
                 fst ((effs0 ++ geffs)
                      ++ [VectorDB.Upserted (map EvidenceItem.id items) vecs
                            (map EvidenceItem.content items)
                            (map EvidenceItem.metadata items)], tail)
                 = pre ++ [VectorDB.Upserted ids embeddings documents
                             metadatas]
                 /\ forallb (fun ef => negb (VectorDB.is_upsert ef)) pre
                    = true
                 /\ VectorDB.analyzed pre
                    = map (fun p => FigureData.image_path (snd p))
                          (VectorDB.existing db 0 figure_data))
             /\ exists items1 figure_part,
                 items1 = VectorDB.text_items text_chunks ++ figure_part
                 /\ Forall2 (VectorDB.item_of_figure db)
                      (VectorDB.existing db 0 figure_data) figure_part
                 /\ ids = map EvidenceItem.id items1
                 /\ documents = map EvidenceItem.content items1
                 /\ metadatas = map EvidenceItem.metadata items1
                 /\ length embeddings = length items1
                 /\ items1 <> []).
  { intros tail H. cbn [fst] in H |- *. apply in_app_iff in H.
    destruct H as [H|[H|[]]].
    - exfalso. rewrite forallb_forall in Hpre. apply Hpre in H.
      discriminate.
    - inversion H; subst ids embeddings documents metadatas. split.
      + exists (effs0 ++ geffs). now split.
      + exists items, new. split; [exact Hnew|]. split; [exact Hf|].
        split; [reflexivity|]. split; [reflexivity|].
        split; [reflexivity|]. split; [exact Hlen|]. discriminate. }
  destruct (VectorDB.upsert db _ _ _ _); [|apply Hlast].
  destruct (VectorDB.count db); apply Hlast.
Qed.

(** What [add_documents] has done when it returns. *)
Lemma add_documents_done base_url batch_size text_chunks figure_data effs :
  VectorDB.add_documents db client base_url batch_size text_chunks
    figure_data = (effs, VectorDB.Done tt) ->
  exists items figure_part,
    items = VectorDB.text_items text_chunks ++ figure_part
    /\ Forall2 (VectorDB.item_of_figure db)
         (VectorDB.existing db 0 figure_data) figure_part
    /\ (items = []
        \/ exists vecs,
             In (VectorDB.Upserted (map EvidenceItem.id items) vecs
                   (map EvidenceItem.content items)
                   (map EvidenceItem.metadata items)) effs).
Proof.
  unfold VectorDB.add_documents.
  destruct (figure_items_facts figure_data 0
              (VectorDB.text_items text_chunks) []) as (_ & Ho).
  cbv zeta in Ho.
  destruct (VectorDB.figure_items db 0 figure_data _ [])
    as [effs0 [items|r]]; cbn [snd] in Ho; [|discriminate].
  destruct Ho as (_ & new & Hnew & Hf).
  intros H. exists items, new. split; [exact Hnew|]. split; [exact Hf|].
  destruct items as [|item items']; [now left|]. right.
  set (items := item :: items') in *.
  destruct (VectorDB.generate_embeddings client base_url batch_size
              (map EvidenceItem.content items)) as [geffs [vecs|r]];
    [|discriminate].
  destruct (Nat.eqb (length vecs) (length items)); cbn [negb] in H;
    [|discriminate].
  exists vecs.
  destruct (VectorDB.upsert db _ _ _ _); [|discriminate].
  destruct (VectorDB.count db); [|discriminate].
  inversion H. apply in_app_iff. right. now left.
Qed.

Lemma existing_nth i fig : forall figure_data k,
  nth_error figure_data i = Some fig ->
  VectorDB.file_exists db (FigureData.image_path fig) = true ->
  In (k + i, fig) (VectorDB.existing db k figure_data).
Proof.
  unfold VectorDB.existing. induction i as [|i IH]; intros figs k Hn Hex.
  - destruct figs as [|f rest]; [discriminate|]. inversion Hn; subst f.
    cbn [length seq combine filter snd]. rewrite Hex, Nat.add_0_r. now left.
  - destruct figs as [|f rest]; [discriminate|]. cbn [nth_error] in Hn.
    cbn [length seq combine filter snd].
    replace (k + S i) with (S k + i) by lia.
    destruct (VectorDB.file_exists db (FigureData.image_path f));
      [right|]; now apply IH.
Qed.

(** X25: in the rate-limited mode [add_documents] never raises its own
    error on the number of vectors: the check that follows
    [generate_embeddings] can fail in the batch mode only. *)
Theorem add_documents_mismatch_in_batch_mode_only (base_url : string)
    (batch_size : Z) (text_chunks : list TextChunk.t)
    (figure_data : list FigureData.t) (needed got : nat) :
  snd (VectorDB.add_documents db client base_url batch_size
         text_chunks figure_data)
  = VectorDB.Failed (VectorDB.CountMismatch needed got) ->
  contains "modelscope.cn" base_url = false /\ needed <> got.
Proof.
  unfold VectorDB.add_documents.
  destruct (figure_items_facts figure_data 0
              (VectorDB.text_items text_chunks) []) as (_ & Ho).
  cbv zeta in Ho.
  destruct (VectorDB.figure_items db 0 figure_data _ [])
    as [effs0 [items|r]]; cbn [snd] in Ho |- *.
  2:{ destruct Ho as [[e ->]|[name ->]]; discriminate. }
  destruct items as [|item items']; [discriminate|].
  set (items := item :: items') in *.
  pose proof (embed_each_facts client (map EvidenceItem.content items)
                0 [] []) as He.
  cbv zeta in He. destruct He as (_ & _ & _ & He).
  pose proof (generate_embeddings_effects base_url batch_size
                (map EvidenceItem.content items)) as Hgen.
  unfold VectorDB.generate_embeddings in *.
  destruct (contains "modelscope.cn" base_url).
  - destruct (VectorDB.embed_each client 0 _ [] []) as [geffs [vecs|r]];
      cbn [snd] in He |- *.
    + destruct He as [Hlen _]. rewrite length_map in Hlen.
      cbn [length Nat.add] in Hlen. rewrite Hlen, Nat.eqb_refl. cbn [negb].
      destruct (VectorDB.upsert db _ _ _ _); [|discriminate].
      destruct (VectorDB.count db); discriminate.
    + destruct He as (t & _ & ->). discriminate.
  - match goal with
    | |- context [let '(_, _) := ?g in _] =>
        destruct g as [geffs [vecs|r]] eqn:Hg
    end; cbn [snd].
    + destruct (Nat.eqb (length vecs) (length items)) eqn:Hlen; cbn [negb].
      * destruct (VectorDB.upsert db _ _ _ _); [|discriminate].
        destruct (VectorDB.count db); discriminate.
      * apply Nat.eqb_neq in Hlen. intros H. inversion H. subst.
        split; [reflexivity|]. auto.
    + intros H. inversion H. subst r. exfalso.
      destruct batch_size as [|p|p]; try discriminate.
      destruct (embed_batches_facts client (Pos.to_nat p)
                  (map EvidenceItem.content items) ltac:(lia)
                  ((length (map EvidenceItem.content items)
                    + Pos.to_nat p - 1) / Pos.to_nat p) 0 [] [])
        as (_ & _ & _ & Hout).
      { destruct (range_step_bound
                    (length (map EvidenceItem.content items))
                    (Pos.to_nat p) ltac:(lia)) as [_ Hlt].
        cbn [Nat.add]. lia. }
      unfold VectorDB.range_step in Hg. rewrite Hg in Hout.
      cbn [snd] in Hout. destruct Hout as (e & _ & _ & He' & _).
      discriminate.
Qed.

(** X27: a figure whose analysis fails is written to the collection all
    the same. When the three calls of the model fail for a figure whose
    file exists, the last one on anything but a [JSONDecodeError], and
    [add_documents] returns, the collection has received for that figure
    the document made of its caption, the description
    "Error calling VL model." and the error's text as insights. *)
Theorem failed_analysis_is_stored {lib : Library} (base_url : string)
    (batch_size : Z) (text_chunks : list TextChunk.t)
    (figure_data : list FigureData.t) (effs : list VectorDB.effect)
    (i : nat) (fig : FigureData.t) (base64_image : string)
    (create : nat -> result pyval) (e : exception) :
  VectorDB.add_documents db client base_url batch_size text_chunks
    figure_data = (effs, VectorDB.Done tt) ->
  nth_error figure_data i = Some fig ->
  VectorDB.file_exists db (FigureData.image_path fig) = true ->
  VectorDB.analyze_image db i (FigureData.image_path fig)
  = snd (VLAgent.analyze_image true true (Return base64_image) (Return tt)
           create) ->
  (forall j, j < 2 -> exists e', VLAgent.reply (create j) = Raise e') ->
  VLAgent.reply (create 2) = Raise e ->
  exc_type e <> JSONDecodeError ->
  exists ids embeddings documents metadatas,
    In (VectorDB.Upserted ids embeddings documents metadatas) effs
    /\ In (VectorDB.rich_content fig
             {| description := "Error calling VL model.";
                insights := exc_str e |}) documents
    /\ In (FigureData.figure_id fig) ids.
Proof.
  intros Hdone Hnth Hex Hvl Hfirst Hlast Hne.
  assert (Hout : VectorDB.analyze_image db i (FigureData.image_path fig)
                 = VLAgent.Returned
                     {| description := "Error calling VL model.";
                        insights := exc_str e |}).
  { rewrite Hvl.
    destruct (analyze_image_ends base64_image create)
      as [(k & v & Hk & _ & Hv & _)|(e' & _ & Hlast' & _ & Hr)].
    - exfalso. destruct (Nat.eq_dec k 2) as [->|Hk2]; [congruence|].
      destruct (Hfirst k ltac:(lia)) as [e' He']. congruence.
    - cbv zeta in Hr. rewrite Hr.
      assert (e' = e) by congruence. subst e'.
      destruct (exc_type e); try reflexivity. now elim Hne. }
  destruct (add_documents_done _ _ _ _ _ Hdone)
    as (items & part & Hitems & Hf & Hw).
  pose proof (existing_nth i fig figure_data 0 Hnth Hex) as Hin.
  cbn [Nat.add] in Hin.
  assert (Hitem : In (VectorDB.figure_item fig
                        {| description := "Error calling VL model.";
                           insights := exc_str e |}) part).
  { clear - Hf Hin Hout. induction Hf as [|p it l l' Hp _ IH]; [destruct Hin|].
    destruct Hin as [->|Hin]; [|right; now apply IH].
    left. destruct Hp as (vl & Hvl & ->). cbn [fst snd] in Hvl.
    rewrite Hout in Hvl. now inversion Hvl. }
  assert (Hitem' : In (VectorDB.figure_item fig
                         {| description := "Error calling VL model.";
                            insights := exc_str e |}) items).
  { rewrite Hitems. apply in_app_iff. now right. }
  destruct Hw as [Hnil|[vecs Hw]]; [rewrite Hnil in Hitem'; destruct Hitem'|].
  exists (map EvidenceItem.id items), vecs,
         (map EvidenceItem.content items),
         (map EvidenceItem.metadata items).
  split; [exact Hw|]. split.
  - apply in_map_iff. eexists. split; [|exact Hitem']. reflexivity.
  - apply in_map_iff. eexists. split; [|exact Hitem']. reflexivity.
Qed.

End StoreFacts.

(** X26: when no text chunk has five characters and no figure has its
    image file, [ingest_document] reports "Ingestion Complete! Document
    is ready for search." although it made no call to the model, the
    embeddings API or the collection. *)
Theorem ingestion_complete_with_nothing_stored (E : Type)
    (db : VectorDB.store) (client : VectorDB.embedder) (base_url : string)
    (batch_size : Z) (pdf_path : string) (text_chunks : list TextChunk.t)
    (figure_data : list FigureData.t) :
  Forall (fun chunk => String.length (TextChunk.content chunk) < 5)
    text_chunks ->
  Forall (fun fig =>
            VectorDB.file_exists db (FigureData.image_path fig) = false)
    figure_data ->
  ingest_document (E := E) (inr (text_chunks, figure_data)) (Return db)
    client base_url batch_size pdf_path
  = ([Starting pdf_path;
      Parsed (length text_chunks) (length figure_data);
      Complete], []).
Proof.
  intros Hshort Hmissing. unfold ingest_document, VectorDB.add_documents.
  assert (Ht : VectorDB.text_items text_chunks = []).
  { unfold VectorDB.text_items. induction Hshort as [|c l Hc _ IH];
      [reflexivity|].
    cbn [filter]. apply Nat.ltb_lt in Hc. rewrite Hc. cbn [negb]. exact IH. }
  rewrite Ht.
  assert (Hf : forall i, VectorDB.figure_items db i figure_data [] []
                         = ([], VectorDB.Done [])).
  { induction Hmissing as [|f l Hfm _ IH]; intros i; [reflexivity|].
    cbn [VectorDB.figure_items]. rewrite Hfm. cbn [negb]. apply IH. }
  rewrite Hf. reflexivity.
Qed.

(** Witness of X21: three texts, the second blank, the API busy twice. *)
Lemma rate_limited_mode_one_vector_per_text_witness :
  let out := VectorDB.generate_embeddings Ingestion.busy
               Ingestion.rate_limited_url 16 Ingestion.texts in
  let clean j := VectorDB.clean_text_of (nth j Ingestion.texts "") in
  VectorDB.calls (fst out) <= 5 * length Ingestion.texts
  /\ VectorDB.slept (fst out) <= 300 * length Ingestion.texts
  /\ match snd out with
     | VectorDB.Done vecs =>
         length vecs = length Ingestion.texts
         /\ length Ingestion.texts <= VectorDB.calls (fst out)
         /\ exists tries,
              length tries = length Ingestion.texts
              /\ VectorDB.sent (fst out)
                 = VectorDB.inputs Ingestion.texts tries
              /\ forall j, j < length Ingestion.texts ->
                   nth j tries 0 <= 5
                   /\ VectorDB.embedded_at Ingestion.busy j (clean j)
                        (nth j tries 0) (nth j vecs [])
     | VectorDB.Failed r =>
         exists j tries,
           j < length Ingestion.texts
           /\ length tries = j
           /\ r = VectorDB.EmbeddingFailed (substring 0 20 (clean j))
           /\ (forall n, n < 5 ->
                         VectorDB.failed Ingestion.busy j n (clean j))
           /\ VectorDB.sent (fst out)
              = VectorDB.inputs (firstn j Ingestion.texts) tries
                ++ repeat (clean j) 5
           /\ forall j', j' < j ->
                nth j' tries 0 <= 5
                /\ exists emb,
                     VectorDB.embedded_at Ingestion.busy j' (clean j')
                       (nth j' tries 0) emb
     end.
Proof.
  apply (rate_limited_mode_one_vector_per_text Ingestion.busy
           Ingestion.rate_limited_url 16 Ingestion.texts).
  vm_compute. reflexivity.
Defined.

(** The two ways out of the rate-limited mode at work: the busy API gives
    a vector per text, the second text at its third call; the API whose
    replies carry no item is called five times for the first text, a
    second apart, and no more. *)
Example rate_limited_mode_at_work :
  let busy := VectorDB.generate_embeddings Ingestion.busy
                Ingestion.rate_limited_url 16 Ingestion.texts in
  let stingy := VectorDB.generate_embeddings Ingestion.stingy
                  Ingestion.rate_limited_url 16 Ingestion.texts in
  snd busy = VectorDB.Done [Ingestion.vector; Ingestion.vector;
                            Ingestion.vector]
  /\ VectorDB.sent (fst busy)
     = VectorDB.inputs Ingestion.texts [1; 3; 1]
  /\ VectorDB.sent (fst busy)
     = ["Accuracy grows."; "empty_node"; "empty_node"; "empty_node";
        "We train on 300B tokens."]
  /\ snd stingy = VectorDB.Failed (VectorDB.EmbeddingFailed "Accuracy grows.")
  /\ VectorDB.sent (fst stingy) = repeat "Accuracy grows." 5
  /\ VectorDB.slept (fst stingy) = 50.
Proof. vm_compute. repeat split. Qed.

(** Witness of X22: the same texts in batches of two. *)
Lemma batch_mode_sends_each_text_once_witness :
  exists effs vecs,
    VectorDB.generate_embeddings Ingestion.busy Ingestion.batch_url 2
      Ingestion.texts
    = (effs, VectorDB.Done vecs)
    /\ VectorDB.sent effs = VectorDB.cleaned_batch Ingestion.texts
    /\ VectorDB.calls effs = (length Ingestion.texts + 2 - 1) / 2
    /\ VectorDB.slept effs = 0
    /\ (forall input, In (VectorDB.CalledBatch input) effs ->
          0 < length input <= 2)
    /\ ((forall i input data,
           VectorDB.create_batch Ingestion.busy i input = Return data ->
           length data = length input) ->
        length vecs = length Ingestion.texts).
Proof.
  do 2 eexists.
  assert (H : VectorDB.generate_embeddings Ingestion.busy Ingestion.batch_url
                2 Ingestion.texts = (_, VectorDB.Done _))
    by (vm_compute; reflexivity).
  split; [exact H|].
  exact (batch_mode_sends_each_text_once Ingestion.busy Ingestion.batch_url
           2%positive Ingestion.texts _ _ eq_refl H).
Defined.

(** Witness of X24: two of three text chunks and one of two figures are
    written. *)
Lemma add_documents_upserts_once_aligned_witness :
  let effs := fst (VectorDB.add_documents Ingestion.db Ingestion.busy
                     Ingestion.batch_url 2 Ingestion.text_chunks
                     Ingestion.figure_data) in
  exists embeddings documents metadatas,
    In (VectorDB.Upserted ["c1"; "c3"; "paper_fig1.png"] embeddings
          documents metadatas) effs
    /\ VectorDB.written_once_aligned Ingestion.db Ingestion.text_chunks
         Ingestion.figure_data effs ["c1"; "c3"; "paper_fig1.png"]
         embeddings documents metadatas.
Proof.
  cbv zeta. do 3 eexists.
  match goal with
  | |- ?P /\ _ => assert (H : P)
  end.
  { lazy. repeat (first [left; reflexivity | right]). }
  split; [exact H|].
  exact (add_documents_upserts_once_aligned Ingestion.db Ingestion.busy
           Ingestion.batch_url 2 Ingestion.text_chunks Ingestion.figure_data
           _ _ _ _ H).
Defined.

(** Witness of X25: replies without items, in the batch mode. *)
Lemma add_documents_mismatch_in_batch_mode_only_witness :
  snd (VectorDB.add_documents Ingestion.db Ingestion.stingy
         Ingestion.batch_url 2 Ingestion.text_chunks Ingestion.figure_data)
  = VectorDB.Failed (VectorDB.CountMismatch 3 0)
  /\ contains "modelscope.cn" Ingestion.batch_url = false /\ 3 <> 0.
Proof.
  assert (H : snd (VectorDB.add_documents Ingestion.db Ingestion.stingy
                     Ingestion.batch_url 2 Ingestion.text_chunks
                     Ingestion.figure_data)
              = VectorDB.Failed (VectorDB.CountMismatch 3 0))
    by (vm_compute; reflexivity).
  split; [exact H|].
  exact (add_documents_mismatch_in_batch_mode_only Ingestion.db
           Ingestion.stingy Ingestion.batch_url 2 Ingestion.text_chunks
           Ingestion.figure_data 3 0 H).
Defined.

(** Witness of X26: a section number and a figure whose file is lost. *)
Lemma ingestion_complete_with_nothing_stored_witness :
  ingest_document (E := exception)
    (inr ([ {| TextChunk.chunk_id := "c2"; TextChunk.page_number := 1;
               TextChunk.content := "2.1" |} ],
          [ {| FigureData.figure_id := "paper_lost.png";
               FigureData.page_number := 0;
               FigureData.image_path := "/data/images/paper_lost.png";
               FigureData.caption := None |} ]))
    (Return Ingestion.db) Ingestion.busy Ingestion.batch_url 2 "paper.pdf"
  = ([Starting "paper.pdf"; Parsed 1 1; Complete], []).
Proof.
  apply (ingestion_complete_with_nothing_stored exception Ingestion.db
           Ingestion.busy Ingestion.batch_url 2 "paper.pdf").
  - repeat constructor.
  - repeat constructor.
Defined.

(** Witness of X27: the model never answers for the one figure whose
    file is there. *)
Lemma failed_analysis_is_stored_witness :
  exists effs ids embeddings documents metadatas,
    VectorDB.add_documents Ingestion.blind Ingestion.busy
      Ingestion.batch_url 2 Ingestion.text_chunks Ingestion.figure_data
    = (effs, VectorDB.Done tt)
    /\ In (VectorDB.Upserted ids embeddings documents metadatas) effs
    /\ In (VectorDB.rich_content Ingestion.fig1
             {| description := "Error calling VL model.";
                insights := "Request timed out." |}) documents
    /\ In "paper_fig1.png" ids.
Proof.
  eexists.
  assert (H : VectorDB.add_documents Ingestion.blind Ingestion.busy
                Ingestion.batch_url 2 Ingestion.text_chunks
                Ingestion.figure_data = (_, VectorDB.Done tt))
    by (vm_compute; reflexivity).
  destruct (failed_analysis_is_stored Ingestion.blind Ingestion.busy
              (lib := cpython) Ingestion.batch_url 2 Ingestion.text_chunks
              Ingestion.figure_data _ 1 Ingestion.fig1 "aGk="
              Ingestion.never_answers VLAgent.timeout H eq_refl eq_refl
              eq_refl)
    as (ids & embeddings & documents & metadatas & Hw).
  - intros j _. exists VLAgent.timeout. reflexivity.
  - reflexivity.
  - discriminate.
  - exists ids, embeddings, documents, metadatas. split; [exact H|exact Hw].
Defined.

(** ** The retrieval tool *)

Section ToolFacts.
Context {lib : Library}.
Variable validate_int : pyval -> result Z.

Lemma classify_shown raw : forall texts images,
  AgentTools.classify validate_int raw texts images
  = AgentTools.classify validate_int (filter AgentTools.shown raw)
      texts images.
Proof.
  induction raw as [|item rest IH]; intros texts images; [reflexivity|].
  cbn [filter]. unfold AgentTools.shown at 1.
  cbn [AgentTools.classify].
  destruct (AgentTools.is_value _ "text") eqn:Ht; cbn [orb].
  - cbn [AgentTools.classify]. rewrite Ht. apply IH.
  - destruct (AgentTools.is_value _ "image") eqn:Hi.
    + cbn [AgentTools.classify]. rewrite Ht, Hi.
      destruct (AgentTools.FigureData_init validate_int _ _ _ _);
        cbn [bind]; [apply IH|reflexivity].
    + apply IH.
Qed.

(** X28: an item whose type is neither "text" nor "image" changes
    nothing to the answer of [retriever_tool]: the answer is that for
    the results without such items. An item with no type counts as a
    text. *)
Theorem retriever_tool_ignores_other_types (env : AgentTools.environment)
    (raw_results : list EvidenceItem.t) (query : string) :
  AgentTools.search env = Return raw_results ->
  AgentTools.retriever_tool validate_int env query
  = AgentTools.retriever_tool validate_int
      {| AgentTools.get_vector_store := AgentTools.get_vector_store env;
         AgentTools.top_k := AgentTools.top_k env;
         AgentTools.search :=
           Return (filter AgentTools.shown raw_results) |}
      query.
Proof.
  intros Hs. unfold AgentTools.retriever_tool.
  cbn [AgentTools.get_vector_store AgentTools.top_k AgentTools.search].
  rewrite Hs, <- classify_shown. reflexivity.
Qed.

Lemma classify_raises raw : forall texts images e,
  AgentTools.classify validate_int raw texts images = Raise e ->
  exists item,
    In item raw
    /\ AgentTools.FigureData_init validate_int (EvidenceItem.id item)
         (AgentTools.get_or "page_number" (EvidenceItem.metadata item)
            (PInt 0))
         (AgentTools.get_or "image_path" (EvidenceItem.metadata item)
            (PStr ""))
         (EvidenceItem.content item)
       = Raise e.
Proof.
  induction raw as [|item rest IH]; intros texts images e; [discriminate|].
  cbn [AgentTools.classify].
  destruct (AgentTools.is_value _ "text").
  - intros H. apply IH in H. destruct H as (it & Hin & H).
    exists it. split; [now right|exact H].
  - destruct (AgentTools.is_value _ "image").
    + destruct (AgentTools.FigureData_init validate_int _ _ _ _) as [f|e']
        eqn:Hf; cbn [bind].
      * intros H. apply IH in H. destruct H as (it & Hin & H).
        exists it. split; [now right|exact H].
      * intros H. inversion H; subst e'. exists item. split; [now left|].
        exact Hf.
    + intros H. apply IH in H. destruct H as (it & Hin & H).
      exists it. split; [now right|exact H].
Qed.

Lemma classify_scores raw : forall texts images texts' images',
  AgentTools.classify validate_int raw texts images
  = Return (texts', images') ->
  forall t, In t texts' ->
    In t texts
    \/ exists item, In item raw
                    /\ EvidenceItem.score item = EvidenceItem.score t.
Proof.
  induction raw as [|item rest IH]; intros texts images texts' images'.
  - cbn. intros H. inversion H. now left.
  - cbn [AgentTools.classify].
    destruct (AgentTools.is_value _ "text").
    + intros H t Ht. destruct (IH _ _ _ _ H t Ht) as [Hin|(it & Hin & Hs)].
      * apply in_app_iff in Hin. destruct Hin as [Hin|[<-|[]]]; [now left|].
        right. exists item. split; [now left|reflexivity].
      * right. exists it. split; [now right|exact Hs].
    + destruct (AgentTools.is_value _ "image").
      * destruct (AgentTools.FigureData_init validate_int _ _ _ _);
          cbn [bind]; [|discriminate].
        intros H t Ht. destruct (IH _ _ _ _ H t Ht) as [Hin|(it & Hin & Hs)];
          [now left|].
        right. exists it. split; [now right|exact Hs].
      * intros H t Ht. destruct (IH _ _ _ _ H t Ht) as [Hin|(it & Hin & Hs)];
          [now left|].
        right. exists it. split; [now right|exact Hs].
Qed.

Lemma text_lines_raises texts : forall idx e,
  AgentTools.text_lines idx texts = Raise e ->
  e = Exc TypeError "unsupported format string passed to NoneType.__format__"
  /\ exists t, In t texts /\ EvidenceItem.score t = None.
Proof.
  induction texts as [|t rest IH]; intros idx e; [discriminate|].
  cbn [AgentTools.text_lines]. unfold AgentTools.text_line.
  destruct (EvidenceItem.score t) eqn:Hs; cbn [bind].
  - destruct (AgentTools.text_lines (S idx) rest) eqn:Hr; cbn [bind];
      [discriminate|].
    intros H. inversion H; subst. destruct (IH _ _ Hr) as (He & t' & Hin & Hn).
    split; [exact He|]. exists t'. split; [now right|exact Hn].
  - intros H. inversion H. split; [reflexivity|].
    exists t. split; [now left|exact Hs].
Qed.

(** X30: [retriever_tool] answers a failing search with a text,
    "Search Error: ..." followed by the error's text, and does not raise
    for it. It raises in these cases only: [get_vector_store()] raises;
    the read of [top_k] raises; the [FigureData] of an item of the
    results does not validate; or an item of the results has no score,
    which is a [TypeError] of the format [.2f]. *)
Theorem retriever_tool_raises_only_if (env : AgentTools.environment)
    (query : string) :
  (forall e,
      AgentTools.get_vector_store env = Return true ->
      AgentTools.top_k env = Return tt ->
      AgentTools.search env = Raise e ->
      AgentTools.retriever_tool validate_int env query
      = Return ("Search Error: An error occurred while searching: "
                ++ exc_str e)%string)
  /\ (forall e,
         AgentTools.retriever_tool validate_int env query = Raise e ->
         AgentTools.get_vector_store env = Raise e
         \/ AgentTools.top_k env = Raise e
         \/ exists raw_results item,
              AgentTools.search env = Return raw_results
              /\ In item raw_results
              /\ (AgentTools.FigureData_init validate_int
                    (EvidenceItem.id item)
                    (AgentTools.get_or "page_number"
                       (EvidenceItem.metadata item) (PInt 0))
                    (AgentTools.get_or "image_path"
                       (EvidenceItem.metadata item) (PStr ""))
                    (EvidenceItem.content item)
                  = Raise e
                  \/ (EvidenceItem.score item = None
                      /\ e = Exc TypeError
                               "unsupported format string passed to NoneType.__format__"))).
Proof.
  unfold AgentTools.retriever_tool. split.
  { intros e Hstore Htop Hsearch. rewrite Hstore, Htop, Hsearch.
    reflexivity. }
  intros e.
  destruct (AgentTools.get_vector_store env) as [store|e0]; cbn [bind].
  2:{ intros H. inversion H. now left. }
  destruct store; cbn [negb]; [|discriminate].
  destruct (AgentTools.top_k env) as [u|e0]; cbn [bind].
  2:{ intros H. inversion H. right. now left. }
  destruct (AgentTools.search env) as [raw|e0]; [|discriminate].
  intros H. right. right. exists raw.
  destruct (AgentTools.classify validate_int raw [] [])
    as [[texts images]|e0] eqn:Hc; cbn [bind] in H.
  - destruct texts as [|t texts].
    + cbn [bind] in H. destruct images; discriminate.
    + destruct (AgentTools.text_lines 0 (t :: texts)) as [lines|e0] eqn:Hl;
        cbn [bind] in H; [destruct images; discriminate|].
      inversion H; subst e0.
      destruct (text_lines_raises _ _ _ Hl) as (He & t' & Hin & Hn).
      destruct (classify_scores _ _ _ _ _ Hc t' Hin) as [[]|(it & Hit & Hs)].
      exists it. split; [reflexivity|]. split; [exact Hit|].
      right. split; [congruence|exact He].
  - inversion H; subst e0.
    destruct (classify_raises _ _ _ _ Hc) as (it & Hit & Hf).
    exists it. split; [reflexivity|]. split; [exact Hit|]. now left.
Qed.

Hypothesis validate_int_int : forall z, validate_int (PInt z) = Return z.

Lemma classify_found l : forall texts images,
  exists texts' images',
    AgentTools.classify validate_int (map AgentTools.found l) texts images
    = Return (texts ++ texts', images ++ images')
    /\ (forall idx,
          AgentTools.text_lines idx texts'
          = Return (AgentTools.numbered idx (AgentTools.listed_texts l)))
    /\ map AgentTools.image_line images'
       = map AgentTools.figure_line (AgentTools.listed_figures l)
    /\ length texts' = length (AgentTools.listed_texts l)
    /\ length images' = length (AgentTools.listed_figures l).
Proof.
  induction l as [|s rest IH]; intros texts images.
  - exists [], []. cbn. rewrite !app_nil_r. repeat split; reflexivity.
  - destruct s as [x chunk|x fig vl]; cbn [map AgentTools.found].
    + cbn [AgentTools.classify AgentTools.scored VectorDB.text_item
           EvidenceItem.metadata EvidenceItem.id EvidenceItem.content
           EvidenceItem.score].
      change (AgentTools.is_value
                (AgentTools.get_or "type"
                   [("page_number", PInt (TextChunk.page_number chunk));
                    ("type", PStr "text"); ("source", PStr "pdf_text");
                    ("chunk_id", PStr (TextChunk.chunk_id chunk))]
                   (PStr "text")) "text") with true.
      cbv iota.
      match goal with
      | |- context [AgentTools.classify validate_int _ (texts ++ [?t]) _] =>
          destruct (IH (texts ++ [t]) images)
            as (texts' & images' & Hc & Hl & Hi & Hlt & Hli);
          exists (t :: texts'), images'
      end.
      rewrite Hc, <- app_assoc. split; [reflexivity|].
      cbn [AgentTools.listed_texts flat_map List.app AgentTools.numbered
           length].
      fold (AgentTools.listed_texts rest).
      fold (AgentTools.listed_figures rest).
      split.
      * intros idx. cbn [AgentTools.text_lines]. unfold AgentTools.text_line.
        cbn [EvidenceItem.score EvidenceItem.content bind]. rewrite Hl.
        reflexivity.
      * split; [exact Hi|]. split; [now rewrite Hlt|exact Hli].
    + cbn [AgentTools.classify AgentTools.scored VectorDB.figure_item
           EvidenceItem.metadata EvidenceItem.id EvidenceItem.content
           EvidenceItem.score].
      change (AgentTools.is_value
                (AgentTools.get_or "type"
                   [("page_number", PInt (FigureData.page_number fig));
                    ("type", PStr "image");
                    ("image_path", PStr (FigureData.image_path fig));
                    ("source", PStr "pdf_figure");
                    ("caption",
                     PStr match FigureData.caption fig with
                          | Some s => s
                          | None => ""
                          end)]
                   (PStr "text")) "text") with false.
      change (AgentTools.is_value
                (AgentTools.get_or "type"
                   [("page_number", PInt (FigureData.page_number fig));
                    ("type", PStr "image");
                    ("image_path", PStr (FigureData.image_path fig));
                    ("source", PStr "pdf_figure");
                    ("caption",
                     PStr match FigureData.caption fig with
                          | Some s => s
                          | None => ""
                          end)]
                   (PStr "text")) "image") with true.
      cbv iota.
      change (AgentTools.get_or "page_number" _ (PInt 0))
        with (PInt (FigureData.page_number fig)).
      change (AgentTools.get_or "image_path" _ (PStr ""))
        with (PStr (FigureData.image_path fig)).
      unfold AgentTools.FigureData_init.
      rewrite validate_int_int, validate_str_str. cbn [bind].
      match goal with
      | |- context [AgentTools.classify validate_int _ _ (images ++ [?f])] =>
          destruct (IH texts (images ++ [f]))
            as (texts' & images' & Hc & Hl & Hi & Hlt & Hli);
          exists texts', (f :: images')
      end.
      rewrite Hc, <- app_assoc. split; [reflexivity|].
      cbn [AgentTools.listed_figures flat_map List.app map length].
      fold (AgentTools.listed_texts rest).
      fold (AgentTools.listed_figures rest).
      split; [exact Hl|]. split.
      * rewrite Hi. reflexivity.
      * split; [exact Hlt|now rewrite Hli].
Qed.

(** X29: [retriever_tool] lists everything [add_documents] writes. When
    the search returns items as [add_documents] wrote them, each with a
    score, the answer has the header, then the texts, numbered from 1 in
    the order of the results, each with its score to two decimals and its
    content cut at 400 characters, then the figures in the order of the
    results, each with its id, its page and its whole document; no item
    is dropped and no validation fails. Without any item the answer is
    "No relevant information found.". *)
Theorem retriever_tool_lists_what_was_stored (env : AgentTools.environment)
    (l : list AgentTools.stored) (query : string) :
  AgentTools.get_vector_store env = Return true ->
  AgentTools.top_k env = Return tt ->
  AgentTools.search env = Return (map AgentTools.found l) ->
  AgentTools.retriever_tool validate_int env query
  = Return (AgentTools.listing query l).
Proof.
  intros Hstore Htop Hsearch. unfold AgentTools.retriever_tool.
  rewrite Hstore, Htop, Hsearch. cbn [bind negb].
  destruct (classify_found l [] [])
    as (texts & images & Hc & Hl & Hi & Hlt & Hli).
  rewrite Hc. cbn [bind List.app]. unfold AgentTools.listing.
  specialize (Hl 0).
  destruct texts as [|t texts];
    destruct (AgentTools.listed_texts l) as [|lt lts]; try discriminate;
    destruct images as [|f images];
    destruct (AgentTools.listed_figures l) as [|lf lfs]; try discriminate;
    cbn [bind]; rewrite ?Hl; cbn [bind]; rewrite ?Hi;
    rewrite <- ?app_assoc; cbn [List.app]; rewrite ?app_nil_r; reflexivity.
Qed.

End ToolFacts.

(** Witness of X28: a table among the results. *)
Lemma retriever_tool_ignores_other_types_witness :
  AgentTools.retriever_tool (lib := cpython) AgentTools.strict_int
    (Retrieval.finding (Retrieval.table :: map AgentTools.found Retrieval.hits))
    "scaling"
  = AgentTools.retriever_tool (lib := cpython) AgentTools.strict_int
      (Retrieval.finding (map AgentTools.found Retrieval.hits)) "scaling".
Proof.
  exact (retriever_tool_ignores_other_types (lib := cpython)
           AgentTools.strict_int
           (Retrieval.finding
              (Retrieval.table :: map AgentTools.found Retrieval.hits))
           (Retrieval.table :: map AgentTools.found Retrieval.hits)
           "scaling" eq_refl).
Defined.

(** Witness of X29: a figure found before two texts. *)
Lemma retriever_tool_lists_what_was_stored_witness :
  AgentTools.retriever_tool (lib := cpython) AgentTools.strict_int
    (Retrieval.finding (map AgentTools.found Retrieval.hits)) "scaling"
  = Return (AgentTools.listing "scaling" Retrieval.hits).
Proof.
  exact (retriever_tool_lists_what_was_stored (lib := cpython)
           AgentTools.strict_int (fun z => eq_refl)
           (Retrieval.finding (map AgentTools.found Retrieval.hits))
           Retrieval.hits "scaling" eq_refl eq_refl eq_refl).
Defined.

(** Witness of X30: the items of [add_documents] as they are, without a
    score. *)
Lemma retriever_tool_raises_only_if_witness :
  let env := Retrieval.finding
               (map VectorDB.text_item Ingestion.text_chunks) in
  let e := Exc TypeError
             "unsupported format string passed to NoneType.__format__" in
  AgentTools.retriever_tool (lib := cpython) AgentTools.strict_int env
    "scaling" = Raise e
  /\ (AgentTools.get_vector_store env = Raise e
      \/ AgentTools.top_k env = Raise e
      \/ exists raw_results item,
           AgentTools.search env = Return raw_results
           /\ In item raw_results
           /\ (AgentTools.FigureData_init (lib := cpython)
                 AgentTools.strict_int (EvidenceItem.id item)
                 (AgentTools.get_or "page_number"
                    (EvidenceItem.metadata item) (PInt 0))
                 (AgentTools.get_or "image_path"
                    (EvidenceItem.metadata item) (PStr ""))
                 (EvidenceItem.content item)
               = Raise e
               \/ (EvidenceItem.score item = None /\ e = e))).
Proof.
  cbv zeta.
  assert (H : AgentTools.retriever_tool (lib := cpython)
                AgentTools.strict_int
                (Retrieval.finding
                   (map VectorDB.text_item Ingestion.text_chunks))
                "scaling"
              = Raise (Exc TypeError
                         "unsupported format string passed to NoneType.__format__"))
    by (vm_compute; reflexivity).
  split; [exact H|].
  exact (proj2 (retriever_tool_raises_only_if (lib := cpython)
                  AgentTools.strict_int
                  (Retrieval.finding
                     (map VectorDB.text_item Ingestion.text_chunks))
                  "scaling") _ H).
Defined.
